(** * Data loader of the tour-guide service: validators, file loaders,
      batch insertion and index creation

    Shallow embedding of [ml-service/scripts/load_initial_data.py].

    Python values are a small inductive universe, Python [str] is a list of
    Unicode code points, a [dict] is an insertion-ordered association list.
    Exceptions are an inductive type with one constructor per class the
    script can meet, and a [ValueError] carries one constructor per [raise]
    site of the script.  The wall clock ([datetime.utcnow]) and the local
    variables of the loaders live in the state of a small state-and-exception
    monad; the database driver and the file readers are inputs of the
    functions that call them. *)

From Stdlib Require Import List ZArith NArith QArith Bool Lia String Ascii.
Import ListNotations.

Set Warnings "-register-all".

Local Open Scope Z_scope.

(* ================================================================== *)
(** ** Python strings *)
(* ================================================================== *)

Module PyStr.

(** A Python [str]: a sequence of Unicode code points. *)
Definition pystr := list N.

(** An ASCII literal of the source, as a [pystr]. *)
Definition lit (s : string) : pystr := map N_of_ascii (list_ascii_of_string s).

Definition eqb (a b : pystr) : bool :=
  if list_eq_dec N.eq_dec a b then true else false.

(** [str.isspace] on one code point (CPython's [_PyUnicode_IsWhitespace]). *)
Definition isspace (c : N) : bool :=
  ((9 <=? c) && (c <=? 13) || (28 <=? c) && (c <=? 32)
   || (c =? 133) || (c =? 160) || (c =? 5760)
   || (8192 <=? c) && (c <=? 8202)
   || (c =? 8232) || (c =? 8233) || (c =? 8239) || (c =? 8287)
   || (c =? 12288))%N.

Fixpoint lstrip (s : pystr) : pystr :=
  match s with
  | [] => []
  | c :: s' => if isspace c then lstrip s' else s
  end.

Definition rstrip (s : pystr) : pystr := rev (lstrip (rev s)).

(** [s.strip()] *)
Definition strip (s : pystr) : pystr := rstrip (lstrip s).

(** [len(s)] *)
Definition len (s : pystr) : Z := Z.of_nat (List.length s).

Fixpoint startswith (p s : pystr) : bool :=
  match p, s with
  | [], _ => true
  | _ :: _, [] => false
  | a :: p', b :: s' => (a =? b)%N && startswith p' s'
  end.

(** [p in s] for two strings: substring test. *)
Fixpoint contains (p s : pystr) : bool :=
  startswith p s || match s with [] => false | _ :: s' => contains p s' end.

(** No whitespace at either end ([s == s.strip()] in Python terms). *)
Definition trimmed (s : pystr) : Prop :=
  (forall c r, s = c :: r -> isspace c = false) /\
  (forall c r, s = r ++ [c] -> isspace c = false).

End PyStr.

Abbreviation pystr := PyStr.pystr.

(* ================================================================== *)
(** ** Python values *)
(* ================================================================== *)

(** A Python [float]: comparisons against integers are exact in Python, so
    a finite double is modelled by the rational it denotes. *)
Inductive pyfloat :=
| FNaN
| FInf (negative : bool)
| FFin (q : Q).

Inductive pyval :=
| PNone
| PBool (b : bool)
| PInt (z : Z)
| PFloat (f : pyfloat)
| PStr (s : pystr)
| PDatetime (t : Z)
| PList (l : list pyval)
| PDict (d : list (pystr * pyval)).

Definition dict := list (pystr * pyval).

Module Dict.

Fixpoint get (d : dict) (k : pystr) : option pyval :=
  match d with
  | [] => None
  | (k', v) :: d' => if PyStr.eqb k k' then Some v else get d' k
  end.

(** [k in d] *)
Definition mem (d : dict) (k : pystr) : bool :=
  match get d k with Some _ => true | None => false end.

(** [d[k] = v]: replaces the value in place, or appends a new key. *)
Fixpoint set (d : dict) (k : pystr) (v : pyval) : dict :=
  match d with
  | [] => [(k, v)]
  | (k', v') :: d' =>
      if PyStr.eqb k k' then (k', v) :: d' else (k', v') :: set d' k v
  end.

End Dict.

(** Truth value of an object ([not x] is its negation). *)
Definition truthy (v : pyval) : bool :=
  match v with
  | PNone => false
  | PBool b => b
  | PInt z => negb (z =? 0)
  | PFloat FNaN => true
  | PFloat (FInf _) => true
  | PFloat (FFin q) => negb (Qeq_bool q 0)
  | PStr s => match s with [] => false | _ => true end
  | PDatetime _ => true
  | PList l => match l with [] => false | _ => true end
  | PDict d => match d with [] => false | _ => true end
  end.

(** [v == s] for a string literal [s]: only an equal [str] compares equal. *)
Definition eq_str (v : pyval) (s : pystr) : bool :=
  match v with
  | PStr s' => PyStr.eqb s' s
  | _ => false
  end.

(* ================================================================== *)
(** ** Exceptions *)
(* ================================================================== *)

(** The argument of each [raise ValueError(...)] of the script. *)
Inductive message :=
| MissingRequiredField (field : pystr)
| ReviewTextTooShort
| InvalidCoordinateType
| InvalidCoordinatesFormat
| InvalidLongitude (longitude : pyval)
| InvalidLatitude (latitude : pyval)
| MissingCsvColumns (missing : list pystr)
| InvalidJsonFormat (detail : pystr)
| JsonMustContainArray.

(** One entry of [e.details['writeErrors']] of a [BulkWriteError]. *)
Record write_error := { we_index : Z; we_code : Z }.

(** The exceptions of a run.  [DigitLimitError] is the plain [ValueError]
    of the interpreter on an integer literal of more than 4300 digits;
    [CsvError] is [csv.Error]; [OSError] is an [OSError] of [open] other
    than [FileNotFoundError] (a directory, a file that may not be read). *)
Inductive exn :=
| ValueError (m : message)
| UnicodeDecodeError
| JSONDecodeError (detail : pystr)
| AttributeError
| TypeError
| KeyError
| FileNotFoundError
| BulkWriteError (nInserted : Z) (writeErrors : list write_error)
| PyMongoError
| DigitLimitError
| RecursionError
| CsvError
| OSError.

(** [isinstance(e, ValueError)]: [UnicodeDecodeError] and
    [json.JSONDecodeError] are subclasses of [ValueError]. *)
Definition is_ValueError (e : exn) : bool :=
  match e with
  | ValueError _ | UnicodeDecodeError | JSONDecodeError _
  | DigitLimitError => true
  | AttributeError | TypeError | KeyError | FileNotFoundError
  | BulkWriteError _ _ | PyMongoError | RecursionError | CsvError
  | OSError => false
  end.

(** The failure names of the specification's taxonomy. *)
Inductive failure :=
| MissingField | TooShort | InvalidGeoType | InvalidCoordinateArity
| OutOfRange | SchemaMismatch | InvalidJson | InvalidShape.

Definition failure_of (m : message) : failure :=
  match m with
  | MissingRequiredField _ => MissingField
  | ReviewTextTooShort => TooShort
  | InvalidCoordinateType => InvalidGeoType
  | InvalidCoordinatesFormat => InvalidCoordinateArity
  | InvalidLongitude _ | InvalidLatitude _ => OutOfRange
  | MissingCsvColumns _ => SchemaMismatch
  | InvalidJsonFormat _ => InvalidJson
  | JsonMustContainArray => InvalidShape
  end.

(** [fails_with e f]: [e] is the [ValueError] the specification calls [f]. *)
Definition fails_with (e : exn) (f : failure) : Prop :=
  exists m, e = ValueError m /\ failure_of m = f.

(* ================================================================== *)
(** ** State and exceptions *)
(* ================================================================== *)

Inductive outcome (A : Type) :=
| Return (a : A)
| Raise (e : exn).
Arguments Return {A} a.
Arguments Raise {A} e.

(** A computation over a state [S]: the state reached is kept when an
    exception is raised, as Python keeps the locals and the clock. *)
Definition M (S A : Type) : Type := S -> outcome A * S.

Definition ret {S A} (a : A) : M S A := fun s => (Return a, s).
Definition raise {S A} (e : exn) : M S A := fun s => (Raise e, s).
Definition bind {S A B} (m : M S A) (k : A -> M S B) : M S B :=
  fun s => match m s with
           | (Return a, s') => k a s'
           | (Raise e, s') => (Raise e, s')
           end.
Definition get_state {S} : M S S := fun s => (Return s, s).
Definition modify {S} (f : S -> S) : M S unit := fun s => (Return tt, f s).

(** [try: body  except ValueError as e: handler(e)] *)
Definition try_except_ValueError {S A} (body : M S A) (handler : exn -> M S A)
  : M S A :=
  fun s => match body s with
           | (Return a, s') => (Return a, s')
           | (Raise e, s') =>
               if is_ValueError e then handler e s' else (Raise e, s')
           end.

(** [try: body  except UnicodeDecodeError: handler] *)
Definition try_except_UnicodeDecodeError {S A} (body : M S A) (handler : M S A)
  : M S A :=
  fun s => match body s with
           | (Raise UnicodeDecodeError, s') => handler s'
           | r => r
           end.

(** [try: body  except BulkWriteError as e: handler(e.details)] *)
Definition try_except_BulkWriteError {S A} (body : M S A)
    (handler : Z -> list write_error -> M S A) : M S A :=
  fun s => match body s with
           | (Raise (BulkWriteError n errs), s') => handler n errs s'
           | r => r
           end.

(** [try: body  except json.JSONDecodeError as e: handler(e)] *)
Definition try_except_JSONDecodeError {S A} (body : M S A)
    (handler : pystr -> M S A) : M S A :=
  fun s => match body s with
           | (Raise (JSONDecodeError d), s') => handler d s'
           | r => r
           end.

(** Runs a computation over a part of the state. *)
Definition zoom {S T A} (proj : S -> T) (upd : T -> S -> S) (m : M T A)
  : M S A :=
  fun s => let (r, t) := m (proj s) in (r, upd t s).

Declare Scope py_scope.
Delimit Scope py_scope with py.
Notation "x <- m ;; k" := (bind m (fun x => k))
  (at level 61, m at next level, right associativity) : py_scope.
Notation "m ;;; k" := (bind m (fun _ => k))
  (at level 61, right associativity) : py_scope.

(** [for x in xs: body(x)] *)
Fixpoint for_each {S A} (xs : list A) (body : A -> M S unit) : M S unit :=
  match xs with
  | [] => ret tt
  | x :: xs' => bind (body x) (fun _ => for_each xs' body)
  end.

(** [enumerate(xs, start)] *)
Fixpoint enumerate {A} (start : Z) (xs : list A) : list (Z * A) :=
  match xs with
  | [] => []
  | x :: xs' => (start, x) :: enumerate (start + 1) xs'
  end.

Local Open Scope py_scope.

(* ================================================================== *)
(** ** Operations of Python objects the script uses *)
(* ================================================================== *)

Module Py.

(** [obj.strip()]: only a [str] has the method. *)
Definition strip {S} (v : pyval) : M S pyval :=
  match v with
  | PStr s => ret (PStr (PyStr.strip s))
  | _ => raise AttributeError
  end.

(** [len(obj)] *)
Definition len {S} (v : pyval) : M S Z :=
  match v with
  | PStr s => ret (PyStr.len s)
  | PList l => ret (Z.of_nat (List.length l))
  | PDict d => ret (Z.of_nat (List.length d))
  | _ => raise TypeError
  end.

(** [key in obj] for a [str] key: key lookup in a dict, element test in a
    list, substring test in a string, [TypeError] elsewhere. *)
Definition contains {S} (key : pystr) (v : pyval) : M S bool :=
  match v with
  | PDict d => ret (Dict.mem d key)
  | PList l => ret (existsb (fun x => eq_str x key) l)
  | PStr s => ret (PyStr.contains key s)
  | _ => raise TypeError
  end.

(** [obj[key]] for a [str] key: a list or a string takes integer indices
    only. *)
Definition getitem {S} (v : pyval) (key : pystr) : M S pyval :=
  match v with
  | PDict d => match Dict.get d key with
               | Some x => ret x
               | None => raise KeyError
               end
  | _ => raise TypeError
  end.

(** [obj.get(key, default)]: only a dict has the method. *)
Definition get {S} (v : pyval) (key : pystr) (default : pyval) : M S pyval :=
  match v with
  | PDict d => ret (match Dict.get d key with Some x => x | None => default end)
  | _ => raise AttributeError
  end.

(** [obj[key] = x] *)
Definition setitem {S} (v : pyval) (key : pystr) (x : pyval) : M S pyval :=
  match v with
  | PDict d => ret (PDict (Dict.set d key x))
  | _ => raise TypeError
  end.

(** [a, b = obj], once [len(obj) == 2] is known: the two elements of a
    list, the two characters of a string, the two keys of a dict. *)
Definition unpack2 {S} (v : pyval) : M S (pyval * pyval) :=
  match v with
  | PList [a; b] => ret (a, b)
  | PStr [a; b] => ret (PStr [a], PStr [b])
  | PDict [(a, _); (b, _)] => ret (PStr a, PStr b)
  | _ => raise TypeError
  end.

(** [lo <= x] and [x <= hi] for integer literals [lo], [hi]: exact on
    [int], [bool] and [float], false on NaN, [TypeError] elsewhere. *)
Definition int_le {S} (lo : Z) (x : pyval) : M S bool :=
  match x with
  | PInt z => ret (lo <=? z)
  | PBool b => ret (lo <=? (if b then 1 else 0))
  | PFloat FNaN => ret false
  | PFloat (FInf negative) => ret (negb negative)
  | PFloat (FFin q) => ret (Qle_bool (inject_Z lo) q)
  | _ => raise TypeError
  end.

Definition le_int {S} (x : pyval) (hi : Z) : M S bool :=
  match x with
  | PInt z => ret (z <=? hi)
  | PBool b => ret ((if b then 1 else 0) <=? hi)
  | PFloat FNaN => ret false
  | PFloat (FInf negative) => ret negative
  | PFloat (FFin q) => ret (Qle_bool q (inject_Z hi))
  | _ => raise TypeError
  end.

(** The chained comparison [lo <= x <= hi]. *)
Definition between {S} (lo : Z) (x : pyval) (hi : Z) : M S bool :=
  a <- int_le lo x ;;
  if a then le_int x hi else ret false.

End Py.

(* ================================================================== *)
(** ** DataValidator *)
(* ================================================================== *)

Section Validator.

(** [utcnow k]: what the [k]-th call of [datetime.utcnow()] returns. *)
Variable utcnow : nat -> Z.

(** The state of the validators: the number of clock readings so far. *)
Definition datetime_utcnow : M nat pyval :=
  fun k => (Return (PDatetime (utcnow k)), S k).

Definition review_required_fields : list pystr :=
  [PyStr.lit "Destination"; PyStr.lit "District";
   PyStr.lit "Location_Type"; PyStr.lit "Review"].

Definition validate_review (row : pyval) : M nat pyval :=
  for_each review_required_fields (fun field =>
    present <- Py.contains field row ;;
    if negb present then raise (ValueError (MissingRequiredField field))
    else
      v <- Py.getitem row field ;;
      if negb (truthy v) then raise (ValueError (MissingRequiredField field))
      else ret tt) ;;;
  v1 <- Py.getitem row (PyStr.lit "Destination") ;;
  destination <- Py.strip v1 ;;
  v2 <- Py.getitem row (PyStr.lit "District") ;;
  district <- Py.strip v2 ;;
  v3 <- Py.getitem row (PyStr.lit "Location_Type") ;;
  location_type <- Py.strip v3 ;;
  v4 <- Py.getitem row (PyStr.lit "Review") ;;
  review_text <- Py.strip v4 ;;
  created_at <- datetime_utcnow ;;
  import_date <- datetime_utcnow ;;
  let review_doc :=
    PDict [(PyStr.lit "destination", destination);
           (PyStr.lit "district", district);
           (PyStr.lit "location_type", location_type);
           (PyStr.lit "review_text", review_text);
           (PyStr.lit "created_at", created_at);
           (PyStr.lit "metadata",
            PDict [(PyStr.lit "source", PStr (PyStr.lit "csv_import"));
                   (PyStr.lit "import_date", import_date)])] in
  n <- Py.len review_text ;;
  if n <? 10 then raise (ValueError ReviewTextTooShort)
  else ret review_doc.

Definition location_required_fields : list pystr :=
  [PyStr.lit "locationId"; PyStr.lit "name"; PyStr.lit "coordinates"].

Definition validate_location (location : pyval) : M nat pyval :=
  for_each location_required_fields (fun field =>
    present <- Py.contains field location ;;
    if negb present then raise (ValueError (MissingRequiredField field))
    else ret tt) ;;;
  coords <- Py.get location (PyStr.lit "coordinates") (PDict []) ;;
  ty <- Py.get coords (PyStr.lit "type") PNone ;;
  if negb (eq_str ty (PyStr.lit "Point"))
  then raise (ValueError InvalidCoordinateType)
  else
    coord_array <- Py.get coords (PyStr.lit "coordinates") (PList []) ;;
    n <- Py.len coord_array ;;
    if negb (n =? 2) then raise (ValueError InvalidCoordinatesFormat)
    else
      lonlat <- Py.unpack2 coord_array ;;
      let longitude := fst lonlat in
      let latitude := snd lonlat in
      lon_ok <- Py.between (-180) longitude 180 ;;
      if negb lon_ok then raise (ValueError (InvalidLongitude longitude))
      else
        lat_ok <- Py.between (-90) latitude 90 ;;
        if negb lat_ok then raise (ValueError (InvalidLatitude latitude))
        else
          import_date <- datetime_utcnow ;;
          last_updated <- datetime_utcnow ;;
          Py.setitem location (PyStr.lit "metadata")
            (PDict [(PyStr.lit "source", PStr (PyStr.lit "json_import"));
                    (PyStr.lit "import_date", import_date);
                    (PyStr.lit "last_updated", last_updated)]).

End Validator.

(* ================================================================== *)
(** ** DataLoader *)
(* ================================================================== *)

(** One line of the [errors] list of a loader: [f"Row {idx}: {e}"] or
    [f"Location {idx} ({name}): {e}"]. *)
Inductive error_entry :=
| RowError (idx : Z) (e : exn)
| LocationError (idx : Z) (name : pyval) (e : exn).

(** The locals of a loader, with the clock. *)
Record locals := {
  tick : nat;
  results : list pyval;
  errors : list error_entry
}.

Definition fresh (k : nat) : locals :=
  {| tick := k; results := []; errors := [] |}.

Definition with_clock {A} (m : M nat A) : M locals A :=
  zoom tick
       (fun t s => {| tick := t; results := results s; errors := errors s |}) m.

(** [results.append(x)] and [errors.append(x)] *)
Definition append_result (x : pyval) : M locals unit :=
  modify (fun s => {| tick := tick s; results := results s ++ [x];
                      errors := errors s |}).

Definition append_error (x : error_entry) : M locals unit :=
  modify (fun s => {| tick := tick s; results := results s;
                      errors := errors s ++ [x] |}).

(** The text of a CSV file once decoded and split by [csv.reader]: the
    header ([None] on an empty file) and the records that follow. *)
Record csv_text := {
  csv_fieldnames : option (list pystr);
  csv_records : list (list pystr)
}.

(** [dict(zip(fieldnames, record))] *)
Fixpoint zip_dict (fieldnames : list pystr) (record : list pystr) (d : dict)
  : dict :=
  match fieldnames, record with
  | k :: fieldnames', x :: record' =>
      zip_dict fieldnames' record' (Dict.set d k (PStr x))
  | _, _ => d
  end.

(** One row of [csv.DictReader]: the cells under their column names, and
    [None] (the default [restval]) under the columns a short record lacks.
    The surplus cells of a long record go under the key [None], which no
    lookup of the script reaches; they are left out. *)
Definition DictReader_row (fieldnames : list pystr) (record : list pystr)
  : pyval :=
  PDict (fold_left (fun d k => Dict.set d k PNone)
                   (skipn (List.length record) fieldnames)
                   (zip_dict fieldnames record [])).

(** The rows [csv.DictReader] yields: blank lines are skipped. *)
Definition DictReader_rows (t : csv_text) : list pyval :=
  match csv_fieldnames t with
  | None => []
  | Some fieldnames =>
      map (DictReader_row fieldnames)
          (filter (fun r => match r with [] => false | _ => true end)
                  (csv_records t))
  end.

(** What reading the CSV file as UTF-8 gives.  The text is decoded chunk by
    chunk while the rows are consumed, so the [UnicodeDecodeError] of an
    undecodable byte is raised either by [reader.fieldnames] (the byte is
    in the first chunk) or by the iteration, after the records of the
    chunks decoded so far ([undecodable_tail]).  The reader raises
    [csv.Error] on a field longer than its limit of 131072 characters:
    in the header ([Utf8FieldnamesCsvError]) or after the records read so
    far ([Utf8ReadingCsvError]).  [Utf8OpenFails]: the path exists and
    [open] raises, as on a directory. *)
Inductive utf8_reading :=
| Utf8OpenFails
| Utf8FieldnamesFail
| Utf8FieldnamesCsvError
| Utf8Reading (t : csv_text) (undecodable_tail : bool)
| Utf8ReadingCsvError (t : csv_text).

(** How the Latin-1 reading ends.  Latin-1 decodes every byte, so it never
    raises [UnicodeDecodeError]; the reader still raises [csv.Error] on a
    field over its limit, when it reads the header at the first row asked
    of it or after the records read so far. *)
Inductive latin1_end :=
| Latin1EndOfFile
| Latin1FieldnamesCsvError
| Latin1RowsCsvError.

(** A CSV file as the loader sees it: whether the path exists, what the
    UTF-8 reading gives, the text of the Latin-1 reading and how that
    reading ends. *)
Record csv_file := {
  csv_exists : bool;
  csv_utf8 : utf8_reading;
  csv_latin1 : csv_text;
  csv_latin1_end : latin1_end
}.

(** What [open] and [json.load] over the UTF-8 text of the file give: the
    value, or one of the exceptions of [open], of the decoder and of the
    parser ([JSONDecodeError] on text that is not JSON, the plain
    [ValueError] of an integer literal over 4300 digits, [RecursionError]
    on arrays or objects nested too deep). *)
Inductive json_reading :=
| JsonOpenFails
| JsonUndecodable
| JsonMalformed (detail : pystr)
| JsonTooManyDigits
| JsonTooDeep
| JsonValue (data : pyval).

Record json_file := {
  json_exists : bool;
  json_content : json_reading
}.

Section Loader.

Variable utcnow : nat -> Z.

Definition expected_headers : list pystr :=
  [PyStr.lit "Destination"; PyStr.lit "District";
   PyStr.lit "Location_Type"; PyStr.lit "Review"].

Definition header_in (actual : list pystr) (h : pystr) : bool :=
  existsb (PyStr.eqb h) actual.

(** [expected_headers.issubset(actual_headers)] *)
Definition issubset (expected actual : list pystr) : bool :=
  forallb (header_in actual) expected.

(** [expected_headers - actual_headers] *)
Definition difference (expected actual : list pystr) : list pystr :=
  filter (fun h => negb (header_in actual h)) expected.

(** The [for idx, row in enumerate(reader, start=2)] loop, the same on both
    encodings. *)
Definition review_rows_loop (rows : list pyval) : M locals unit :=
  for_each (enumerate 2 rows) (fun ir =>
    try_except_ValueError
      (validated_review <- with_clock (validate_review utcnow (snd ir)) ;;
       append_result validated_review)
      (fun e => append_error (RowError (fst ir) e))).

(** The body of the [with] block of the UTF-8 reading once the header has
    been read: the header test, then the rows, then how the iteration
    ends. *)
Definition utf8_rows (t : csv_text) (ending : M locals unit)
  : M locals unit :=
  match csv_fieldnames t with
  | None => raise TypeError
  | Some actual_headers =>
      if negb (issubset expected_headers actual_headers)
      then raise (ValueError (MissingCsvColumns
                    (difference expected_headers actual_headers)))
      else
        review_rows_loop (DictReader_rows t) ;;;
        ending
  end.

(** The handler of [UnicodeDecodeError]: the rows of the Latin-1 reading,
    without a header test. *)
Definition latin1_rows (f : csv_file) : M locals unit :=
  match csv_latin1_end f with
  | Latin1FieldnamesCsvError => raise CsvError
  | Latin1EndOfFile => review_rows_loop (DictReader_rows (csv_latin1 f))
  | Latin1RowsCsvError =>
      review_rows_loop (DictReader_rows (csv_latin1 f)) ;;;
      raise CsvError
  end.

Definition load_csv_reviews_body (f : csv_file) : M locals (list pyval) :=
  if negb (csv_exists f) then raise FileNotFoundError
  else
    try_except_UnicodeDecodeError
      (match csv_utf8 f with
       | Utf8OpenFails => raise OSError
       | Utf8FieldnamesFail => raise UnicodeDecodeError
       | Utf8FieldnamesCsvError => raise CsvError
       | Utf8Reading t undecodable_tail =>
           utf8_rows t (if undecodable_tail then raise UnicodeDecodeError
                        else ret tt)
       | Utf8ReadingCsvError t => utf8_rows t (raise CsvError)
       end)
      (latin1_rows f) ;;;
    s <- get_state ;;
    ret (results s).

(** [load_csv_reviews f k]: the call with the clock at [k]; the locals at
    the exit are returned with the outcome. *)
Definition load_csv_reviews (f : csv_file) (k : nat)
  : outcome (list pyval) * locals :=
  load_csv_reviews_body f (fresh k).

Definition load_json_locations_body (f : json_file) : M locals (list pyval) :=
  if negb (json_exists f) then raise FileNotFoundError
  else
    data <- try_except_JSONDecodeError
              (match json_content f with
               | JsonOpenFails => raise OSError
               | JsonUndecodable => raise UnicodeDecodeError
               | JsonMalformed detail => raise (JSONDecodeError detail)
               | JsonTooManyDigits => raise DigitLimitError
               | JsonTooDeep => raise RecursionError
               | JsonValue data => ret data
               end)
              (fun detail => raise (ValueError (InvalidJsonFormat detail))) ;;
    match data with
    | PList elements =>
        for_each (enumerate 1 elements) (fun il =>
          try_except_ValueError
            (validated_location <-
               with_clock (validate_location utcnow (snd il)) ;;
             append_result validated_location)
            (fun e =>
               name <- Py.get (snd il) (PyStr.lit "name")
                              (PStr (PyStr.lit "Unknown")) ;;
               append_error (LocationError (fst il) name e))) ;;;
        s <- get_state ;;
        ret (results s)
    | _ => raise (ValueError JsonMustContainArray)
    end.

Definition load_json_locations (f : json_file) (k : nat)
  : outcome (list pyval) * locals :=
  load_json_locations_body f (fresh k).

End Loader.

(* ================================================================== *)
(** ** MongoDBManager *)
(* ================================================================== *)

(** [Config.BATCH_SIZE] *)
Definition BATCH_SIZE : Z := 100.

Inductive collection_name := REVIEWS_COLLECTION | LOCATIONS_COLLECTION.

(** The index kinds of [pymongo]. *)
Inductive index_kind := ASCENDING | DESCENDING | TEXT | GEOSPHERE.

(** The arguments of one [create_index] call. *)
Record index_model := {
  ix_keys : list (string * index_kind);
  ix_name : string;
  ix_default_language : option string;
  ix_unique : bool
}.

(** A request sent to the database. *)
Inductive driver_call :=
| InsertMany (c : collection_name) (batch : list pyval) (ordered : bool)
| CreateIndex (c : collection_name) (ix : index_model).

(** [range(0, stop, step)] for a positive [step]. *)
Definition range0 (stop step : Z) : list Z :=
  map (fun k => step * Z.of_nat k)
      (seq 0 (Z.to_nat ((stop + step - 1) / step))).

(** [l[i:j]] for [0 <= i <= j]; the slice stops at the end of the list. *)
Definition slice {A} (l : list A) (i j : Z) : list A :=
  firstn (Z.to_nat (j - i)) (skipn (Z.to_nat i) l).

(** The counters [{'total': ..., 'inserted': ..., 'errors': ...}]. *)
Record stats := { total : Z; inserted : Z; errors_count : Z }.

Section Manager.

(** The database behind the connection: its state, and how it answers an
    unordered [insert_many] (the inserted ids, or an exception) and a
    [create_index] (the name of the index, or an exception). *)
Variable Store : Type.
Variable driver_insert_many :
  collection_name -> list pyval -> Store -> outcome (list Z) * Store.
Variable driver_create_index :
  collection_name -> index_model -> Store -> outcome string * Store.

(** The state of the manager: the database and the requests sent so far. *)
Record world := { store : Store; calls : list driver_call }.

(** [collection.insert_many(batch, ordered=False)] *)
Definition insert_many (c : collection_name) (batch : list pyval)
  : M world (list Z) :=
  fun w => let (r, st) := driver_insert_many c batch (store w) in
           (r, {| store := st;
                  calls := calls w ++ [InsertMany c batch false] |}).

(** [collection.create_index(keys, name=..., ...)] *)
Definition create_index (c : collection_name) (ix : index_model)
  : M world string :=
  fun w => let (r, st) := driver_create_index c ix (store w) in
           (r, {| store := st; calls := calls w ++ [CreateIndex c ix] |}).

(** The body of the [for i in range(0, total, BATCH_SIZE)] loop of both
    insert functions, with the counters [inserted] and [errors]. *)
Fixpoint insert_loop (c : collection_name) (docs : list pyval)
    (starts : list Z) (inserted errors : Z) : M world (Z * Z) :=
  match starts with
  | [] => ret (inserted, errors)
  | i :: starts' =>
      let batch := slice docs i (i + BATCH_SIZE) in
      counters <- try_except_BulkWriteError
                    (inserted_ids <- insert_many c batch ;;
                     ret (inserted + Z.of_nat (List.length inserted_ids),
                          errors))
                    (fun nInserted writeErrors =>
                       ret (inserted + nInserted,
                            errors + Z.of_nat (List.length writeErrors))) ;;
      insert_loop c docs starts' (fst counters) (snd counters)
  end.

Definition insert_reviews (reviews : list pyval) : M world stats :=
  let total := Z.of_nat (List.length reviews) in
  counters <- insert_loop REVIEWS_COLLECTION reviews
                          (range0 total BATCH_SIZE) 0 0 ;;
  ret {| total := total; inserted := fst counters;
         errors_count := snd counters |}.

Definition insert_locations (locations : list pyval) : M world stats :=
  let total := Z.of_nat (List.length locations) in
  counters <- insert_loop LOCATIONS_COLLECTION locations
                          (range0 total BATCH_SIZE) 0 0 ;;
  ret {| total := total; inserted := fst counters;
         errors_count := snd counters |}.

Definition create_indexes : M world unit :=
  create_index REVIEWS_COLLECTION
    {| ix_keys := [("review_text"%string, TEXT)];
       ix_name := "review_text_index";
       ix_default_language := Some "english"%string;
       ix_unique := false |} ;;;
  create_index REVIEWS_COLLECTION
    {| ix_keys := [("destination"%string, ASCENDING)];
       ix_name := "destination_index";
       ix_default_language := None; ix_unique := false |} ;;;
  create_index REVIEWS_COLLECTION
    {| ix_keys := [("district"%string, ASCENDING)];
       ix_name := "district_index";
       ix_default_language := None; ix_unique := false |} ;;;
  create_index REVIEWS_COLLECTION
    {| ix_keys := [("location_type"%string, ASCENDING)];
       ix_name := "location_type_index";
       ix_default_language := None; ix_unique := false |} ;;;
  create_index REVIEWS_COLLECTION
    {| ix_keys := [("destination"%string, ASCENDING);
                   ("location_type"%string, ASCENDING)];
       ix_name := "destination_location_type_index";
       ix_default_language := None; ix_unique := false |} ;;;
  create_index REVIEWS_COLLECTION
    {| ix_keys := [("created_at"%string, DESCENDING)];
       ix_name := "created_at_index";
       ix_default_language := None; ix_unique := false |} ;;;
  create_index LOCATIONS_COLLECTION
    {| ix_keys := [("coordinates"%string, GEOSPHERE)];
       ix_name := "coordinates_geospatial_index";
       ix_default_language := None; ix_unique := false |} ;;;
  create_index LOCATIONS_COLLECTION
    {| ix_keys := [("locationId"%string, ASCENDING)];
       ix_name := "location_id_unique_index";
       ix_default_language := None; ix_unique := true |} ;;;
  create_index LOCATIONS_COLLECTION
    {| ix_keys := [("name"%string, ASCENDING)];
       ix_name := "name_index";
       ix_default_language := None; ix_unique := false |} ;;;
  create_index LOCATIONS_COLLECTION
    {| ix_keys := [("category"%string, ASCENDING)];
       ix_name := "category_index";
       ix_default_language := None; ix_unique := false |} ;;;
  create_index LOCATIONS_COLLECTION
    {| ix_keys := [("name"%string, TEXT);
                   ("details.description"%string, TEXT);
                   ("details.historicalInfo"%string, TEXT)];
       ix_name := "location_text_index";
       ix_default_language := Some "english"%string;
       ix_unique := false |} ;;;
  ret tt.

End Manager.

Arguments store {Store} w.
Arguments calls {Store} w.

(* ================================================================== *)
(** ** The words of the specification *)
(* ================================================================== *)

(** A JSON number. *)
Definition is_number (v : pyval) : bool :=
  match v with
  | PInt _ | PFloat _ => true
  | _ => false
  end.

(** [v] is a number of the closed interval [[lo, hi]]. *)
Definition in_interval (lo hi : Z) (v : pyval) : Prop :=
  match v with
  | PInt z => lo <= z <= hi
  | PFloat (FFin q) => (inject_Z lo <= q /\ q <= inject_Z hi)%Q
  | _ => False
  end.

(** The [coordinates] field of [location] is an object with type ["Point"]
    and the two-element numeric array [[lon, lat]]. *)
Definition has_point (location : pyval) (lon lat : pyval) : Prop :=
  exists d c,
    location = PDict d /\
    Dict.get d (PyStr.lit "coordinates") = Some (PDict c) /\
    Dict.get c (PyStr.lit "type") = Some (PStr (PyStr.lit "Point")) /\
    Dict.get c (PyStr.lit "coordinates") = Some (PList [lon; lat]) /\
    is_number lon = true /\ is_number lat = true.

(** [location] has the field [key]. *)
Definition has_field (location : pyval) (key : string) : Prop :=
  exists d v, location = PDict d /\ Dict.get d (PyStr.lit key) = Some v.

(** The field [key] of [doc] is a non-empty string. *)
Definition nonempty_string_field (doc : pyval) (key : string) : Prop :=
  exists d s,
    doc = PDict d /\ Dict.get d (PyStr.lit key) = Some (PStr s) /\ s <> [].

(** The field [key] of [doc] is a string without surrounding whitespace. *)
Definition trimmed_string_field (doc : pyval) (key : string) : Prop :=
  exists d s,
    doc = PDict d /\ Dict.get d (PyStr.lit key) = Some (PStr s) /\
    PyStr.trimmed s.

(** The validators accept an input: the call returns a document. *)
Definition accepts {A} (m : M nat A) (k : nat) (doc : A) : Prop :=
  exists k', m k = (Return doc, k').

(** The batches of the insert loop, one per start index. *)
Definition batches (docs : list pyval) : list (list pyval) :=
  map (fun i => slice docs i (i + BATCH_SIZE))
      (range0 (Z.of_nat (List.length docs)) BATCH_SIZE).

(** What a batch write persisted and how many write errors it reported. *)
Definition persisted (r : outcome (list Z)) : Z :=
  match r with
  | Return inserted_ids => Z.of_nat (List.length inserted_ids)
  | Raise (BulkWriteError nInserted _) => nInserted
  | Raise _ => 0
  end.

Definition write_errors (r : outcome (list Z)) : Z :=
  match r with
  | Raise (BulkWriteError _ writeErrors) => Z.of_nat (List.length writeErrors)
  | _ => 0
  end.

Definition sumZ (l : list Z) : Z := fold_right Z.add 0 l.

(** A batch write succeeds or reports a partial failure: the driver raises
    nothing but [BulkWriteError]. *)
Definition write_level {Store}
    (driver : collection_name -> list pyval -> Store
              -> outcome (list Z) * Store) : Prop :=
  forall c batch st,
    match fst (driver c batch st) with
    | Return _ | Raise (BulkWriteError _ _) => True
    | Raise _ => False
    end.

(** The answers of the database to a sequence of batch writes. *)
Fixpoint replies {Store}
    (driver : collection_name -> list pyval -> Store
              -> outcome (list Z) * Store)
    (c : collection_name) (bs : list (list pyval)) (st : Store)
  : list (outcome (list Z)) :=
  match bs with
  | [] => []
  | b :: bs' =>
      fst (driver c b st) :: replies driver c bs' (snd (driver c b st))
  end.







(** [kept validate k xs ds k']: with the clock at [k], [ds] are the
    documents [validate] returns on the elements of [xs] it accepts, in the
    order of [xs] and one for each; the elements left out are those on
    which it raises a [ValueError]; the clock ends at [k']. *)
Inductive kept (validate : pyval -> M nat pyval)
  : nat -> list pyval -> list pyval -> nat -> Prop :=
| kept_nil k : kept validate k [] [] k
| kept_accepted k x xs d k1 ds k2 :
    validate x k = (Return d, k1) ->
    kept validate k1 xs ds k2 ->
    kept validate k (x :: xs) (d :: ds) k2
| kept_rejected k x xs e k1 ds k2 :
    validate x k = (Raise e, k1) ->
    is_ValueError e = true ->
    kept validate k1 xs ds k2 ->
    kept validate k (x :: xs) ds k2.

(** A cell of a [csv.DictReader] row: a string, or [None]. *)
Definition csv_cell (v : pyval) : Prop :=
  v = PNone \/ exists s, v = PStr s.

Definition csv_row (row : pyval) : Prop :=
  exists d, row = PDict d /\ Forall (fun kv => csv_cell (snd kv)) d.

(** The [j]-th run of a hundred elements of a list, and the number of
    runs that cover [n] elements. *)
Definition chunk {A} (l : list A) (j : nat) : list A :=
  firstn 100 (skipn (100 * j) l).

Definition batch_count (n : nat) : nat :=
  Z.to_nat ((Z.of_nat n + BATCH_SIZE - 1) / BATCH_SIZE).

(* ================================================================== *)
(** ** Concrete inputs *)
(* ================================================================== *)

Module Examples.

Definition str (s : string) : pyval := PStr (PyStr.lit s).

Definition key (s : string) : pystr := PyStr.lit s.

(** A CSV row whose [Destination] cell holds three blanks. *)
Definition row_blank_destination : pyval :=
  PDict [(key "Destination", str "   ");
         (key "District", str "Matale");
         (key "Location_Type", str "Historical");
         (key "Review", str "Amazing place!")].

Definition point (lon lat : pyval) : pyval :=
  PDict [(key "type", str "Point");
         (key "coordinates", PList [lon; lat])].

(** A location with a longitude of 200 and no [locationId]. *)
Definition location_without_id : pyval :=
  PDict [(key "name", str "Sigiriya");
         (key "coordinates", point (PInt 200) (PInt 7))].

(** The same location with its [locationId]. *)
Definition location_far_east : pyval :=
  PDict [(key "locationId", str "LOC001");
         (key "name", str "Sigiriya");
         (key "coordinates", point (PInt 200) (PInt 7))].

(** A location whose [name] is the empty string. *)
Definition location_empty_name : pyval :=
  PDict [(key "locationId", str "LOC002");
         (key "name", str "");
         (key "coordinates", point (PInt 80) (PInt 7))].

(** What [validate_location] returns on it when every clock reading is 0. *)
Definition validated_empty_name : pyval :=
  match fst (validate_location (fun _ => 0) location_empty_name 0%nat) with
  | Return doc => doc
  | Raise _ => PNone
  end.

Definition location_sigiriya : pyval :=
  PDict [(key "locationId", str "LOC001");
         (key "name", str "Sigiriya");
         (key "coordinates", point (PInt 80) (PInt 7))].

(** A location whose [coordinates] field is the bare array. *)
Definition location_list_coordinates : pyval :=
  PDict [(key "locationId", str "LOC003");
         (key "name", str "Kandy");
         (key "coordinates", PList [PInt 80; PInt 7])].

(** A JSON file holding the ill-shaped location, then a valid one. *)
Definition json_list_coordinates : json_file :=
  {| json_exists := true;
     json_content :=
       JsonValue (PList [location_list_coordinates; location_sigiriya]) |}.

(** A JSON array whose first element is a string. *)
Definition json_string_element : json_file :=
  {| json_exists := true;
     json_content := JsonValue (PList [str "Kandy"; location_sigiriya]) |}.

(** A JSON file whose top-level value is an object. *)
Definition json_object : json_file :=
  {| json_exists := true;
     json_content := JsonValue location_sigiriya |}.

Definition json_malformed : json_file :=
  {| json_exists := true;
     json_content := JsonMalformed (PyStr.lit "Expecting value") |}.

(** A JSON file saved as Latin-1, [[{"name": "Caf\xe9"}]] with the single
    byte 0xE9: its bytes are not UTF-8 text, so reading it raises before
    the parser sees a character. *)
Definition json_not_utf8 : json_file :=
  {| json_exists := true;
     json_content := JsonUndecodable |}.

(** A JSON file that holds an integer literal of 5000 digits. *)
Definition json_long_integer : json_file :=
  {| json_exists := true;
     json_content := JsonTooManyDigits |}.

(** A JSON file of 100000 opening brackets. *)
Definition json_deeply_nested : json_file :=
  {| json_exists := true;
     json_content := JsonTooDeep |}.

Definition full_header : list pystr :=
  [key "Destination"; key "District"; key "Location_Type"; key "Review"].

Definition record_sigiriya : list pystr :=
  [key "Sigiriya"; key "Matale"; key "Historical"; key "Amazing place!"].

(** A record whose review is 8192 letters followed by the byte 0xE9, which
    is not valid UTF-8; Latin-1 reads the byte as the code point 233. *)
Definition long_review : pystr := 120%N :: repeat 120%N 8191 ++ [233%N].

Definition record_galle : list pystr :=
  [key "Galle"; key "Galle"; key "Beaches"; long_review].

(** The document [validate_review] builds from a record of four cells when
    the clock has been read [k] times. *)
Definition review_document (utcnow : nat -> Z) (k : nat)
    (record : list pystr) : pyval :=
  match record with
  | [destination; district; location_type; review] =>
      PDict [(key "destination", PStr (PyStr.strip destination));
             (key "district", PStr (PyStr.strip district));
             (key "location_type", PStr (PyStr.strip location_type));
             (key "review_text", PStr (PyStr.strip review));
             (key "created_at", PDatetime (utcnow k));
             (key "metadata",
              PDict [(key "source", str "csv_import");
                     (key "import_date", PDatetime (utcnow (S k)))])]
  | _ => PNone
  end.

(** A CSV file of the header and these two records.  It is longer than one
    decoding chunk of 8192 bytes: the header and the first record are in
    the first chunk and decode as UTF-8, the byte 0xE9 is in the second. *)
Definition csv_undecodable_tail : csv_file :=
  {| csv_exists := true;
     csv_utf8 :=
       Utf8Reading {| csv_fieldnames := Some full_header;
                      csv_records := [record_sigiriya] |} true;
     csv_latin1 :=
       {| csv_fieldnames := Some full_header;
          csv_records := [record_sigiriya; record_galle] |};
     csv_latin1_end := Latin1EndOfFile |}.

Definition header_without_review : list pystr :=
  [key "Destination"; key "District"; key "Location_Type"].

(** The Latin-1 reading of a record whose last cell holds the byte 0xE9
    between two letters. *)
Definition record_without_review : list pystr :=
  [key "Galle"; key "Galle"; key "Caf" ++ [233%N] ++ key "s and beaches"].

(** A short CSV file without the [Review] column that holds the byte 0xE9:
    its only chunk does not decode as UTF-8. *)
Definition csv_latin1_without_review : csv_file :=
  {| csv_exists := true;
     csv_utf8 := Utf8FieldnamesFail;
     csv_latin1 :=
       {| csv_fieldnames := Some header_without_review;
          csv_records := [record_without_review] |};
     csv_latin1_end := Latin1EndOfFile |}.

Definition record_beaches : list pystr :=
  [key "Galle"; key "Galle"; key "Beaches"].

(** The same header in a file that decodes as UTF-8. *)
Definition csv_utf8_without_review : csv_file :=
  {| csv_exists := true;
     csv_utf8 :=
       Utf8Reading {| csv_fieldnames := Some header_without_review;
                      csv_records := [record_beaches] |}
                   false;
     csv_latin1 :=
       {| csv_fieldnames := Some header_without_review;
          csv_records := [record_beaches] |};
     csv_latin1_end := Latin1EndOfFile |}.

(** 250 review documents. *)
Definition review_doc (n : nat) : pyval :=
  PDict [(key "destination", str "Sigiriya");
         (key "district", str "Matale");
         (key "location_type", str "Historical");
         (key "review_text", str "Amazing place!");
         (key "created_at", PDatetime (Z.of_nat n))].

Definition reviews_250 : list pyval := map review_doc (seq 0 250).

(** A database that counts the batches it has received and rejects two
    documents of the second one. *)
Definition driver_two_rejected (c : collection_name) (batch : list pyval)
    (received : nat) : outcome (list Z) * nat :=
  (match received with
   | 1%nat =>
       Raise (BulkWriteError (Z.of_nat (List.length batch) - 2)
                [{| we_index := 10; we_code := 121 |};
                 {| we_index := 20; we_code := 121 |}])
   | _ => Return (map Z.of_nat (seq 0 (List.length batch)))
   end, S received).

(** A database that creates every index it is asked for. *)
Definition driver_creates (c : collection_name) (ix : index_model) (st : unit)
  : outcome string * unit :=
  (Return (ix_name ix), st).

(** A database that accepts every document. *)
Definition driver_accepts (c : collection_name) (batch : list pyval)
    (st : unit) : outcome (list Z) * unit :=
  (Return (map Z.of_nat (seq 0 (List.length batch))), st).

End Examples.

(* ================================================================== *)
(** ** More words for the validators *)
(* ================================================================== *)

(** The field [f] of the row [d] is present and true: what the test
    [field not in row or not row[field]] asks of it. *)
Definition field_filled (d : dict) (f : pystr) : bool :=
  match Dict.get d f with
  | Some v => truthy v
  | None => false
  end.

(** The document [validate_review] builds from the four cells when the
    clock has been read [k] times. *)
Definition review_doc_of (utcnow : nat -> Z) (k : nat)
    (destination district location_type review : pystr) : pyval :=
  PDict [(PyStr.lit "destination", PStr (PyStr.strip destination));
         (PyStr.lit "district", PStr (PyStr.strip district));
         (PyStr.lit "location_type", PStr (PyStr.strip location_type));
         (PyStr.lit "review_text", PStr (PyStr.strip review));
         (PyStr.lit "created_at", PDatetime (utcnow k));
         (PyStr.lit "metadata",
          PDict [(PyStr.lit "source", PStr (PyStr.lit "csv_import"));
                 (PyStr.lit "import_date", PDatetime (utcnow (S k)))])].

(** The [metadata] block [validate_location] attaches. *)
Definition location_metadata (utcnow : nat -> Z) (k : nat) : pyval :=
  PDict [(PyStr.lit "source", PStr (PyStr.lit "json_import"));
         (PyStr.lit "import_date", PDatetime (utcnow k));
         (PyStr.lit "last_updated", PDatetime (utcnow (S k)))].

Module MoreExamples.

(** A row with a fifth column. *)
Definition row_with_rating : dict :=
  [(PyStr.lit "Destination", PStr (PyStr.lit "Sigiriya"));
   (PyStr.lit "Rating", PStr (PyStr.lit "5"));
   (PyStr.lit "District", PStr (PyStr.lit "Matale"));
   (PyStr.lit "Location_Type", PStr (PyStr.lit "Historical"));
   (PyStr.lit "Review", PStr (PyStr.lit "Amazing place!"))].

Definition row_plain : dict :=
  [(PyStr.lit "Destination", PStr (PyStr.lit "Sigiriya"));
   (PyStr.lit "District", PStr (PyStr.lit "Matale"));
   (PyStr.lit "Location_Type", PStr (PyStr.lit "Historical"));
   (PyStr.lit "Review", PStr (PyStr.lit "Amazing place!"))].

(** A row whose [District] cell is empty and whose [Review] is absent. *)
Definition row_two_gaps : dict :=
  [(PyStr.lit "Destination", PStr (PyStr.lit "Sigiriya"));
   (PyStr.lit "District", PStr []);
   (PyStr.lit "Location_Type", PStr (PyStr.lit "Historical"))].

(** A row whose review is nine letters between blanks. *)
Definition row_short_review : dict :=
  [(PyStr.lit "Destination", PStr (PyStr.lit "Sigiriya"));
   (PyStr.lit "District", PStr (PyStr.lit "Matale"));
   (PyStr.lit "Location_Type", PStr (PyStr.lit "Historical"));
   (PyStr.lit "Review", PStr (PyStr.lit "   Very nice   "))].

(** A location whose point is a [LineString]. *)
Definition location_line : dict :=
  [(PyStr.lit "locationId", PStr (PyStr.lit "LOC004"));
   (PyStr.lit "name", PStr (PyStr.lit "Ella"));
   (PyStr.lit "coordinates",
    PDict [(PyStr.lit "type", PStr (PyStr.lit "LineString"));
           (PyStr.lit "coordinates", PList [PInt 81; PInt 6])])].

(** A location whose point has an altitude. *)
Definition location_three : dict :=
  [(PyStr.lit "locationId", PStr (PyStr.lit "LOC005"));
   (PyStr.lit "name", PStr (PyStr.lit "Ella"));
   (PyStr.lit "coordinates",
    PDict [(PyStr.lit "type", PStr (PyStr.lit "Point"));
           (PyStr.lit "coordinates", PList [PInt 81; PInt 6; PInt 1041])])].

(** A location that comes with a [metadata] field of its own. *)
Definition location_with_metadata : dict :=
  [(PyStr.lit "locationId", PStr (PyStr.lit "LOC006"));
   (PyStr.lit "metadata", PStr (PyStr.lit "from the survey"));
   (PyStr.lit "name", PStr (PyStr.lit "Ella"));
   (PyStr.lit "coordinates",
    PDict [(PyStr.lit "type", PStr (PyStr.lit "Point"));
           (PyStr.lit "coordinates",
            PList [PFloat (FFin (81 # 1)); PInt 6])])].

(** A CSV text of three records: a valid one, one with an empty district
    and one with a short review. *)
Definition text_three_rows : csv_text :=
  {| csv_fieldnames := Some Examples.full_header;
     csv_records :=
       [Examples.record_sigiriya;
        [PyStr.lit "Galle"; []; PyStr.lit "Beaches";
         PyStr.lit "A lovely old fort by the sea"];
        [PyStr.lit "Ella"; PyStr.lit "Badulla"; PyStr.lit "Nature";
         PyStr.lit "Nice"]] |}.

Definition csv_three_rows : csv_file :=
  {| csv_exists := true;
     csv_utf8 := Utf8Reading text_three_rows false;
     csv_latin1 := text_three_rows;
     csv_latin1_end := Latin1EndOfFile |}.

(** The UTF-8 reading of [Examples.csv_undecodable_tail] before the
    decoding error. *)
Definition text_one_row : csv_text :=
  {| csv_fieldnames := Some Examples.full_header;
     csv_records := [Examples.record_sigiriya] |}.

(** A CSV file of the header, the record of Sigiriya and a record whose
    review is a field of 131073 letters, one more than the reader's
    limit: on either encoding the reader yields the first row and raises
    [csv.Error] on the second. *)
Definition csv_oversize_field : csv_file :=
  {| csv_exists := true;
     csv_utf8 := Utf8ReadingCsvError text_one_row;
     csv_latin1 := text_one_row;
     csv_latin1_end := Latin1RowsCsvError |}.

(** A JSON array of a valid location and one without coordinates. *)
Definition json_two_locations : json_file :=
  {| json_exists := true;
     json_content :=
       JsonValue (PList [Examples.location_sigiriya;
                         PDict [(PyStr.lit "locationId",
                                 PStr (PyStr.lit "LOC007"));
                                (PyStr.lit "name",
                                 PStr (PyStr.lit "Mirissa"))]])
  |}.

(** What the loader returns on it when every clock reading is 0. *)
Definition loaded_two_locations : list pyval :=
  match fst (load_json_locations (fun _ => 0) json_two_locations 0%nat) with
  | Return ds => ds
  | Raise _ => []
  end.

(** A database that counts the batches it has received and loses the
    connection on the second one. *)
Definition driver_loses_connection (c : collection_name)
    (batch : list pyval) (received : nat) : outcome (list Z) * nat :=
  (match received with
   | 1%nat => Raise PyMongoError
   | _ => Return (map Z.of_nat (seq 0 (List.length batch)))
   end, S received).

End MoreExamples.

(* ================================================================== *)
(** ** More words for the loaders and the insert loop *)
(* ================================================================== *)

(** [logged validate i k xs ds es k']: the bookkeeping of a row loop that
    starts numbering at [i] with the clock at [k].  Every element of [xs]
    is accounted for once, in order: by its document in [ds] when
    [validate] accepts it, by an entry of [es] with its number and the
    [ValueError] when it is rejected. *)
Inductive logged (validate : pyval -> M nat pyval)
  : Z -> nat -> list pyval -> list pyval -> list error_entry -> nat -> Prop :=
| logged_nil i k : logged validate i k [] [] [] k
| logged_accepted i k x xs d k1 ds es k2 :
    validate x k = (Return d, k1) ->
    logged validate (i + 1) k1 xs ds es k2 ->
    logged validate i k (x :: xs) (d :: ds) es k2
| logged_rejected i k x xs e k1 ds es k2 :
    validate x k = (Raise e, k1) ->
    is_ValueError e = true ->
    logged validate (i + 1) k1 xs ds es k2 ->
    logged validate i k (x :: xs) ds (RowError i e :: es) k2.

(** An answer of a batch write that the insert loop handles: the write
    succeeded, or it reported a partial failure. *)
Definition handled (r : outcome (list Z)) : Prop :=
  match r with
  | Return _ | Raise (BulkWriteError _ _) => True
  | Raise _ => False
  end.

(** Every answer of the database accounts for each document of the batch
    it answers, as persisted or as a write error. *)
Definition accounts_for_batches {Store}
    (driver : collection_name -> list pyval -> Store
              -> outcome (list Z) * Store) : Prop :=
  forall c batch st,
    persisted (fst (driver c batch st)) + write_errors (fst (driver c batch st))
    = Z.of_nat (List.length batch).

(** The store the database is left in by a sequence of batch writes. *)
Fixpoint store_after {Store}
    (driver : collection_name -> list pyval -> Store
              -> outcome (list Z) * Store)
    (c : collection_name) (bs : list (list pyval)) (st : Store) : Store :=
  match bs with
  | [] => st
  | b :: bs' => store_after driver c bs' (snd (driver c b st))
  end.

(** The eleven indexes of [create_indexes], in the order of the calls. *)
Definition index_plan : list (collection_name * index_model) :=
  [(REVIEWS_COLLECTION,
    {| ix_keys := [("review_text"%string, TEXT)];
       ix_name := "review_text_index";
       ix_default_language := Some "english"%string;
       ix_unique := false |});
   (REVIEWS_COLLECTION,
    {| ix_keys := [("destination"%string, ASCENDING)];
       ix_name := "destination_index";
       ix_default_language := None; ix_unique := false |});
   (REVIEWS_COLLECTION,
    {| ix_keys := [("district"%string, ASCENDING)];
       ix_name := "district_index";
       ix_default_language := None; ix_unique := false |});
   (REVIEWS_COLLECTION,
    {| ix_keys := [("location_type"%string, ASCENDING)];
       ix_name := "location_type_index";
       ix_default_language := None; ix_unique := false |});
   (REVIEWS_COLLECTION,
    {| ix_keys := [("destination"%string, ASCENDING);
                   ("location_type"%string, ASCENDING)];
       ix_name := "destination_location_type_index";
       ix_default_language := None; ix_unique := false |});
   (REVIEWS_COLLECTION,
    {| ix_keys := [("created_at"%string, DESCENDING)];
       ix_name := "created_at_index";
       ix_default_language := None; ix_unique := false |});
   (LOCATIONS_COLLECTION,
    {| ix_keys := [("coordinates"%string, GEOSPHERE)];
       ix_name := "coordinates_geospatial_index";
       ix_default_language := None; ix_unique := false |});
   (LOCATIONS_COLLECTION,
    {| ix_keys := [("locationId"%string, ASCENDING)];
       ix_name := "location_id_unique_index";
       ix_default_language := None; ix_unique := true |});
   (LOCATIONS_COLLECTION,
    {| ix_keys := [("name"%string, ASCENDING)];
       ix_name := "name_index";
       ix_default_language := None; ix_unique := false |});
   (LOCATIONS_COLLECTION,
    {| ix_keys := [("category"%string, ASCENDING)];
       ix_name := "category_index";
       ix_default_language := None; ix_unique := false |});
   (LOCATIONS_COLLECTION,
    {| ix_keys := [("name"%string, TEXT);
                   ("details.description"%string, TEXT);
                   ("details.historicalInfo"%string, TEXT)];
       ix_name := "location_text_index";
       ix_default_language := Some "english"%string;
       ix_unique := false |})].

(** The answers of the database to a sequence of index requests, up to the
    first one it refuses. *)
Fixpoint index_answers {Store}
    (driver : collection_name -> index_model -> Store
              -> outcome string * Store)
    (plan : list (collection_name * index_model)) (st : Store)
  : list (collection_name * index_model) * option exn * Store :=
  match plan with
  | [] => ([], None, st)
  | (c, ix) :: plan' =>
      match driver c ix st with
      | (Return _, st') =>
          let '(sent, failure, st'') := index_answers driver plan' st' in
          ((c, ix) :: sent, failure, st'')
      | (Raise e, st') => ([(c, ix)], Some e, st')
      end
  end.

(* ================================================================== *)
(** ** The connection, the collections, the report and [main] *)
(* ================================================================== *)

(** [Config.CONNECTION_TIMEOUT], passed as [serverSelectionTimeoutMS]. *)
Definition CONNECTION_TIMEOUT : Z := 10000.

(** [Config.REVIEWS_COLLECTION] and [Config.LOCATIONS_COLLECTION]. *)
Definition collection_string (c : collection_name) : string :=
  match c with
  | REVIEWS_COLLECTION => "reviews"
  | LOCATIONS_COLLECTION => "locations"
  end.

(** The part of [Config] read from the environment. *)
Record config := {
  MONGO_URI : string;
  DATABASE_NAME : string
}.

Definition pstr (s : string) : pyval := PStr (PyStr.lit s).

Definition field (k : string) (v : pyval) : pystr * pyval := (PyStr.lit k, v).

(** A [{"bsonType": ..., "description": ...}] entry of a schema. *)
Definition described (bsonType description : string) : pyval :=
  PDict [field "bsonType" (pstr bsonType);
         field "description" (pstr description)].

(** [reviews_schema] of [create_collections]. *)
Definition reviews_schema : pyval :=
  PDict
    [field "bsonType" (pstr "object");
     field "required"
       (PList [pstr "destination"; pstr "district"; pstr "location_type";
               pstr "review_text"]);
     field "properties"
       (PDict
          [field "destination"
             (described "string" "Name of the destination (required)");
           field "district"
             (described "string"
                "District where destination is located (required)");
           field "location_type"
             (described "string"
                ("Type of location: Beaches, Historical, Nature, etc. "
                 ++ "(required)"));
           field "review_text"
             (PDict [field "bsonType" (pstr "string");
                     field "minLength" (PInt 10);
                     field "description"
                       (pstr ("Review content, minimum 10 characters "
                              ++ "(required)"))]);
           field "created_at"
             (described "date" "Timestamp when review was created");
           field "metadata"
             (described "object" "Import metadata and tracking info")])].

(** [locations_schema] of [create_collections]. *)
Definition locations_schema : pyval :=
  PDict
    [field "bsonType" (pstr "object");
     field "required"
       (PList [pstr "locationId"; pstr "name"; pstr "coordinates"]);
     field "properties"
       (PDict
          [field "locationId"
             (described "string" "Unique identifier for location (required)");
           field "name" (described "string" "Location name (required)");
           field "coordinates"
             (PDict
                [field "bsonType" (pstr "object");
                 field "required" (PList [pstr "type"; pstr "coordinates"]);
                 field "properties"
                   (PDict
                      [field "type"
                         (PDict [field "enum" (PList [pstr "Point"]);
                                 field "description"
                                   (pstr "GeoJSON type (must be 'Point')")]);
                       field "coordinates"
                         (PDict [field "bsonType" (pstr "array");
                                 field "minItems" (PInt 2);
                                 field "maxItems" (PInt 2);
                                 field "items"
                                   (PDict [field "bsonType" (pstr "double")]);
                                 field "description"
                                   (pstr
                                      "Array of [longitude, latitude]")])])]);
           field "category" (described "array" "Array of category tags");
           field "details"
             (described "object" "Detailed location information");
           field "logistics"
             (described "object" "Hours, fees, facilities, accessibility")])].

(** [{"$jsonSchema": schema}] *)
Definition validator (schema : pyval) : pyval :=
  PDict [field "$jsonSchema" schema].

Definition schema_of (c : collection_name) : pyval :=
  match c with
  | REVIEWS_COLLECTION => reviews_schema
  | LOCATIONS_COLLECTION => locations_schema
  end.

(** The group-and-count pipelines of [generate_summary]. *)
Definition count_by (path : string) : pyval :=
  PDict [field "$group"
           (PDict [field "_id" (pstr path);
                   field "count" (PDict [field "$sum" (PInt 1)])])].

Definition sort_by_count : pyval :=
  PDict [field "$sort" (PDict [field "count" (PInt (-1))])].

Definition limit (n : Z) : pyval := PDict [field "$limit" (PInt n)].

Definition pipeline_location_type : pyval :=
  PList [count_by "$location_type"; sort_by_count].

Definition pipeline_district : pyval :=
  PList [count_by "$district"; sort_by_count; limit 10].

Definition pipeline_destination : pyval :=
  PList [count_by "$destination"; sort_by_count; limit 10].

Definition pipeline_category : pyval :=
  PList [PDict [field "$unwind" (pstr "$category")];
         count_by "$category"; sort_by_count].

(** What the script asks of the database. *)
Inductive request :=
| MongoClient (uri : string) (serverSelectionTimeoutMS : Z)
              (retryWrites : bool) (w : string)
| Ping
| ListCollectionNames
| Drop (c : collection_name)
| CreateCollection (c : collection_name) (validator : pyval)
| Call (call : driver_call)
| Aggregate (c : collection_name) (pipeline : pyval)
| ListIndexes (c : collection_name)
| Close.

(** A document of the [$group] stage of the report's pipelines: its
    [_id] and its [count], the integer sum of ones. *)
Record group_count := { gc_id : pyval; gc_count : Z }.

(** A document of [list_indexes]: the name of the index and the fields of
    its key. *)
Record index_info := { info_name : string; info_key : list string }.

(** How the database answers.  [ConnectionFailure] and [OperationFailure]
    are [PyMongoError] here: the handlers that name them only print before
    raising again, and [main] exits alike on both.  An aggregate answers
    with group documents and [list_indexes] with index documents, so that
    the subscripts and the formats of the report do not fail on them. *)
Record driver (Store : Type) := {
  drv_client : string -> Store -> outcome unit * Store;
  drv_ping : Store -> outcome unit * Store;
  drv_list_collection_names : Store -> outcome (list string) * Store;
  drv_drop : collection_name -> Store -> outcome unit * Store;
  drv_create_collection :
    collection_name -> pyval -> Store -> outcome unit * Store;
  drv_insert_many :
    collection_name -> list pyval -> Store -> outcome (list Z) * Store;
  drv_create_index :
    collection_name -> index_model -> Store -> outcome string * Store;
  drv_aggregate :
    collection_name -> pyval -> Store -> outcome (list group_count) * Store;
  drv_list_indexes :
    collection_name -> Store -> outcome (list index_info) * Store;
  drv_close : Store -> outcome unit * Store
}.

Arguments drv_client {Store} d.
Arguments drv_ping {Store} d.
Arguments drv_list_collection_names {Store} d.
Arguments drv_drop {Store} d.
Arguments drv_create_collection {Store} d.
Arguments drv_insert_many {Store} d.
Arguments drv_create_index {Store} d.
Arguments drv_aggregate {Store} d.
Arguments drv_list_indexes {Store} d.
Arguments drv_close {Store} d.

(** The state of a run: the clock, the database, the requests sent so far,
    whether [main] holds a manager, whether the [client] field of the
    manager is set, and the database its [db] field names. *)
Record process (Store : Type) := {
  p_clock : nat;
  p_store : Store;
  p_requests : list request;
  p_manager : bool;
  p_client : bool;
  p_db : option string
}.

Arguments p_clock {Store} p.
Arguments p_store {Store} p.
Arguments p_requests {Store} p.
Arguments p_manager {Store} p.
Arguments p_client {Store} p.
Arguments p_db {Store} p.

Section Run.

Variable utcnow : nat -> Z.
Variable Store : Type.
Variable drv : driver Store.
Variable cfg : config.

(** The start of the process. *)
Definition start (k : nat) (st : Store) : process Store :=
  {| p_clock := k; p_store := st; p_requests := [];
     p_manager := false; p_client := false; p_db := None |}.

(** One request and its answer. *)
Definition send {A} (rq : request) (answer : Store -> outcome A * Store)
  : M (process Store) A :=
  fun p => let (r, st) := answer (p_store p) in
           (r, {| p_clock := p_clock p; p_store := st;
                  p_requests := p_requests p ++ [rq];
                  p_manager := p_manager p; p_client := p_client p;
                  p_db := p_db p |}).

(** A method of the manager that works on a collection of [self.db]. *)
Definition on_collections {A} (m : M (world Store) A) : M (process Store) A :=
  fun p => let (r, w) := m {| store := p_store p; calls := [] |} in
           (r, {| p_clock := p_clock p; p_store := store w;
                  p_requests := p_requests p ++ map Call (calls w);
                  p_manager := p_manager p; p_client := p_client p;
                  p_db := p_db p |}).

(** A loader, run on the clock of the process. *)
Definition loading (load : nat -> outcome (list pyval) * locals)
  : M (process Store) (list pyval) :=
  fun p => let (r, l) := load (p_clock p) in
           (r, {| p_clock := tick l; p_store := p_store p;
                  p_requests := p_requests p;
                  p_manager := p_manager p; p_client := p_client p;
                  p_db := p_db p |}).

(** [mongo_manager = MongoDBManager(uri, database_name)] *)
Definition new_manager : M (process Store) unit :=
  modify (fun p => {| p_clock := p_clock p; p_store := p_store p;
                      p_requests := p_requests p;
                      p_manager := true; p_client := false; p_db := None |}).

Definition set_client : M (process Store) unit :=
  modify (fun p => {| p_clock := p_clock p; p_store := p_store p;
                      p_requests := p_requests p;
                      p_manager := p_manager p; p_client := true;
                      p_db := p_db p |}).

Definition set_db : M (process Store) unit :=
  modify (fun p => {| p_clock := p_clock p; p_store := p_store p;
                      p_requests := p_requests p;
                      p_manager := p_manager p; p_client := p_client p;
                      p_db := Some (DATABASE_NAME cfg) |}).

(** [MongoDBManager.connect]: the handler of [ConnectionFailure] prints
    and raises again. *)
Definition connect : M (process Store) unit :=
  send (MongoClient (MONGO_URI cfg) CONNECTION_TIMEOUT true "majority")
       (drv_client drv (MONGO_URI cfg)) ;;;
  set_client ;;;
  send Ping (drv_ping drv) ;;;
  set_db.

(** [MongoDBManager.disconnect] *)
Definition disconnect : M (process Store) unit :=
  fun p => if p_client p then send Close (drv_close drv) p else ret tt p.

(** [if name in existing_collections: self.db[name].drop()] *)
Definition drop_if_exists (existing : list string) (c : collection_name)
  : M (process Store) unit :=
  if existsb (String.eqb (collection_string c)) existing
  then send (Drop c) (drv_drop drv c)
  else ret tt.

Definition create (c : collection_name) : M (process Store) unit :=
  send (CreateCollection c (validator (schema_of c)))
       (drv_create_collection drv c (validator (schema_of c))).

(** [MongoDBManager.create_collections]: the handler of
    [OperationFailure] prints and raises again. *)
Definition create_collections : M (process Store) unit :=
  p <- get_state ;;
  match p_db p with
  | None => raise AttributeError
  | Some _ =>
    existing_collections <-
      send ListCollectionNames (drv_list_collection_names drv) ;;
    drop_if_exists existing_collections REVIEWS_COLLECTION ;;;
    drop_if_exists existing_collections LOCATIONS_COLLECTION ;;;
    create REVIEWS_COLLECTION ;;;
    create LOCATIONS_COLLECTION
  end.

(** What begins with [db[...]]: subscripting [None] is a [TypeError]. *)
Definition with_db {A} (m : M (process Store) A) : M (process Store) A :=
  p <- get_state ;;
  match p_db p with
  | None => raise TypeError
  | Some _ => m
  end.

Definition manager_insert_reviews (reviews : list pyval)
  : M (process Store) stats :=
  with_db (on_collections (insert_reviews Store (drv_insert_many drv) reviews)).

Definition manager_insert_locations (locations : list pyval)
  : M (process Store) stats :=
  with_db (on_collections
             (insert_locations Store (drv_insert_many drv) locations)).

Definition manager_create_indexes : M (process Store) unit :=
  with_db (on_collections (create_indexes Store (drv_create_index drv))).

Definition aggregate (c : collection_name) (pipeline : pyval)
  : M (process Store) (list group_count) :=
  send (Aggregate c pipeline) (drv_aggregate drv c pipeline).

Definition list_indexes (c : collection_name)
  : M (process Store) (list index_info) :=
  send (ListIndexes c) (drv_list_indexes drv c).

(** [StatsReporter.generate_summary(mongo_manager.db, ...)]: what it
    prints is left out; each collection's indexes are listed twice, once
    to count them and once to name them. *)
Definition generate_summary (review_stats location_stats : stats)
  : M (process Store) unit :=
  with_db
    (aggregate REVIEWS_COLLECTION pipeline_location_type ;;;
     aggregate REVIEWS_COLLECTION pipeline_district ;;;
     aggregate REVIEWS_COLLECTION pipeline_destination ;;;
     aggregate LOCATIONS_COLLECTION pipeline_category ;;;
     list_indexes REVIEWS_COLLECTION ;;;
     list_indexes REVIEWS_COLLECTION ;;;
     list_indexes LOCATIONS_COLLECTION ;;;
     list_indexes LOCATIONS_COLLECTION ;;;
     ret tt).

(** The [try] block of [main]. *)
Definition main_try (csv : csv_file) (json : json_file)
  : M (process Store) unit :=
  reviews <- loading (load_csv_reviews utcnow csv) ;;
  locations <- loading (load_json_locations utcnow json) ;;
  new_manager ;;;
  connect ;;;
  create_collections ;;;
  review_stats <- manager_insert_reviews reviews ;;
  location_stats <- manager_insert_locations locations ;;
  manager_create_indexes ;;;
  generate_summary review_stats location_stats.

(** The [finally] block of [main]. *)
Definition main_finally : M (process Store) unit :=
  fun p => if p_manager p then disconnect p else ret tt p.

(** [main]: the exit code of the process and its final state.  Each of
    the three handlers ends with [sys.exit(1)], and an exception of the
    [finally] block leaves [main] uncaught. *)
Definition main (csv : csv_file) (json : json_file) (p : process Store)
  : Z * process Store :=
  let (tried, p1) := main_try csv json p in
  let (closed, p2) := main_finally p1 in
  (match tried, closed with
   | Return _, Return _ => 0
   | _, _ => 1
   end, p2).

(** [quiet P m]: whatever the database answers, [m] only sends requests
    that satisfy [P], leaves [main]'s manager as it is and does not unset
    its client. *)
Definition quiet {A} (P : request -> Prop) (m : M (process Store) A) : Prop :=
  forall p r p',
    m p = (r, p') ->
    p_manager p' = p_manager p /\
    (p_client p = true -> p_client p' = true) /\
    exists rs, p_requests p' = p_requests p ++ rs /\ Forall P rs.

(** What a method of the manager leaves as it found it. *)
Definition same_manager (p p' : process Store) : Prop :=
  p_db p' = p_db p /\ p_manager p' = p_manager p /\
  p_client p' = p_client p /\ p_clock p' = p_clock p.

End Run.

Arguments quiet {Store A} P m.

(** The drops of [create_collections] for the names the database lists. *)
Definition drops (existing : list string) : list request :=
  (if existsb (String.eqb "reviews") existing
   then [Drop REVIEWS_COLLECTION] else []) ++
  (if existsb (String.eqb "locations") existing
   then [Drop LOCATIONS_COLLECTION] else []).

Definition creates : list request :=
  [CreateCollection REVIEWS_COLLECTION (validator reviews_schema);
   CreateCollection LOCATIONS_COLLECTION (validator locations_schema)].

(** The reading requests of [generate_summary]. *)
Definition summary_requests : list request :=
  [Aggregate REVIEWS_COLLECTION pipeline_location_type;
   Aggregate REVIEWS_COLLECTION pipeline_district;
   Aggregate REVIEWS_COLLECTION pipeline_destination;
   Aggregate LOCATIONS_COLLECTION pipeline_category;
   ListIndexes REVIEWS_COLLECTION; ListIndexes REVIEWS_COLLECTION;
   ListIndexes LOCATIONS_COLLECTION; ListIndexes LOCATIONS_COLLECTION].

Definition not_close (rq : request) : Prop := rq <> Close.

(** The requests of [connect] and [create_collections] when both have
    returned. *)
Definition setup_requests (cfg : config) (existing : list string)
  : list request :=
  [MongoClient (MONGO_URI cfg) CONNECTION_TIMEOUT true "majority"; Ping;
   ListCollectionNames] ++ drops existing ++ creates.

Definition is_call (rq : request) : Prop :=
  match rq with
  | Call _ => True
  | _ => False
  end.

(** A database that answers every request, a batch write with its ids or
    with a partial failure. *)
Record cooperative {Store : Type} (drv : driver Store) : Prop := {
  coop_client : forall uri st, exists st',
      drv_client drv uri st = (Return tt, st');
  coop_ping : forall st, exists st', drv_ping drv st = (Return tt, st');
  coop_list : forall st, exists names st',
      drv_list_collection_names drv st = (Return names, st');
  coop_drop : forall c st, exists st', drv_drop drv c st = (Return tt, st');
  coop_create : forall c v st, exists st',
      drv_create_collection drv c v st = (Return tt, st');
  coop_insert : write_level (drv_insert_many drv);
  coop_index : forall c ix st, exists name st',
      drv_create_index drv c ix st = (Return name, st');
  coop_aggregate : forall c pipeline st, exists docs st',
      drv_aggregate drv c pipeline st = (Return docs, st');
  coop_list_indexes : forall c st, exists docs st',
      drv_list_indexes drv c st = (Return docs, st');
  coop_close : forall st, exists st', drv_close drv st = (Return tt, st')
}.

(** What a JSON schema of [create_collections] says of a field: the
    fields it requires, and the declared type and least length of one. *)
Definition schema_required (schema : pyval) : list pystr :=
  match schema with
  | PDict d =>
      match Dict.get d (PyStr.lit "required") with
      | Some (PList l) =>
          flat_map (fun v => match v with PStr s => [s] | _ => [] end) l
      | _ => []
      end
  | _ => []
  end.

Definition schema_property (schema : pyval) (f : pystr) : option pyval :=
  match schema with
  | PDict d =>
      match Dict.get d (PyStr.lit "properties") with
      | Some (PDict properties) => Dict.get properties f
      | _ => None
      end
  | _ => None
  end.

Definition declared_type (property : pyval) : option pystr :=
  match property with
  | PDict d =>
      match Dict.get d (PyStr.lit "bsonType") with
      | Some (PStr s) => Some s
      | _ => None
      end
  | _ => None
  end.

Definition declared_min_length (property : pyval) : option Z :=
  match property with
  | PDict d =>
      match Dict.get d (PyStr.lit "minLength") with
      | Some (PInt n) => Some n
      | _ => None
      end
  | _ => None
  end.

Module RunExamples.

Definition cfg : config :=
  {| MONGO_URI := "mongodb+srv://cluster0.example.net/";
     DATABASE_NAME := "aiTourGuide" |}.

(** A database that answers every request and holds a [reviews]
    collection from an earlier run. *)
Definition driver_ok : driver unit :=
  {| drv_client := fun _ st => (Return tt, st);
     drv_ping := fun st => (Return tt, st);
     drv_list_collection_names :=
       fun st => (Return ["reviews"%string; "users"%string], st);
     drv_drop := fun _ st => (Return tt, st);
     drv_create_collection := fun _ _ st => (Return tt, st);
     drv_insert_many := Examples.driver_accepts;
     drv_create_index := Examples.driver_creates;
     drv_aggregate := fun _ _ st => (Return [], st);
     drv_list_indexes := fun _ st => (Return [], st);
     drv_close := fun st => (Return tt, st) |}.

(** A CSV file that does not exist. *)
Definition csv_missing : csv_file :=
  {| csv_exists := false;
     csv_utf8 := Utf8OpenFails;
     csv_latin1 := {| csv_fieldnames := None; csv_records := [] |};
     csv_latin1_end := Latin1EndOfFile |}.

(** What the loaders return on the two example files when every clock
    reading is 0. *)
Definition loaded_reviews : list pyval :=
  match fst (load_csv_reviews (fun _ => 0) MoreExamples.csv_three_rows 0%nat)
  with
  | Return ds => ds
  | Raise _ => []
  end.



(** A manager that has connected. *)
Definition connected : process unit :=
  {| p_clock := 0; p_store := tt;
     p_requests :=
       [MongoClient (MONGO_URI cfg) CONNECTION_TIMEOUT true "majority"; Ping];
     p_manager := true; p_client := true;
     p_db := Some (DATABASE_NAME cfg) |}.

(** The requests of a run of [main] on the two example files. *)
Definition requests_of_run : list request :=
  p_requests
    (snd (main (fun _ => 0) unit driver_ok cfg MoreExamples.csv_three_rows
            MoreExamples.json_two_locations (start unit 0 tt))).

End RunExamples.

(* ================================================================== *)
(** * Properties *)
(* ================================================================== *)

(** ** Proof steps shared by the validators *)

Ltac step_in H :=
  cbv beta iota delta [bind ret raise Py.contains Py.get Py.len Py.setitem
    Py.getitem Py.strip Py.unpack2 Py.between Py.int_le Py.le_int
    datetime_utcnow negb fst snd] in H.

Ltac step_goal :=
  cbv beta iota delta [bind ret raise Py.contains Py.get Py.len Py.setitem
    Py.getitem Py.strip Py.unpack2 datetime_utcnow negb fst snd].

(** Case analysis on the innermost [match] of a hypothesis. *)
Ltac innermost_in H :=
  match type of H with
  | context [match ?x with _ => _ end] =>
      lazymatch x with
      | context [match _ with _ => _ end] => fail
      | _ => destruct x eqn:?
      end
  end.

Ltac crunch_in H :=
  step_in H; try discriminate H;
  repeat (innermost_in H; step_in H; try discriminate H).

(** ** Strings and dictionaries *)

Lemma eqb_eq (a b : pystr) : PyStr.eqb a b = true <-> a = b.
Proof.
  unfold PyStr.eqb. destruct (list_eq_dec N.eq_dec a b); split; congruence.
Qed.

Lemma eqb_neq (a b : pystr) : a <> b -> PyStr.eqb a b = false.
Proof.
  intros Hne. destruct (PyStr.eqb a b) eqn:E; [|reflexivity].
  apply eqb_eq in E. contradiction.
Qed.

Lemma get_set_other (d : dict) (k k' : pystr) (v : pyval) :
  k <> k' -> Dict.get (Dict.set d k' v) k = Dict.get d k.
Proof.
  intros Hne. induction d as [|[k0 v0] d IH]; simpl.
  - now rewrite (eqb_neq _ _ Hne).
  - destruct (PyStr.eqb k' k0) eqn:E; simpl.
    + apply eqb_eq in E. subst k0. now rewrite (eqb_neq _ _ Hne).
    + destruct (PyStr.eqb k k0); [reflexivity|apply IH].
Qed.

Lemma lstrip_head (s : pystr) (c : N) (r : pystr) :
  PyStr.lstrip s = c :: r -> PyStr.isspace c = false.
Proof.
  induction s as [|a s IH]; simpl; [discriminate|].
  destruct (PyStr.isspace a) eqn:E; [exact IH|].
  intros H. inversion H. subst. exact E.
Qed.

Lemma lstrip_suffix (s : pystr) : exists p, s = p ++ PyStr.lstrip s.
Proof.
  induction s as [|a s [p IH]]; simpl.
  - now exists [].
  - destruct (PyStr.isspace a).
    + exists (a :: p). simpl. now rewrite <- IH.
    + now exists [].
Qed.

Lemma rstrip_prefix (s : pystr) : exists q, s = PyStr.rstrip s ++ q.
Proof.
  unfold PyStr.rstrip. destruct (lstrip_suffix (rev s)) as [p Hp].
  exists (rev p). rewrite <- rev_app_distr, <- Hp. now rewrite rev_involutive.
Qed.

Lemma rstrip_last (s : pystr) (c : N) (r : pystr) :
  PyStr.rstrip s = r ++ [c] -> PyStr.isspace c = false.
Proof.
  unfold PyStr.rstrip. intros H.
  apply (f_equal (@rev N)) in H.
  rewrite rev_involutive, rev_app_distr in H. simpl in H.
  exact (lstrip_head _ _ _ H).
Qed.

(** [strip] leaves no whitespace at either end. *)
Lemma strip_trimmed (s : pystr) : PyStr.trimmed (PyStr.strip s).
Proof.
  unfold PyStr.trimmed, PyStr.strip. split; intros c r H.
  - destruct (rstrip_prefix (PyStr.lstrip s)) as [q Hq].
    rewrite H in Hq. simpl in Hq. exact (lstrip_head _ _ _ Hq).
  - exact (rstrip_last _ _ _ H).
Qed.

(** [lo <= x <= hi] on a number returns, and is true exactly on the
    numbers of the interval. *)
Lemma between_number {S} (lo hi : Z) (v : pyval) (s : S) :
  is_number v = true ->
  exists b, Py.between lo v hi s = (Return b, s) /\
            (b = true <-> in_interval lo hi v).
Proof.
  destruct v as [| |z|f| | | |]; try discriminate; intros _.
  - unfold Py.between, Py.int_le, Py.le_int, bind, ret. simpl.
    destruct (lo <=? z) eqn:E1.
    + exists (z <=? hi). split; [reflexivity|].
      apply Z.leb_le in E1. rewrite Z.leb_le. lia.
    + exists false. split; [reflexivity|].
      apply Z.leb_gt in E1. split; [discriminate|lia].
  - destruct f as [|negative|q];
      unfold Py.between, Py.int_le, Py.le_int, bind, ret; simpl.
    + exists false. split; [reflexivity|]. split; [discriminate|tauto].
    + destruct negative; exists false; simpl;
        (split; [reflexivity|]); (split; [discriminate|tauto]).
    + destruct (Qle_bool (inject_Z lo) q) eqn:E1.
      * exists (Qle_bool q (inject_Z hi)). split; [reflexivity|].
        apply Qle_bool_iff in E1. rewrite Qle_bool_iff. tauto.
      * exists false. split; [reflexivity|]. split; [discriminate|].
        intros [H _]. apply Qle_bool_iff in H. congruence.
Qed.

(** ** validate_review *)

(** What [validate_review] has checked and built when it returns. *)
Lemma validate_review_inv (utcnow : nat -> Z) (row : pyval) (k : nat)
    (doc : pyval) (k' : nat) :
  validate_review utcnow row k = (Return doc, k') ->
  exists d s1 s2 s3 s4,
    row = PDict d /\
    Dict.get d (PyStr.lit "Destination") = Some (PStr s1) /\ s1 <> [] /\
    Dict.get d (PyStr.lit "District") = Some (PStr s2) /\ s2 <> [] /\
    Dict.get d (PyStr.lit "Location_Type") = Some (PStr s3) /\ s3 <> [] /\
    Dict.get d (PyStr.lit "Review") = Some (PStr s4) /\ s4 <> [] /\
    10 <= PyStr.len (PyStr.strip s4) /\
    k' = S (S k) /\
    doc = PDict
            [(PyStr.lit "destination", PStr (PyStr.strip s1));
             (PyStr.lit "district", PStr (PyStr.strip s2));
             (PyStr.lit "location_type", PStr (PyStr.strip s3));
             (PyStr.lit "review_text", PStr (PyStr.strip s4));
             (PyStr.lit "created_at", PDatetime (utcnow k));
             (PyStr.lit "metadata",
              PDict [(PyStr.lit "source", PStr (PyStr.lit "csv_import"));
                     (PyStr.lit "import_date", PDatetime (utcnow (S k)))])].
Proof.
  unfold validate_review, review_required_fields.
  cbn [for_each]. intros H.
  destruct row; step_in H; try discriminate H.
  1-2: repeat (innermost_in H; step_in H; try discriminate H).
  unfold Dict.mem in H.
  destruct (Dict.get d (PyStr.lit "Destination")) as [v1|] eqn:G1;
    step_in H; try discriminate H.
  destruct v1 as [| | | |s1| | |]; try (crunch_in H; fail).
  destruct s1 as [|c1 s1]; cbn [truthy] in H; step_in H; try discriminate H.
  destruct (Dict.get d (PyStr.lit "District")) as [v2|] eqn:G2;
    step_in H; try discriminate H.
  destruct v2 as [| | | |s2| | |]; try (crunch_in H; fail).
  destruct s2 as [|c2 s2]; cbn [truthy] in H; step_in H; try discriminate H.
  destruct (Dict.get d (PyStr.lit "Location_Type")) as [v3|] eqn:G3;
    step_in H; try discriminate H.
  destruct v3 as [| | | |s3| | |]; try (crunch_in H; fail).
  destruct s3 as [|c3 s3]; cbn [truthy] in H; step_in H; try discriminate H.
  destruct (Dict.get d (PyStr.lit "Review")) as [v4|] eqn:G4;
    step_in H; try discriminate H.
  destruct v4 as [| | | |s4| | |]; try (crunch_in H; fail).
  destruct s4 as [|c4 s4]; cbn [truthy] in H; step_in H; try discriminate H.
  destruct (PyStr.len (PyStr.strip (c4 :: s4)) <? 10) eqn:Hlen;
    try discriminate H.
  apply Z.ltb_ge in Hlen. inversion H; subst.
  exists d, (c1 :: s1), (c2 :: s2), (c3 :: s3), (c4 :: s4).
  repeat split; try reflexivity; try discriminate; assumption.
Qed.

(** An accepted row gives four trimmed strings, and a review text of ten
    characters or more. *)
Lemma validate_review_trimmed (utcnow : nat -> Z) (row : pyval) (k : nat)
    (doc : pyval) :
  accepts (validate_review utcnow row) k doc ->
  trimmed_string_field doc "destination" /\
  trimmed_string_field doc "district" /\
  trimmed_string_field doc "location_type" /\
  trimmed_string_field doc "review_text" /\
  exists d s, doc = PDict d /\
              Dict.get d (PyStr.lit "review_text") = Some (PStr s) /\
              10 <= PyStr.len s.
Proof.
  intros [k' H]. apply validate_review_inv in H.
  destruct H as (d & s1 & s2 & s3 & s4 & _ & _ & _ & _ & _ & _ & _ & _ & _
                 & Hlen & _ & ->).
  unfold trimmed_string_field.
  repeat split.
  - eexists _, _. split; [reflexivity|]. split; [reflexivity|].
    apply strip_trimmed.
  - eexists _, _. split; [reflexivity|]. split; [reflexivity|].
    apply strip_trimmed.
  - eexists _, _. split; [reflexivity|]. split; [reflexivity|].
    apply strip_trimmed.
  - eexists _, _. split; [reflexivity|]. split; [reflexivity|].
    apply strip_trimmed.
  - eexists _, _. split; [reflexivity|]. split; [reflexivity|exact Hlen].
Qed.

(** C1.  A row whose [Destination] cell is three blanks passes the
    emptiness test, which reads the cell before it is stripped, and
    [validate_review] returns a document whose [destination] is the empty
    string: the claim that every accepted row gives four non-empty fields
    fails on this row. *)
Theorem validate_review_blank_destination (utcnow : nat -> Z) (k : nat) :
  exists doc,
    accepts (validate_review utcnow Examples.row_blank_destination) k doc /\
    trimmed_string_field doc "destination" /\
    ~ nonempty_string_field doc "destination" /\
    exists d, doc = PDict d /\
              Dict.get d (PyStr.lit "destination") = Some (PStr []).
Proof.
  eexists. split; [exists (S (S k)); reflexivity|].
  split; [|split].
  - eexists _, _. split; [reflexivity|]. split; [reflexivity|].
    split; intros c r H; [discriminate|destruct r; discriminate].
  - intros (d & s & Hd & Hg & Hs). inversion Hd; subst d.
    vm_compute in Hg. inversion Hg. congruence.
  - eexists. split; reflexivity.
Qed.

(** ** validate_location *)

Lemma eqb_refl (a : pystr) : PyStr.eqb a a = true.
Proof. now apply eqb_eq. Qed.

(** What [validate_location] has checked and built when it returns. *)
Lemma validate_location_inv (utcnow : nat -> Z) (location : pyval) (k : nat)
    (doc : pyval) (k' : nat) :
  validate_location utcnow location k = (Return doc, k') ->
  exists d meta,
    location = PDict d /\
    Dict.mem d (PyStr.lit "locationId") = true /\
    Dict.mem d (PyStr.lit "name") = true /\
    Dict.mem d (PyStr.lit "coordinates") = true /\
    k' = S (S k) /\
    doc = PDict (Dict.set d (PyStr.lit "metadata") meta).
Proof.
  unfold validate_location, location_required_fields.
  cbn [for_each]. intros H.
  destruct location; crunch_in H.
  all: inversion H; subst; eexists _, _; repeat split; eauto.
Qed.

(** C2, as the claim states it, fails: a location without [locationId]
    whose longitude is 200 is rejected for the missing field, the test
    that comes first, and not for the range. *)
Lemma validate_location_missing_field_first :
  ~ (forall (utcnow : nat -> Z) (location lon lat : pyval) (k : nat),
       has_point location lon lat ->
       ~ in_interval (-180) 180 lon \/ ~ in_interval (-90) 90 lat ->
       exists e,
         fst (validate_location utcnow location k) = Raise e /\
         fails_with e OutOfRange).
Proof.
  intros H.
  destruct (H (fun _ => 0) Examples.location_without_id (PInt 200) (PInt 7)
              0%nat) as (e & He & m & Hm & Hf).
  - eexists _, _. repeat split; reflexivity.
  - left. simpl. lia.
  - subst e. vm_compute in He. inversion He; subst m. discriminate Hf.
Qed.

(** C2, amended.  For every location that has the fields [locationId] and
    [name] and whose [coordinates] field is an object with type ["Point"]
    and a two-element numeric array [[lon, lat]]: if [lon] is outside
    [[-180, 180]] or [lat] is outside [[-90, 90]], [validate_location]
    raises the [ValueError] of the out-of-range failure, returns no
    document and reads no clock. *)
Theorem validate_location_out_of_range (utcnow : nat -> Z)
    (location lon lat : pyval) (k : nat) :
  has_point location lon lat ->
  has_field location "locationId" ->
  has_field location "name" ->
  ~ in_interval (-180) 180 lon \/ ~ in_interval (-90) 90 lat ->
  exists e,
    validate_location utcnow location k = (Raise e, k) /\
    fails_with e OutOfRange.
Proof.
  intros (d & c & -> & Hc & Ht & Ha & Hlon & Hlat)
         (d1 & v1 & E1 & G1) (d2 & v2 & E2 & G2) Hout.
  inversion E1; subst d1. inversion E2; subst d2. clear E1 E2.
  destruct (between_number (-180) 180 lon k Hlon) as (b1 & B1 & I1).
  destruct (between_number (-90) 90 lat k Hlat) as (b2 & B2 & I2).
  unfold validate_location, location_required_fields.
  cbn [for_each]. step_goal. unfold Dict.mem.
  rewrite G1, G2, Hc. step_goal. rewrite Ht. step_goal.
  cbn [eq_str]. rewrite eqb_refl. rewrite Ha. step_goal.
  cbn [List.length Z.of_nat Pos.of_succ_nat Pos.succ Z.eqb Pos.eqb].
  rewrite B1. destruct b1.
  - rewrite B2. destruct b2.
    + exfalso. destruct Hout as [Hout | Hout]; apply Hout; tauto.
    + eexists. split; [reflexivity|]. eexists. split; reflexivity.
  - eexists. split; [reflexivity|]. eexists. split; reflexivity.
Qed.

Lemma validate_location_out_of_range_witness :
  exists e,
    validate_location (fun _ => 0) Examples.location_far_east 0%nat
    = (Raise e, 0%nat) /\
    fails_with e OutOfRange.
Proof.
  apply (validate_location_out_of_range (fun _ => 0)
           Examples.location_far_east (PInt 200) (PInt 7) 0%nat).
  - eexists _, _. repeat split; reflexivity.
  - eexists _, _. split; reflexivity.
  - eexists _, _. split; reflexivity.
  - left. simpl. lia.
Defined.

(** C7, as the claim states it, fails: a location whose [name] is the
    empty string is accepted. *)
Lemma validate_location_accepts_empty_name :
  ~ (forall (utcnow : nat -> Z) (location doc : pyval) (k : nat),
       accepts (validate_location utcnow location) k doc ->
       nonempty_string_field doc "name").
Proof.
  intros H.
  destruct (H (fun _ => 0) Examples.location_empty_name _ 0%nat
              (ex_intro _ 2%nat eq_refl)) as (d & s & Hd & Hg & Hs).
  inversion Hd; subst d. vm_compute in Hg. inversion Hg. congruence.
Qed.

(** C7, amended.  Every location accepted by [validate_location] has a
    [name] field, of whatever value, and the returned document keeps
    it. *)
Theorem validate_location_has_name (utcnow : nat -> Z)
    (location doc : pyval) (k : nat) :
  accepts (validate_location utcnow location) k doc ->
  exists d d' v,
    location = PDict d /\ doc = PDict d' /\
    Dict.get d (PyStr.lit "name") = Some v /\
    Dict.get d' (PyStr.lit "name") = Some v.
Proof.
  intros [k' H]. apply validate_location_inv in H.
  destruct H as (d & meta & -> & _ & Hname & _ & _ & ->).
  unfold Dict.mem in Hname.
  destruct (Dict.get d (PyStr.lit "name")) as [v|] eqn:G; [|discriminate].
  exists d, (Dict.set d (PyStr.lit "metadata") meta), v.
  repeat split; [exact G|].
  rewrite get_set_other; [exact G|]. vm_compute. discriminate.
Qed.

Lemma validate_location_has_name_witness :
  exists d d' v,
    Examples.location_empty_name = PDict d /\
    Examples.validated_empty_name = PDict d' /\
    Dict.get d (PyStr.lit "name") = Some v /\
    Dict.get d' (PyStr.lit "name") = Some v.
Proof.
  apply (validate_location_has_name (fun _ => 0)
           Examples.location_empty_name Examples.validated_empty_name 0%nat).
  exists 2%nat. reflexivity.
Defined.

(** ** load_json_locations *)

(** C9.  A JSON file whose bytes are not UTF-8 text does not parse as
    JSON, and [load_json_locations] does not fail with the invalid-JSON
    failure on it: reading raises [UnicodeDecodeError], which
    [except json.JSONDecodeError] does not catch, so that exception leaves
    the function.  The same holds of the plain [ValueError] of an integer
    literal too long and of the [RecursionError] of a nesting too deep.
    On a file that the parser itself refuses, the handler does raise the
    invalid-JSON failure. *)
Theorem load_json_locations_unparsed_escapes (utcnow : nat -> Z) (k : nat) :
  load_json_locations utcnow Examples.json_not_utf8 k
  = (Raise UnicodeDecodeError, fresh k) /\
  ~ fails_with UnicodeDecodeError InvalidJson /\
  load_json_locations utcnow Examples.json_long_integer k
  = (Raise DigitLimitError, fresh k) /\
  ~ fails_with DigitLimitError InvalidJson /\
  load_json_locations utcnow Examples.json_deeply_nested k
  = (Raise RecursionError, fresh k) /\
  ~ fails_with RecursionError InvalidJson /\
  load_json_locations utcnow Examples.json_malformed k
  = (Raise (ValueError (InvalidJsonFormat (PyStr.lit "Expecting value"))),
     fresh k) /\
  fails_with (ValueError (InvalidJsonFormat (PyStr.lit "Expecting value")))
             InvalidJson.
Proof.
  assert (N : forall e, (forall m, e <> ValueError m) ->
                        ~ fails_with e InvalidJson).
  { intros e He (m & Hm & _). exact (He m Hm). }
  split; [reflexivity|]. split; [apply N; discriminate|].
  split; [reflexivity|]. split; [apply N; discriminate|].
  split; [reflexivity|]. split; [apply N; discriminate|].
  split; [reflexivity|]. eexists. split; reflexivity.
Qed.

(** C6.  A JSON array whose first element has the bare array [[80, 7]] as
    [coordinates], followed by a valid location: [coords.get] raises an
    [AttributeError], which [except ValueError] does not catch, so the load
    aborts with that error.  Nothing is recorded, and the valid element,
    which [validate_location] accepts, is never reached. *)
Theorem load_json_locations_list_coordinates_fatal (utcnow : nat -> Z)
    (k : nat) :
  load_json_locations utcnow Examples.json_list_coordinates k
  = (Raise AttributeError, fresh k) /\
  validate_location utcnow Examples.location_list_coordinates k
  = (Raise AttributeError, k) /\
  is_ValueError AttributeError = false /\
  exists doc,
    accepts (validate_location utcnow Examples.location_sigiriya) k doc.
Proof.
  split; [reflexivity|]. split; [reflexivity|]. split; [reflexivity|].
  eexists. exists (S (S k)). cbv. reflexivity.
Qed.

(** An element that is not an object: [validate_location] raises the
    [ValueError] of the missing field, and the handler of the loop, which
    calls [location.get] to name the element, raises an [AttributeError]
    that leaves the function. *)
Lemma load_json_locations_string_element_fatal (utcnow : nat -> Z) (k : nat) :
  load_json_locations utcnow Examples.json_string_element k
  = (Raise AttributeError, fresh k) /\
  exists e,
    validate_location utcnow (Examples.str "Kandy") k = (Raise e, k) /\
    fails_with e MissingField.
Proof.
  split; [reflexivity|].
  eexists. split; [reflexivity|]. eexists. split; reflexivity.
Qed.

(** ** load_csv_reviews *)

(** On the UTF-8 reading, a header that lacks a required column stops the
    load before any row: the locals are those of the entry. *)
Lemma load_csv_reviews_utf8_schema_mismatch (utcnow : nat -> Z)
    (f : csv_file) (t : csv_text) (tail : bool) (actual : list pystr)
    (k : nat) :
  csv_exists f = true ->
  csv_utf8 f = Utf8Reading t tail ->
  csv_fieldnames t = Some actual ->
  issubset expected_headers actual = false ->
  exists e,
    load_csv_reviews utcnow f k = (Raise e, fresh k) /\
    fails_with e SchemaMismatch.
Proof.
  intros Hex Hu Hf Hsub.
  unfold load_csv_reviews, load_csv_reviews_body, utf8_rows, latin1_rows.
  rewrite Hex, Hu, Hf, Hsub. cbn [negb].
  eexists. split; [reflexivity|]. eexists. split; reflexivity.
Qed.

(** C4.  A short CSV file without the [Review] column that holds a byte
    which is not UTF-8: the header is never read on the UTF-8 reading, and
    the Latin-1 fallback does not test the header.  The load returns the
    empty list; its only row has been validated and recorded as an error.
    The same header on a file that decodes as UTF-8 raises the schema
    mismatch. *)
Theorem load_csv_reviews_fallback_skips_header_check (utcnow : nat -> Z)
    (k : nat) :
  csv_fieldnames (csv_latin1 Examples.csv_latin1_without_review)
  = Some Examples.header_without_review /\
  issubset expected_headers Examples.header_without_review = false /\
  load_csv_reviews utcnow Examples.csv_latin1_without_review k
  = (Return [],
     {| tick := k; results := [];
        errors := [RowError 2 (ValueError (MissingRequiredField
                                             (PyStr.lit "Review")))] |}) /\
  exists e,
    load_csv_reviews utcnow Examples.csv_utf8_without_review k
    = (Raise e, fresh k) /\
    fails_with e SchemaMismatch.
Proof.
  split; [reflexivity|]. split; [reflexivity|]. split; [reflexivity|].
  eexists. split; [reflexivity|]. eexists. split; reflexivity.
Qed.

Lemma lstrip_nonspace (c : N) (r : pystr) :
  PyStr.isspace c = false -> PyStr.lstrip (c :: r) = c :: r.
Proof. intros H. cbn [PyStr.lstrip]. now rewrite H. Qed.

Lemma rstrip_nonspace (c : N) (r : pystr) :
  PyStr.isspace c = false -> PyStr.rstrip (r ++ [c]) = r ++ [c].
Proof.
  intros H. unfold PyStr.rstrip. rewrite rev_unit, (lstrip_nonspace _ _ H).
  cbn [rev]. now rewrite rev_involutive.
Qed.

Lemma strip_nonspace_ends (a c : N) (r : pystr) :
  PyStr.isspace a = false -> PyStr.isspace c = false ->
  PyStr.strip (a :: r ++ [c]) = a :: r ++ [c].
Proof.
  intros Ha Hc. unfold PyStr.strip. rewrite (lstrip_nonspace _ _ Ha).
  exact (rstrip_nonspace c (a :: r) Hc).
Qed.

(** A record of four non-empty cells whose review keeps ten characters
    once stripped is accepted, and gives the document of its cells. *)
Lemma validate_review_record (utcnow : nat -> Z) (a b c d : pystr) (k : nat) :
  a <> [] -> b <> [] -> c <> [] -> d <> [] ->
  10 <= PyStr.len (PyStr.strip d) ->
  validate_review utcnow (DictReader_row Examples.full_header [a; b; c; d]) k
  = (Return (Examples.review_document utcnow k [a; b; c; d]), S (S k)).
Proof.
  intros Ha Hb Hc Hd Hlen. apply Z.ltb_ge in Hlen.
  destruct a as [|a0 a]; [contradiction|].
  destruct b as [|b0 b]; [contradiction|].
  destruct c as [|c0 c]; [contradiction|].
  destruct d as [|d0 d]; [contradiction|].
  cbv -[PyStr.strip PyStr.len Z.ltb].
  rewrite Hlen. reflexivity.
Qed.

Lemma long_review_valid :
  Examples.long_review <> [] /\
  10 <= PyStr.len (PyStr.strip Examples.long_review).
Proof.
  split; [discriminate|].
  unfold Examples.long_review.
  generalize (eq_refl : Nat.leb 8 8191 = true).
  generalize 8191%nat. intros n Hn. apply Nat.leb_le in Hn.
  rewrite strip_nonspace_ends by reflexivity.
  unfold PyStr.len. cbn [List.length].
  rewrite length_app, repeat_length. cbn [List.length]. lia.
Qed.

(** C3.  A CSV file whose first decoding chunk holds the header and one
    valid record and whose second chunk is not UTF-8: the UTF-8 loop has
    appended the first record when the decoding error is raised, and the
    Latin-1 fallback reads the file again from its start without clearing
    [reviews].  The file holds two records, both valid; the list returned
    has three documents, the first record appearing twice. *)
Theorem load_csv_reviews_duplicates_after_fallback (utcnow : nat -> Z)
    (k : nat) :
  csv_records (csv_latin1 Examples.csv_undecodable_tail)
  = [Examples.record_sigiriya; Examples.record_galle] /\
  fst (load_csv_reviews utcnow Examples.csv_undecodable_tail k)
  = Return [Examples.review_document utcnow k Examples.record_sigiriya;
            Examples.review_document utcnow (S (S k))
              Examples.record_sigiriya;
            Examples.review_document utcnow (S (S (S (S k))))
              Examples.record_galle].
Proof.
  split; [reflexivity|].
  destruct long_review_valid as [Hne Hlen].
  assert (Hsig : forall j,
             validate_review utcnow
               (DictReader_row Examples.full_header Examples.record_sigiriya) j
             = (Return (Examples.review_document utcnow j
                          Examples.record_sigiriya), S (S j))).
  { intros j. apply validate_review_record; discriminate. }
  assert (Hgal : forall j,
             validate_review utcnow
               (DictReader_row Examples.full_header Examples.record_galle) j
             = (Return (Examples.review_document utcnow j
                          Examples.record_galle), S (S j))).
  { intros j.
    apply validate_review_record;
      [discriminate|discriminate|discriminate|exact Hne|exact Hlen]. }
  unfold load_csv_reviews, load_csv_reviews_body, utf8_rows, latin1_rows.
  change (csv_exists Examples.csv_undecodable_tail) with true.
  change (csv_latin1_end Examples.csv_undecodable_tail)
    with Latin1EndOfFile.
  cbn [negb].
  change (csv_utf8 Examples.csv_undecodable_tail)
    with (Utf8Reading {| csv_fieldnames := Some Examples.full_header;
                         csv_records := [Examples.record_sigiriya] |} true).
  cbn [csv_fieldnames].
  change (issubset expected_headers Examples.full_header) with true.
  cbn [negb].
  change (DictReader_rows
            {| csv_fieldnames := Some Examples.full_header;
               csv_records := [Examples.record_sigiriya] |})
    with [DictReader_row Examples.full_header Examples.record_sigiriya].
  change (DictReader_rows (csv_latin1 Examples.csv_undecodable_tail))
    with [DictReader_row Examples.full_header Examples.record_sigiriya;
          DictReader_row Examples.full_header Examples.record_galle].
  unfold review_rows_loop. cbn [enumerate for_each].
  unfold try_except_UnicodeDecodeError, try_except_ValueError, bind,
    with_clock, zoom, append_result, append_error, modify, fresh, raise, ret,
    get_state.
  cbn [tick results errors fst snd].
  rewrite Hsig. cbn [tick results errors fst snd].
  rewrite Hsig. cbn [tick results errors fst snd].
  rewrite Hgal. cbn [tick results errors fst snd app].
  reflexivity.
Qed.


(** ** Batches *)

Section Batching.

Context {A : Type}.

Lemma firstn_then_firstn (a b : nat) (l : list A) :
  firstn a l ++ firstn b (skipn a l) = firstn (a + b) l.
Proof.
  revert l. induction a as [|a IH]; intros l; [reflexivity|].
  destruct l as [|x l]; simpl.
  - now rewrite firstn_nil.
  - now rewrite IH.
Qed.

Lemma concat_chunks (l : list A) (c : nat) :
  List.concat (map (chunk l) (seq 0 c)) = firstn (100 * c) l.
Proof.
  induction c as [|c IH].
  - reflexivity.
  - rewrite seq_S, map_app, concat_app, IH. cbn [map List.concat Nat.add].
    rewrite app_nil_r. unfold chunk.
    rewrite firstn_then_firstn. f_equal. lia.
Qed.

Lemma length_chunk (l : list A) (j : nat) :
  List.length (chunk l j) = Nat.min 100 (List.length l - 100 * j).
Proof. unfold chunk. now rewrite length_firstn, length_skipn. Qed.

Lemma slice_chunk (l : list A) (j : nat) :
  slice l (BATCH_SIZE * Z.of_nat j) (BATCH_SIZE * Z.of_nat j + BATCH_SIZE)
  = chunk l j.
Proof.
  unfold slice, chunk, BATCH_SIZE. f_equal; [|f_equal]; lia.
Qed.

End Batching.

Lemma batch_count_bounds (n : nat) :
  (n <= 100 * batch_count n < n + 100)%nat.
Proof.
  unfold batch_count, BATCH_SIZE.
  pose proof (Z.div_mod (Z.of_nat n + 100 - 1) 100 ltac:(lia)) as Hd.
  pose proof (Z.mod_pos_bound (Z.of_nat n + 100 - 1) 100 ltac:(lia)) as Hm.
  lia.
Qed.

Lemma batches_chunks (docs : list pyval) :
  batches docs = map (chunk docs) (seq 0 (batch_count (List.length docs))).
Proof.
  unfold batches, range0. rewrite map_map. apply map_ext.
  intros j. apply slice_chunk.
Qed.

(** The batches, one after the other, are the input list. *)
Lemma concat_batches (docs : list pyval) : List.concat (batches docs) = docs.
Proof.
  rewrite batches_chunks, concat_chunks. apply firstn_all2.
  pose proof (batch_count_bounds (List.length docs)). lia.
Qed.

(** Every batch holds between 1 and 100 documents, and 100 unless it is
    the last. *)
Lemma length_batches (docs : list pyval) (i : nat) (b : list pyval) :
  nth_error (batches docs) i = Some b ->
  (1 <= List.length b <= 100)%nat /\
  (S i < List.length (batches docs) -> List.length b = 100)%nat.
Proof.
  rewrite batches_chunks, length_map, length_seq, nth_error_map, nth_error_seq.
  pose proof (batch_count_bounds (List.length docs)) as Hc.
  destruct (Nat.ltb_spec i (batch_count (List.length docs))) as [Hi|Hi];
    [|discriminate].
  cbn [option_map Nat.add]. intros E. inversion E; subst b.
  rewrite length_chunk. lia.
Qed.

Lemma batches_250 (docs : list pyval) :
  List.length docs = 250%nat ->
  map (@List.length pyval) (batches docs) = [100; 100; 50]%nat.
Proof.
  intros H. rewrite batches_chunks, H.
  change (batch_count 250) with 3%nat. cbn [seq map].
  rewrite !length_chunk, H. reflexivity.
Qed.

(** ** insert_reviews and insert_locations *)

Section InsertLoop.

Variable Store : Type.
Variable driver :
  collection_name -> list pyval -> Store -> outcome (list Z) * Store.

(** When every batch write succeeds or reports a partial failure, the loop
    sends every batch, in order, and adds up what each one persisted and
    the write errors each one reported. *)
Lemma insert_loop_counts (c : collection_name) (docs : list pyval)
    (starts : list Z) (ins errs : Z) (w : world Store) :
  write_level driver ->
  let bs := map (fun i => slice docs i (i + BATCH_SIZE)) starts in
  let rs := replies driver c bs (store w) in
  exists st',
    insert_loop Store driver c docs starts ins errs w
    = (Return (ins + sumZ (map persisted rs),
               errs + sumZ (map write_errors rs)),
       {| store := st';
          calls := calls w ++ map (fun b => InsertMany c b false) bs |}).
Proof.
  intros driver_write_level.
  revert ins errs w. induction starts as [|i starts IH]; intros ins errs w.
  - exists (store w). cbn. rewrite app_nil_r, !Z.add_0_r. now destruct w.
  - cbn [insert_loop map replies].
    unfold bind at 1, try_except_BulkWriteError, bind at 1, insert_many.
    pose proof (driver_write_level c (slice docs i (i + BATCH_SIZE)) (store w))
      as Hwl.
    destruct (driver c (slice docs i (i + BATCH_SIZE)) (store w))
      as [r st] eqn:E.
    cbn [fst snd] in *.
    destruct r as [ids|e].
    + cbn [ret fst snd].
      destruct (IH (ins + Z.of_nat (List.length ids)) errs
                   {| store := st;
                      calls := calls w ++
                        [InsertMany c (slice docs i (i + BATCH_SIZE)) false] |})
        as [st' IH'].
      cbn [store calls] in IH'.
      exists st'. rewrite IH'. cbn [map persisted write_errors].
      unfold sumZ. cbn [fold_right].
      rewrite <- app_assoc. cbn [app]. f_equal. f_equal. f_equal; lia.
    + destruct e; try contradiction.
      cbn [ret fst snd].
      destruct (IH (ins + nInserted)
                   (errs + Z.of_nat (List.length writeErrors))
                   {| store := st;
                      calls := calls w ++
                        [InsertMany c (slice docs i (i + BATCH_SIZE)) false] |})
        as [st' IH'].
      cbn [store calls] in IH'.
      exists st'. rewrite IH'. cbn [map persisted write_errors].
      unfold sumZ. cbn [fold_right].
      rewrite <- app_assoc. cbn [app]. f_equal. f_equal. f_equal; lia.
Qed.

(** C5.  When every batch write succeeds or reports a partial failure,
    [insert_reviews] sends the batches [reviews[i:i+100]] in order, one
    [insert_many] each; the batches put end to end are the input, each
    holds 100 documents except the last, which holds between 1 and 100;
    the counters returned are the length of the input, the sum of what the
    batches persisted and the sum of the write errors they reported, a
    partial failure not stopping the loop; 250 documents give batches of
    100, 100 and 50. *)
Theorem insert_reviews_batches (reviews : list pyval) (w : world Store) :
  write_level driver ->
  let bs := batches reviews in
  let rs := replies driver REVIEWS_COLLECTION bs (store w) in
  List.concat bs = reviews /\
  (forall i b,
     nth_error bs i = Some b ->
     (1 <= List.length b <= 100)%nat /\
     (S i < List.length bs -> List.length b = 100)%nat) /\
  (exists st',
     insert_reviews Store driver reviews w
     = (Return {| total := Z.of_nat (List.length reviews);
                  inserted := sumZ (map persisted rs);
                  errors_count := sumZ (map write_errors rs) |},
        {| store := st';
           calls := calls w ++
                    map (fun b => InsertMany REVIEWS_COLLECTION b false) bs |}))
  /\
  (List.length reviews = 250%nat ->
   map (@List.length pyval) bs = [100; 100; 50]%nat).
Proof.
  intros Hwl bs rs. split; [apply concat_batches|].
  split; [intros i b; apply length_batches|].
  split; [|apply batches_250].
  destruct (insert_loop_counts REVIEWS_COLLECTION reviews
              (range0 (Z.of_nat (List.length reviews)) BATCH_SIZE) 0 0 w Hwl)
    as [st' H].
  exists st'. unfold insert_reviews, bind. rewrite H. reflexivity.
Qed.

(** C10.  [insert_reviews] and [insert_locations] return, when every batch
    write succeeds or reports a partial failure, and whenever they return,
    [total] is the length of the input list; on the empty list they send
    nothing to the database, whatever the database would answer, and return
    three zeros. *)
Theorem insert_total (docs : list pyval) (w : world Store) :
  (write_level driver ->
   (exists r w',
      insert_reviews Store driver docs w = (Return r, w') /\
      total r = Z.of_nat (List.length docs)) /\
   (exists r w',
      insert_locations Store driver docs w = (Return r, w') /\
      total r = Z.of_nat (List.length docs))) /\
  (forall r w',
     insert_reviews Store driver docs w = (Return r, w') ->
     total r = Z.of_nat (List.length docs)) /\
  (forall r w',
     insert_locations Store driver docs w = (Return r, w') ->
     total r = Z.of_nat (List.length docs)) /\
  insert_reviews Store driver [] w
  = (Return {| total := 0; inserted := 0; errors_count := 0 |}, w) /\
  insert_locations Store driver [] w
  = (Return {| total := 0; inserted := 0; errors_count := 0 |}, w).
Proof.
  split; [intros Hwl; split|split; [|split; [|split]]].
  - destruct (insert_loop_counts REVIEWS_COLLECTION docs
                (range0 (Z.of_nat (List.length docs)) BATCH_SIZE) 0 0 w Hwl)
      as [st' H].
    eexists _, _. unfold insert_reviews, bind. rewrite H.
    split; reflexivity.
  - destruct (insert_loop_counts LOCATIONS_COLLECTION docs
                (range0 (Z.of_nat (List.length docs)) BATCH_SIZE) 0 0 w Hwl)
      as [st' H].
    eexists _, _. unfold insert_locations, bind. rewrite H.
    split; reflexivity.
  - intros r w'. unfold insert_reviews, bind, ret.
    destruct (insert_loop _ _ _ _ _ _ _ w) as [[counters|e] w''];
      [|discriminate].
    intros H. inversion H. reflexivity.
  - intros r w'. unfold insert_locations, bind, ret.
    destruct (insert_loop _ _ _ _ _ _ _ w) as [[counters|e] w''];
      [|discriminate].
    intros H. inversion H. reflexivity.
  - reflexivity.
  - reflexivity.
Qed.

End InsertLoop.

Lemma driver_two_rejected_write_level :
  write_level Examples.driver_two_rejected.
Proof. intros c batch [|[|received]]; exact I. Qed.

Lemma insert_reviews_batches_witness :
  exists st',
    insert_reviews nat Examples.driver_two_rejected Examples.reviews_250
      {| store := 0%nat; calls := [] |}
    = (Return {| total := 250; inserted := 248; errors_count := 2 |},
       {| store := st';
          calls := map (fun b => InsertMany REVIEWS_COLLECTION b false)
                       (batches Examples.reviews_250) |}).
Proof.
  exact (proj1 (proj2 (proj2
           (insert_reviews_batches nat Examples.driver_two_rejected
              Examples.reviews_250 {| store := 0%nat; calls := [] |}
              driver_two_rejected_write_level)))).
Defined.

Lemma driver_accepts_write_level : write_level Examples.driver_accepts.
Proof. intros c batch st. exact I. Qed.

Lemma insert_total_witness :
  exists r w',
    insert_reviews unit Examples.driver_accepts
      [Examples.review_doc 0; Examples.review_doc 1]
      {| store := tt; calls := [] |}
    = (Return r, w') /\
    total r = 2.
Proof.
  exact (proj1 (proj1
           (insert_total unit Examples.driver_accepts
              [Examples.review_doc 0; Examples.review_doc 1]
              {| store := tt; calls := [] |})
           driver_accepts_write_level)).
Defined.

(** ** create_indexes *)




(** ** The loaders keep the input order *)

Lemma set_cells (d : dict) (k : pystr) (v : pyval) :
  Forall (fun kv => csv_cell (snd kv)) d -> csv_cell v ->
  Forall (fun kv => csv_cell (snd kv)) (Dict.set d k v).
Proof.
  intros Hd Hv. induction Hd as [|[k0 v0] d H0 Hd IH]; simpl.
  - constructor; [exact Hv|constructor].
  - destruct (PyStr.eqb k k0); constructor; auto.
Qed.

Lemma get_cell (d : dict) (k : pystr) (v : pyval) :
  Forall (fun kv => csv_cell (snd kv)) d -> Dict.get d k = Some v -> csv_cell v.
Proof.
  intros Hd. induction Hd as [|[k0 v0] d H0 Hd IH]; simpl; [discriminate|].
  destruct (PyStr.eqb k k0); [|exact IH].
  intros E. inversion E; subst. exact H0.
Qed.

Lemma zip_dict_cells (fieldnames record : list pystr) (d : dict) :
  Forall (fun kv => csv_cell (snd kv)) d ->
  Forall (fun kv => csv_cell (snd kv)) (zip_dict fieldnames record d).
Proof.
  revert record d. induction fieldnames as [|k fieldnames IH];
    intros record d Hd; [exact Hd|].
  destruct record as [|x record]; [exact Hd|].
  simpl. apply IH. apply set_cells; [exact Hd|]. right. now exists x.
Qed.

Lemma DictReader_row_is_csv_row (fieldnames record : list pystr) :
  csv_row (DictReader_row fieldnames record).
Proof.
  unfold DictReader_row. eexists. split; [reflexivity|].
  generalize (zip_dict_cells fieldnames record [] (Forall_nil _)).
  generalize (zip_dict fieldnames record []).
  induction (skipn (List.length record) fieldnames) as [|k ks IH];
    intros d Hd; [exact Hd|].
  simpl. apply IH. apply set_cells; [exact Hd|]. now left.
Qed.

Lemma DictReader_rows_are_csv_rows (t : csv_text) :
  Forall csv_row (DictReader_rows t).
Proof.
  unfold DictReader_rows. destruct (csv_fieldnames t); [|constructor].
  apply Forall_map. apply Forall_forall. intros r _.
  apply DictReader_row_is_csv_row.
Qed.

(** On a row of [csv.DictReader], [validate_review] returns or raises a
    [ValueError]. *)
Lemma validate_review_csv_row (utcnow : nat -> Z) (row : pyval) (k : nat) :
  csv_row row ->
  (exists d k', validate_review utcnow row k = (Return d, k')) \/
  (exists e k', validate_review utcnow row k = (Raise e, k') /\
                is_ValueError e = true).
Proof.
  intros (d & -> & Hd).
  unfold validate_review, review_required_fields.
  cbn [for_each]. step_goal. unfold Dict.mem.
  destruct (Dict.get d (PyStr.lit "Destination")) as [v1|] eqn:G1;
    [|right; eexists _, _; split; reflexivity].
  destruct (get_cell _ _ _ Hd G1) as [->|[s1 ->]];
    [right; eexists _, _; split; reflexivity|].
  destruct s1 as [|c1 s1]; [right; eexists _, _; split; reflexivity|].
  cbn [truthy]. step_goal.
  destruct (Dict.get d (PyStr.lit "District")) as [v2|] eqn:G2;
    [|right; eexists _, _; split; reflexivity].
  destruct (get_cell _ _ _ Hd G2) as [->|[s2 ->]];
    [right; eexists _, _; split; reflexivity|].
  destruct s2 as [|c2 s2]; [right; eexists _, _; split; reflexivity|].
  cbn [truthy]. step_goal.
  destruct (Dict.get d (PyStr.lit "Location_Type")) as [v3|] eqn:G3;
    [|right; eexists _, _; split; reflexivity].
  destruct (get_cell _ _ _ Hd G3) as [->|[s3 ->]];
    [right; eexists _, _; split; reflexivity|].
  destruct s3 as [|c3 s3]; [right; eexists _, _; split; reflexivity|].
  cbn [truthy]. step_goal.
  destruct (Dict.get d (PyStr.lit "Review")) as [v4|] eqn:G4;
    [|right; eexists _, _; split; reflexivity].
  destruct (get_cell _ _ _ Hd G4) as [->|[s4 ->]];
    [right; eexists _, _; split; reflexivity|].
  destruct s4 as [|c4 s4]; [right; eexists _, _; split; reflexivity|].
  cbn [truthy]. step_goal.
  destruct (PyStr.len (PyStr.strip (c4 :: s4)) <? 10).
  - right. eexists _, _. split; reflexivity.
  - left. eexists _, _. reflexivity.
Qed.

Lemma review_rows_loop_from (utcnow : nat -> Z) (rows : list pyval)
    (start : Z) (s : locals) :
  Forall csv_row rows ->
  exists ds k' errs,
    for_each (enumerate start rows) (fun ir =>
      try_except_ValueError
        (bind (with_clock (validate_review utcnow (snd ir)))
              (fun validated_review => append_result validated_review))
        (fun e => append_error (RowError (fst ir) e))) s
    = (Return tt,
       {| tick := k'; results := results s ++ ds; errors := errs |}) /\
    kept (validate_review utcnow) (tick s) rows ds k'.
Proof.
  intros Hrows. revert start s.
  induction Hrows as [|row rows Hrow Hrows IH]; intros start s.
  - exists [], (tick s), (errors s). split; [|constructor].
    cbn. rewrite app_nil_r. now destruct s.
  - cbn [enumerate for_each].
    set (rest := for_each (enumerate (start + 1) rows) _) in *.
    unfold try_except_ValueError, bind, with_clock, zoom, append_result,
      append_error, modify. cbn [fst snd].
    destruct (validate_review_csv_row utcnow row (tick s) Hrow)
      as [(d & k1 & E)|(e & k1 & E & He)]; rewrite E.
    + cbn [tick results errors].
      destruct (IH (start + 1)
                  {| tick := k1; results := results s ++ [d];
                     errors := errors s |}) as (ds & k' & errs & Hrun & Hk).
      exists (d :: ds), k', errs. subst rest. rewrite Hrun.
      cbn [tick results errors] in *.
      rewrite <- app_assoc. split; [reflexivity|].
      econstructor; eassumption.
    + rewrite He. cbn [tick results errors].
      destruct (IH (start + 1)
                  {| tick := k1; results := results s;
                     errors := errors s ++ [RowError start e] |})
        as (ds & k' & errs & Hrun & Hk).
      exists ds, k', errs. subst rest. rewrite Hrun.
      cbn [tick results errors] in *.
      split; [reflexivity|].
      eapply kept_rejected; eassumption.
Qed.

Lemma review_rows_loop_kept (utcnow : nat -> Z) (rows : list pyval)
    (s : locals) :
  Forall csv_row rows ->
  exists ds k' errs,
    review_rows_loop utcnow rows s
    = (Return tt,
       {| tick := k'; results := results s ++ ds; errors := errs |}) /\
    kept (validate_review utcnow) (tick s) rows ds k'.
Proof. apply review_rows_loop_from. Qed.

Lemma load_csv_reviews_utf8_in_order (utcnow : nat -> Z) (f : csv_file)
    (t : csv_text) (actual : list pystr) (k : nat) :
  csv_exists f = true ->
  csv_utf8 f = Utf8Reading t false ->
  csv_fieldnames t = Some actual ->
  issubset expected_headers actual = true ->
  exists ds s',
    load_csv_reviews utcnow f k = (Return ds, s') /\
    results s' = ds /\
    kept (validate_review utcnow) k (DictReader_rows t) ds (tick s').
Proof.
  intros Hex Hu Hf Hsub.
  unfold load_csv_reviews, load_csv_reviews_body, utf8_rows, latin1_rows.
  rewrite Hex, Hu, Hf, Hsub. cbn [negb].
  destruct (review_rows_loop_kept utcnow (DictReader_rows t) (fresh k)
              (DictReader_rows_are_csv_rows t))
    as (ds & k' & errs & Hrun & Hk).
  unfold try_except_UnicodeDecodeError, bind at 1 2 3.
  rewrite Hrun. cbn. eexists _, _. repeat split. exact Hk.
Qed.


Lemma location_loop_kept (utcnow : nat -> Z) (elements : list pyval)
    (start : Z) (s s' : locals) :
  for_each (enumerate start elements) (fun il =>
    try_except_ValueError
      (bind (with_clock (validate_location utcnow (snd il)))
            (fun validated_location => append_result validated_location))
      (fun e =>
         bind (Py.get (snd il) (PyStr.lit "name") (PStr (PyStr.lit "Unknown")))
              (fun name => append_error (LocationError (fst il) name e)))) s
  = (Return tt, s') ->
  exists ds,
    results s' = results s ++ ds /\
    kept (validate_location utcnow) (tick s) elements ds (tick s').
Proof.
  revert start s. induction elements as [|x elements IH]; intros start s.
  - cbn. intros H. inversion H; subst. exists []. split; [|constructor].
    now rewrite app_nil_r.
  - cbn [enumerate for_each].
    set (rest := for_each (enumerate (start + 1) elements) _) in *.
    unfold try_except_ValueError, bind, with_clock, zoom, append_result,
      append_error, modify. cbn [fst snd].
    destruct (validate_location utcnow x (tick s)) as [[d|e] k1] eqn:E.
    + intros H. subst rest. apply IH in H. cbn [tick results errors] in H.
      destruct H as (ds & Hres & Hk). exists (d :: ds).
      rewrite Hres, <- app_assoc. split; [reflexivity|].
      econstructor; eassumption.
    + destruct (is_ValueError e) eqn:He; [|discriminate].
      destruct x; cbn [Py.get raise ret]; try discriminate.
      intros H. subst rest. apply IH in H. cbn [tick results errors] in H.
      destruct H as (ds & Hres & Hk). exists ds. split; [exact Hres|].
      eapply kept_rejected; eassumption.
Qed.

Lemma load_json_locations_in_order (utcnow : nat -> Z) (f : json_file)
    (k : nat) (ds : list pyval) (s' : locals) :
  load_json_locations utcnow f k = (Return ds, s') ->
  exists elements,
    json_content f = JsonValue (PList elements) /\
    results s' = ds /\
    kept (validate_location utcnow) k elements ds (tick s').
Proof.
  unfold load_json_locations, load_json_locations_body.
  destruct (json_exists f); cbn [negb]; [|discriminate].
  destruct (json_content f) as [| |detail| | |data]; try discriminate.
  unfold try_except_JSONDecodeError, bind at 1. cbn [ret].
  destruct data; try discriminate.
  unfold bind at 1.
  match goal with
  | |- context [for_each ?xs ?body ?s] =>
      destruct (for_each xs body s) as [[[]|e] s1] eqn:Hrun
  end; [|discriminate].
  apply location_loop_kept in Hrun. destruct Hrun as (ds' & Hres & Hk).
  cbn. intros H. inversion H; subst. exists l.
  split; [reflexivity|]. split; [reflexivity|].
  cbn in Hres. subst. exact Hk.
Qed.

(* ================================================================== *)
(** * Further properties *)
(* ================================================================== *)

(** ** validate_review, case by case *)

Lemma validate_review_accepts (utcnow : nat -> Z) (d : dict)
    (s1 s2 s3 s4 : pystr) (k : nat) :
  Dict.get d (PyStr.lit "Destination") = Some (PStr s1) -> s1 <> [] ->
  Dict.get d (PyStr.lit "District") = Some (PStr s2) -> s2 <> [] ->
  Dict.get d (PyStr.lit "Location_Type") = Some (PStr s3) -> s3 <> [] ->
  Dict.get d (PyStr.lit "Review") = Some (PStr s4) -> s4 <> [] ->
  validate_review utcnow (PDict d) k
  = if PyStr.len (PyStr.strip s4) <? 10
    then (Raise (ValueError ReviewTextTooShort), S (S k))
    else (Return (review_doc_of utcnow k s1 s2 s3 s4), S (S k)).
Proof.
  intros G1 N1 G2 N2 G3 N3 G4 N4.
  destruct s1 as [|c1 s1]; [contradiction|].
  destruct s2 as [|c2 s2]; [contradiction|].
  destruct s3 as [|c3 s3]; [contradiction|].
  destruct s4 as [|c4 s4]; [contradiction|].
  unfold validate_review, review_required_fields.
  cbn [for_each]. step_goal. unfold Dict.mem.
  rewrite G1, G2, G3, G4. cbn [truthy]. step_goal.
  destruct (PyStr.len (PyStr.strip (c4 :: s4)) <? 10); reflexivity.
Qed.

(** X1.  [validate_review] returns a document exactly on the rows that are
    dictionaries holding a non-empty string under each of [Destination],
    [District], [Location_Type] and [Review], with a review of ten
    characters or more once stripped; the document holds the four cells
    stripped, the two clock readings and the import source, and the clock
    has been read twice. *)
Theorem validate_review_accepts_iff (utcnow : nat -> Z) (row doc : pyval)
    (k k' : nat) :
  validate_review utcnow row k = (Return doc, k') <->
  exists d s1 s2 s3 s4,
    row = PDict d /\
    Dict.get d (PyStr.lit "Destination") = Some (PStr s1) /\ s1 <> [] /\
    Dict.get d (PyStr.lit "District") = Some (PStr s2) /\ s2 <> [] /\
    Dict.get d (PyStr.lit "Location_Type") = Some (PStr s3) /\ s3 <> [] /\
    Dict.get d (PyStr.lit "Review") = Some (PStr s4) /\ s4 <> [] /\
    10 <= PyStr.len (PyStr.strip s4) /\
    k' = S (S k) /\
    doc = review_doc_of utcnow k s1 s2 s3 s4.
Proof.
  split.
  - intros H. apply validate_review_inv in H.
    destruct H as (d & s1 & s2 & s3 & s4 & H). exists d, s1, s2, s3, s4.
    exact H.
  - intros (d & s1 & s2 & s3 & s4 & -> & G1 & N1 & G2 & N2 & G3 & N3 & G4
            & N4 & Hlen & -> & ->).
    rewrite (validate_review_accepts utcnow d s1 s2 s3 s4 k) by assumption.
    apply Z.ltb_ge in Hlen. now rewrite Hlen.
Qed.

(** X2.  When a required field of a row is absent or false (an empty cell,
    [None]), [validate_review] raises the missing-field [ValueError] that
    names the first such field in the order [Destination], [District],
    [Location_Type], [Review], and the clock is not read. *)
Theorem validate_review_first_missing (utcnow : nat -> Z) (d : dict)
    (f : pystr) (k : nat) :
  find (fun f => negb (field_filled d f)) review_required_fields = Some f ->
  validate_review utcnow (PDict d) k
  = (Raise (ValueError (MissingRequiredField f)), k).
Proof.
  unfold review_required_fields, field_filled. cbn [find].
  unfold validate_review, review_required_fields.
  cbn [for_each]. step_goal. unfold Dict.mem.
  destruct (Dict.get d (PyStr.lit "Destination")) as [v1|];
    [destruct (truthy v1)|]; cbn [negb];
    try (intros H; inversion H; reflexivity).
  destruct (Dict.get d (PyStr.lit "District")) as [v2|];
    [destruct (truthy v2)|]; cbn [negb];
    try (intros H; inversion H; reflexivity).
  destruct (Dict.get d (PyStr.lit "Location_Type")) as [v3|];
    [destruct (truthy v3)|]; cbn [negb];
    try (intros H; inversion H; reflexivity).
  destruct (Dict.get d (PyStr.lit "Review")) as [v4|];
    [destruct (truthy v4)|]; cbn [negb];
    try (intros H; inversion H; reflexivity).
Qed.

Lemma validate_review_first_missing_witness :
  validate_review (fun _ => 0) (PDict MoreExamples.row_two_gaps) 0%nat
  = (Raise (ValueError (MissingRequiredField (PyStr.lit "District"))), 0%nat).
Proof.
  apply (validate_review_first_missing (fun _ => 0)
           MoreExamples.row_two_gaps (PyStr.lit "District") 0%nat).
  reflexivity.
Defined.

(** X3.  A row with four non-empty string cells whose review keeps fewer
    than ten characters once stripped is rejected as too short; the two
    clock readings of the document have been taken by then. *)
Theorem validate_review_too_short (utcnow : nat -> Z) (d : dict)
    (s1 s2 s3 s4 : pystr) (k : nat) :
  Dict.get d (PyStr.lit "Destination") = Some (PStr s1) -> s1 <> [] ->
  Dict.get d (PyStr.lit "District") = Some (PStr s2) -> s2 <> [] ->
  Dict.get d (PyStr.lit "Location_Type") = Some (PStr s3) -> s3 <> [] ->
  Dict.get d (PyStr.lit "Review") = Some (PStr s4) -> s4 <> [] ->
  PyStr.len (PyStr.strip s4) < 10 ->
  validate_review utcnow (PDict d) k
  = (Raise (ValueError ReviewTextTooShort), S (S k)).
Proof.
  intros G1 N1 G2 N2 G3 N3 G4 N4 Hlen.
  rewrite (validate_review_accepts utcnow d s1 s2 s3 s4 k) by assumption.
  apply Z.ltb_lt in Hlen. now rewrite Hlen.
Qed.

Lemma validate_review_too_short_witness :
  validate_review (fun _ => 0) (PDict MoreExamples.row_short_review) 0%nat
  = (Raise (ValueError ReviewTextTooShort), 2%nat).
Proof.
  apply (validate_review_too_short (fun _ => 0)
           MoreExamples.row_short_review
           (PyStr.lit "Sigiriya") (PyStr.lit "Matale")
           (PyStr.lit "Historical") (PyStr.lit "   Very nice   ") 0%nat);
    try reflexivity; try discriminate.
Defined.

(** X4.  Only the four required columns count: two rows that hold the
    same values under them get the same outcome, document included, from
    [validate_review], whatever other columns they have. *)
Theorem validate_review_ignores_other_columns (utcnow : nat -> Z)
    (d d' : dict) (k : nat) :
  (forall f, In f review_required_fields -> Dict.get d f = Dict.get d' f) ->
  validate_review utcnow (PDict d) k = validate_review utcnow (PDict d') k.
Proof.
  intros H.
  assert (G1 := H (PyStr.lit "Destination") ltac:(cbn; tauto)).
  assert (G2 := H (PyStr.lit "District") ltac:(cbn; tauto)).
  assert (G3 := H (PyStr.lit "Location_Type") ltac:(cbn; tauto)).
  assert (G4 := H (PyStr.lit "Review") ltac:(cbn; tauto)).
  unfold validate_review, review_required_fields.
  cbn [for_each]. step_goal. unfold Dict.mem.
  rewrite G1, G2, G3, G4. reflexivity.
Qed.

Lemma validate_review_ignores_other_columns_witness :
  validate_review (fun _ => 0) (PDict MoreExamples.row_with_rating) 0%nat
  = validate_review (fun _ => 0) (PDict MoreExamples.row_plain) 0%nat.
Proof.
  apply (validate_review_ignores_other_columns (fun _ => 0)
           MoreExamples.row_with_rating MoreExamples.row_plain 0%nat).
  intros f [<-|[<-|[<-|[<-|[]]]]]; reflexivity.
Defined.

(** ** validate_location, case by case *)

Lemma get_set_same (d : dict) (k : pystr) (v : pyval) :
  Dict.get (Dict.set d k v) k = Some v.
Proof.
  induction d as [|[k0 v0] d IH]; simpl.
  - now rewrite eqb_refl.
  - destruct (PyStr.eqb k k0) eqn:E; simpl; rewrite E; [reflexivity|exact IH].
Qed.

Lemma mem_get (d : dict) (k : pystr) :
  Dict.mem d k = true -> exists v, Dict.get d k = Some v.
Proof.
  unfold Dict.mem. destruct (Dict.get d k) as [v|]; [|discriminate].
  intros _. now exists v.
Qed.

(** What [validate_location] returns when it returns. *)
Lemma validate_location_result (utcnow : nat -> Z) (location : pyval)
    (k : nat) (doc : pyval) (k' : nat) :
  validate_location utcnow location k = (Return doc, k') ->
  exists d,
    location = PDict d /\ k' = S (S k) /\
    doc = PDict (Dict.set d (PyStr.lit "metadata")
                          (location_metadata utcnow k)).
Proof.
  unfold validate_location, location_required_fields.
  cbn [for_each]. intros H.
  destruct location; crunch_in H.
  all: inversion H; subst; eexists; repeat split; eauto.
Qed.

(** The range tests of a location that has its three fields and a point
    of two numbers. *)
Lemma validate_location_point_eval (utcnow : nat -> Z) (d c : dict)
    (lon lat : pyval) (k : nat) :
  Dict.mem d (PyStr.lit "locationId") = true ->
  Dict.mem d (PyStr.lit "name") = true ->
  Dict.get d (PyStr.lit "coordinates") = Some (PDict c) ->
  Dict.get c (PyStr.lit "type") = Some (PStr (PyStr.lit "Point")) ->
  Dict.get c (PyStr.lit "coordinates") = Some (PList [lon; lat]) ->
  is_number lon = true -> is_number lat = true ->
  exists b1 b2,
    (b1 = true <-> in_interval (-180) 180 lon) /\
    (b2 = true <-> in_interval (-90) 90 lat) /\
    validate_location utcnow (PDict d) k
    = if b1 then
        if b2 then
          (Return (PDict (Dict.set d (PyStr.lit "metadata")
                            (location_metadata utcnow k))), S (S k))
        else (Raise (ValueError (InvalidLatitude lat)), k)
      else (Raise (ValueError (InvalidLongitude lon)), k).
Proof.
  intros M1 M2 Hc Ht Ha Hlon Hlat.
  destruct (between_number (-180) 180 lon k Hlon) as (b1 & B1 & I1).
  destruct (between_number (-90) 90 lat k Hlat) as (b2 & B2 & I2).
  exists b1, b2. split; [exact I1|]. split; [exact I2|].
  unfold validate_location, location_required_fields.
  cbn [for_each]. step_goal. rewrite M1, M2. unfold Dict.mem.
  rewrite Hc. step_goal. rewrite Ht. step_goal.
  cbn [eq_str]. rewrite eqb_refl. rewrite Ha. step_goal.
  cbn [List.length Z.of_nat Pos.of_succ_nat Pos.succ Z.eqb Pos.eqb].
  rewrite B1. destruct b1; [|reflexivity].
  rewrite B2. destruct b2; reflexivity.
Qed.

(** X5.  A location that has [locationId], [name] and a point of two
    numbers is accepted exactly when the longitude is in [[-180, 180]] and
    the latitude in [[-90, 90]], NaN and the infinities being outside. *)
Theorem validate_location_accepts_in_range (utcnow : nat -> Z)
    (location lon lat : pyval) (k : nat) :
  has_point location lon lat ->
  has_field location "locationId" ->
  has_field location "name" ->
  (exists doc, accepts (validate_location utcnow location) k doc) <->
  in_interval (-180) 180 lon /\ in_interval (-90) 90 lat.
Proof.
  intros (d & c & -> & Hc & Ht & Ha & Hlon & Hlat)
         (d1 & v1 & E1 & G1) (d2 & v2 & E2 & G2).
  inversion E1; subst d1. inversion E2; subst d2. clear E1 E2.
  destruct (validate_location_point_eval utcnow d c lon lat k)
    as (b1 & b2 & I1 & I2 & E); try assumption.
  { unfold Dict.mem. now rewrite G1. }
  { unfold Dict.mem. now rewrite G2. }
  split.
  - intros (doc & k' & H). rewrite E in H.
    destruct b1; [|discriminate]. destruct b2; [|discriminate].
    split; [apply I1|apply I2]; reflexivity.
  - intros [H1 H2]. apply I1 in H1. apply I2 in H2. subst b1 b2.
    eexists. eexists. exact E.
Qed.

Lemma validate_location_accepts_in_range_witness :
  (exists doc,
     accepts (validate_location (fun _ => 0) Examples.location_sigiriya)
             0%nat doc) <->
  in_interval (-180) 180 (PInt 80) /\ in_interval (-90) 90 (PInt 7).
Proof.
  apply (validate_location_accepts_in_range (fun _ => 0)
           Examples.location_sigiriya (PInt 80) (PInt 7) 0%nat).
  - eexists _, _. repeat split; reflexivity.
  - eexists _, _. split; reflexivity.
  - eexists _, _. split; reflexivity.
Defined.

(** X6.  The document [validate_location] returns is its argument with
    the field [metadata] set to the import source and two clock readings:
    a [metadata] field of the input is overwritten, and every other field
    keeps its value. *)
Theorem validate_location_sets_metadata (utcnow : nat -> Z)
    (location doc : pyval) (k : nat) :
  accepts (validate_location utcnow location) k doc ->
  exists d d',
    location = PDict d /\ doc = PDict d' /\
    Dict.get d' (PyStr.lit "metadata") = Some (location_metadata utcnow k) /\
    forall f, f <> PyStr.lit "metadata" -> Dict.get d' f = Dict.get d f.
Proof.
  intros [k' H]. apply validate_location_result in H.
  destruct H as (d & -> & _ & ->).
  eexists _, _. split; [reflexivity|]. split; [reflexivity|].
  split; [apply get_set_same|]. intros f Hf. now apply get_set_other.
Qed.

Lemma validate_location_sets_metadata_witness :
  exists d d',
    PDict MoreExamples.location_with_metadata = PDict d /\
    PDict (Dict.set MoreExamples.location_with_metadata
             (PyStr.lit "metadata") (location_metadata (fun _ => 0) 0))
    = PDict d' /\
    Dict.get d' (PyStr.lit "metadata")
    = Some (location_metadata (fun _ => 0) 0) /\
    forall f, f <> PyStr.lit "metadata" -> Dict.get d' f = Dict.get d f.
Proof.
  apply (validate_location_sets_metadata (fun _ => 0)
           (PDict MoreExamples.location_with_metadata)
           (PDict (Dict.set MoreExamples.location_with_metadata
                     (PyStr.lit "metadata")
                     (location_metadata (fun _ => 0) 0)))
           0%nat).
  exists 2%nat. reflexivity.
Defined.

(** X7.  A location with its three fields whose [coordinates] is an
    object with a [type] other than the string ["Point"], or without
    [type], is rejected for its coordinate type, whatever the array
    holds. *)
Theorem validate_location_not_a_point (utcnow : nat -> Z) (d c : dict)
    (k : nat) :
  Dict.mem d (PyStr.lit "locationId") = true ->
  Dict.mem d (PyStr.lit "name") = true ->
  Dict.get d (PyStr.lit "coordinates") = Some (PDict c) ->
  Dict.get c (PyStr.lit "type") <> Some (PStr (PyStr.lit "Point")) ->
  validate_location utcnow (PDict d) k
  = (Raise (ValueError InvalidCoordinateType), k).
Proof.
  intros M1 M2 Hc Ht.
  unfold validate_location, location_required_fields.
  cbn [for_each]. step_goal. rewrite M1, M2. unfold Dict.mem.
  rewrite Hc. step_goal.
  assert (E : eq_str match Dict.get c (PyStr.lit "type") with
                     | Some x => x
                     | None => PNone
                     end (PyStr.lit "Point") = false).
  { destruct (Dict.get c (PyStr.lit "type")) as [v|]; [|reflexivity].
    destruct v; try reflexivity. cbn [eq_str].
    apply eqb_neq. intros ->. now apply Ht. }
  rewrite E. reflexivity.
Qed.

Lemma validate_location_not_a_point_witness :
  validate_location (fun _ => 0) (PDict MoreExamples.location_line) 0%nat
  = (Raise (ValueError InvalidCoordinateType), 0%nat).
Proof.
  apply (validate_location_not_a_point (fun _ => 0)
           MoreExamples.location_line
           [(PyStr.lit "type", PStr (PyStr.lit "LineString"));
            (PyStr.lit "coordinates", PList [PInt 81; PInt 6])] 0%nat);
    try reflexivity.
  vm_compute. discriminate.
Defined.

(** X8.  A location with its three fields and a point whose coordinate
    array is a list of a length other than two, or is absent, is rejected
    for the format of its coordinates. *)
Theorem validate_location_wrong_arity (utcnow : nat -> Z) (d c : dict)
    (l : list pyval) (k : nat) :
  Dict.mem d (PyStr.lit "locationId") = true ->
  Dict.mem d (PyStr.lit "name") = true ->
  Dict.get d (PyStr.lit "coordinates") = Some (PDict c) ->
  Dict.get c (PyStr.lit "type") = Some (PStr (PyStr.lit "Point")) ->
  Dict.get c (PyStr.lit "coordinates") = Some (PList l) \/
  (Dict.get c (PyStr.lit "coordinates") = None /\ l = []) ->
  List.length l <> 2%nat ->
  validate_location utcnow (PDict d) k
  = (Raise (ValueError InvalidCoordinatesFormat), k).
Proof.
  intros M1 M2 Hc Ht Ha Hl.
  unfold validate_location, location_required_fields.
  cbn [for_each]. step_goal. rewrite M1, M2. unfold Dict.mem.
  rewrite Hc. step_goal. rewrite Ht. step_goal.
  cbn [eq_str]. rewrite eqb_refl.
  assert (E : match Dict.get c (PyStr.lit "coordinates") with
              | Some x => x
              | None => PList []
              end = PList l).
  { destruct Ha as [->|[-> ->]]; reflexivity. }
  rewrite E. step_goal.
  destruct (Z.of_nat (List.length l) =? 2) eqn:E2; [|reflexivity].
  apply Z.eqb_eq in E2. lia.
Qed.

Lemma validate_location_wrong_arity_witness :
  validate_location (fun _ => 0) (PDict MoreExamples.location_three) 0%nat
  = (Raise (ValueError InvalidCoordinatesFormat), 0%nat).
Proof.
  apply (validate_location_wrong_arity (fun _ => 0)
           MoreExamples.location_three
           [(PyStr.lit "type", PStr (PyStr.lit "Point"));
            (PyStr.lit "coordinates", PList [PInt 81; PInt 6; PInt 1041])]
           [PInt 81; PInt 6; PInt 1041] 0%nat);
    try reflexivity.
  - left. reflexivity.
  - discriminate.
Defined.

(** X9.  When a location object lacks one of [locationId], [name] and
    [coordinates], [validate_location] raises the missing-field
    [ValueError] that names the first one missing, in that order; a field
    that is present passes whatever its value ([null], the empty
    string). *)
Theorem validate_location_first_missing (utcnow : nat -> Z) (d : dict)
    (f : pystr) (k : nat) :
  find (fun f => negb (Dict.mem d f)) location_required_fields = Some f ->
  validate_location utcnow (PDict d) k
  = (Raise (ValueError (MissingRequiredField f)), k).
Proof.
  unfold location_required_fields. cbn [find].
  unfold validate_location, location_required_fields.
  cbn [for_each]. step_goal.
  destruct (Dict.mem d (PyStr.lit "locationId")); cbn [negb];
    try (intros H; inversion H; reflexivity).
  destruct (Dict.mem d (PyStr.lit "name")); cbn [negb];
    try (intros H; inversion H; reflexivity).
  destruct (Dict.mem d (PyStr.lit "coordinates")); cbn [negb];
    try (intros H; inversion H; reflexivity).
Qed.

Lemma validate_location_first_missing_witness :
  validate_location (fun _ => 0) Examples.location_without_id 0%nat
  = (Raise (ValueError (MissingRequiredField (PyStr.lit "locationId"))),
     0%nat).
Proof.
  apply (validate_location_first_missing (fun _ => 0)
           [(Examples.key "name", Examples.str "Sigiriya");
            (Examples.key "coordinates",
             Examples.point (PInt 200) (PInt 7))]
           (PyStr.lit "locationId") 0%nat).
  reflexivity.
Defined.

(** ** The loaders, row by row *)

Lemma review_rows_loop_logged (utcnow : nat -> Z) (rows : list pyval)
    (start : Z) (s : locals) :
  Forall csv_row rows ->
  exists ds es k',
    for_each (enumerate start rows) (fun ir =>
      try_except_ValueError
        (bind (with_clock (validate_review utcnow (snd ir)))
              (fun validated_review => append_result validated_review))
        (fun e => append_error (RowError (fst ir) e))) s
    = (Return tt,
       {| tick := k'; results := results s ++ ds;
          errors := errors s ++ es |}) /\
    logged (validate_review utcnow) start (tick s) rows ds es k'.
Proof.
  intros Hrows. revert start s.
  induction Hrows as [|row rows Hrow Hrows IH]; intros start s.
  - exists [], [], (tick s). split; [|constructor].
    cbn. rewrite !app_nil_r. now destruct s.
  - cbn [enumerate for_each].
    set (rest := for_each (enumerate (start + 1) rows) _) in *.
    unfold try_except_ValueError, bind, with_clock, zoom, append_result,
      append_error, modify. cbn [fst snd].
    destruct (validate_review_csv_row utcnow row (tick s) Hrow)
      as [(d & k1 & E)|(e & k1 & E & He)]; rewrite E.
    + cbn [tick results errors].
      destruct (IH (start + 1)
                  {| tick := k1; results := results s ++ [d];
                     errors := errors s |}) as (ds & es & k' & Hrun & Hk).
      exists (d :: ds), es, k'. subst rest. rewrite Hrun.
      cbn [tick results errors] in *.
      rewrite <- app_assoc. split; [reflexivity|].
      econstructor; eassumption.
    + rewrite He. cbn [tick results errors].
      destruct (IH (start + 1)
                  {| tick := k1; results := results s;
                     errors := errors s ++ [RowError start e] |})
        as (ds & es & k' & Hrun & Hk).
      exists ds, (RowError start e :: es), k'. subst rest. rewrite Hrun.
      cbn [tick results errors] in *.
      rewrite <- app_assoc. split; [reflexivity|].
      eapply logged_rejected; eassumption.
Qed.

Lemma review_rows_loop_accounts (utcnow : nat -> Z) (rows : list pyval)
    (s : locals) :
  Forall csv_row rows ->
  exists ds es k',
    review_rows_loop utcnow rows s
    = (Return tt,
       {| tick := k'; results := results s ++ ds;
          errors := errors s ++ es |}) /\
    logged (validate_review utcnow) 2 (tick s) rows ds es k'.
Proof. apply review_rows_loop_logged. Qed.

Lemma logged_lengths (validate : pyval -> M nat pyval) (i : Z) (k : nat)
    (xs ds : list pyval) (es : list error_entry) (k' : nat) :
  logged validate i k xs ds es k' ->
  (List.length ds + List.length es = List.length xs)%nat.
Proof. induction 1; cbn [List.length]; lia. Qed.

(** X10.  On a file that exists, that the reader reads to its end as
    UTF-8 (no byte that does not decode, no [csv.Error]) and that has the
    four columns in its header, [load_csv_reviews] returns.  Every row is
    accounted for once and in the order of the file: by its document in
    the list returned when [validate_review] accepts it, by an entry of
    [errors] holding its number (2 for the first row) and the [ValueError]
    when it is rejected; so the documents and the errors number together
    as many as the rows. *)
Theorem load_csv_reviews_accounts_for_rows (utcnow : nat -> Z)
    (f : csv_file) (t : csv_text) (actual : list pystr) (k : nat) :
  csv_exists f = true ->
  csv_utf8 f = Utf8Reading t false ->
  csv_fieldnames t = Some actual ->
  issubset expected_headers actual = true ->
  exists ds es k',
    load_csv_reviews utcnow f k
    = (Return ds, {| tick := k'; results := ds; errors := es |}) /\
    logged (validate_review utcnow) 2 k (DictReader_rows t) ds es k' /\
    (List.length ds + List.length es
     = List.length (DictReader_rows t))%nat.
Proof.
  intros Hex Hu Hf Hsub.
  unfold load_csv_reviews, load_csv_reviews_body, utf8_rows, latin1_rows.
  rewrite Hex, Hu, Hf, Hsub. cbn [negb].
  destruct (review_rows_loop_accounts utcnow (DictReader_rows t) (fresh k)
              (DictReader_rows_are_csv_rows t))
    as (ds & es & k' & Hrun & Hk).
  unfold try_except_UnicodeDecodeError, bind at 1 2 3.
  rewrite Hrun. cbn. exists ds, es, k'.
  split; [reflexivity|]. split; [exact Hk|].
  exact (logged_lengths _ _ _ _ _ _ _ Hk).
Qed.

Lemma load_csv_reviews_accounts_for_rows_witness :
  exists ds es k',
    load_csv_reviews (fun _ => 0) MoreExamples.csv_three_rows 0%nat
    = (Return ds, {| tick := k'; results := ds; errors := es |}) /\
    logged (validate_review (fun _ => 0)) 2 0%nat
           (DictReader_rows MoreExamples.text_three_rows) ds es k' /\
    (List.length ds + List.length es
     = List.length (DictReader_rows MoreExamples.text_three_rows))%nat.
Proof.
  apply (load_csv_reviews_accounts_for_rows (fun _ => 0)
           MoreExamples.csv_three_rows MoreExamples.text_three_rows
           Examples.full_header 0%nat); reflexivity.
Defined.

(** X11.  On a row that [csv.DictReader] yields, whatever the header and
    the record, [validate_review] returns a document or raises a
    [ValueError]: no other exception leaves it, so the row loop of
    [load_csv_reviews] is never aborted by a row. *)
Theorem validate_review_on_csv_rows (utcnow : nat -> Z)
    (fieldnames record : list pystr) (k : nat) :
  (exists d k',
     validate_review utcnow (DictReader_row fieldnames record) k
     = (Return d, k')) \/
  (exists e k',
     validate_review utcnow (DictReader_row fieldnames record) k
     = (Raise e, k') /\
     is_ValueError e = true).
Proof.
  apply validate_review_csv_row. apply DictReader_row_is_csv_row.
Qed.



(** X13.  When the decoding error comes after the header has been
    accepted, the documents of the rows read as UTF-8 before the error
    stay in the list and the file is read again as Latin-1 from its first
    row.  When that reading reaches the end of the file,
    [load_csv_reviews] returns the documents of the first reading followed
    by those of all the rows of the second: the rows read before the
    error are loaded twice.  When the reader raises [csv.Error] on the
    second reading, the load raises it and returns nothing. *)
Theorem load_csv_reviews_fallback_appends (utcnow : nat -> Z) (f : csv_file)
    (t : csv_text) (actual : list pystr) (k : nat) :
  csv_exists f = true ->
  csv_utf8 f = Utf8Reading t true ->
  csv_fieldnames t = Some actual ->
  issubset expected_headers actual = true ->
  exists ds1 k1,
    kept (validate_review utcnow) k (DictReader_rows t) ds1 k1 /\
    match csv_latin1_end f with
    | Latin1EndOfFile =>
        exists ds2 s',
          load_csv_reviews utcnow f k = (Return (ds1 ++ ds2), s') /\
          kept (validate_review utcnow) k1
               (DictReader_rows (csv_latin1 f)) ds2 (tick s')
    | Latin1FieldnamesCsvError =>
        exists s',
          load_csv_reviews utcnow f k = (Raise CsvError, s') /\
          results s' = ds1 /\ tick s' = k1
    | Latin1RowsCsvError =>
        exists ds2 s',
          load_csv_reviews utcnow f k = (Raise CsvError, s') /\
          results s' = ds1 ++ ds2 /\
          kept (validate_review utcnow) k1
               (DictReader_rows (csv_latin1 f)) ds2 (tick s')
    end.
Proof.
  intros Hex Hu Hf Hsub.
  unfold load_csv_reviews, load_csv_reviews_body, utf8_rows, latin1_rows.
  rewrite Hex, Hu, Hf, Hsub. cbn [negb].
  destruct (review_rows_loop_kept utcnow (DictReader_rows t) (fresh k)
              (DictReader_rows_are_csv_rows t))
    as (ds1 & k1 & errs1 & Hrun1 & Hk1).
  destruct (review_rows_loop_kept utcnow (DictReader_rows (csv_latin1 f))
              {| tick := k1; results := results (fresh k) ++ ds1;
                 errors := errs1 |} (DictReader_rows_are_csv_rows _))
    as (ds2 & k2 & errs2 & Hrun2 & Hk2).
  exists ds1, k1. split; [exact Hk1|].
  destruct (csv_latin1_end f).
  - unfold try_except_UnicodeDecodeError, bind at 1 2 3.
    rewrite Hrun1. cbn [raise]. rewrite Hrun2. cbn.
    eexists _, _. split; [reflexivity|]. exact Hk2.
  - unfold try_except_UnicodeDecodeError, bind at 1 2 3.
    rewrite Hrun1. cbn. eexists. repeat split.
  - unfold try_except_UnicodeDecodeError, bind at 1 2 3.
    rewrite Hrun1. cbn [raise]. unfold bind at 1. rewrite Hrun2. cbn.
    eexists _, _. split; [reflexivity|]. split; [reflexivity|]. exact Hk2.
Qed.

Lemma load_csv_reviews_fallback_appends_witness :
  exists ds1 k1,
    kept (validate_review (fun _ => 0)) 0%nat
         (DictReader_rows MoreExamples.text_one_row) ds1 k1 /\
    exists ds2 s',
      load_csv_reviews (fun _ => 0) Examples.csv_undecodable_tail 0%nat
      = (Return (ds1 ++ ds2), s') /\
      kept (validate_review (fun _ => 0)) k1
           (DictReader_rows (csv_latin1 Examples.csv_undecodable_tail)) ds2
           (tick s').
Proof.
  exact (load_csv_reviews_fallback_appends (fun _ => 0)
           Examples.csv_undecodable_tail MoreExamples.text_one_row
           Examples.full_header 0%nat eq_refl eq_refl eq_refl eq_refl).
Defined.

(** X14.  Whenever [load_json_locations] returns, the file held an array,
    and the list returned holds the documents of the elements that
    [validate_location] accepts, in the order of the array and one for
    each; the elements left out are those rejected with a [ValueError]. *)
Theorem load_json_locations_keeps_order (utcnow : nat -> Z) (f : json_file)
    (k : nat) (ds : list pyval) (s' : locals) :
  load_json_locations utcnow f k = (Return ds, s') ->
  exists elements,
    json_content f = JsonValue (PList elements) /\
    results s' = ds /\
    kept (validate_location utcnow) k elements ds (tick s').
Proof. apply load_json_locations_in_order. Qed.

Lemma load_json_locations_keeps_order_witness :
  exists elements,
    json_content MoreExamples.json_two_locations = JsonValue (PList elements) /\
    results (snd (load_json_locations (fun _ => 0)
                    MoreExamples.json_two_locations 0%nat))
    = MoreExamples.loaded_two_locations /\
    kept (validate_location (fun _ => 0)) 0%nat elements
         MoreExamples.loaded_two_locations
         (tick (snd (load_json_locations (fun _ => 0)
                       MoreExamples.json_two_locations 0%nat))).
Proof.
  apply (load_json_locations_keeps_order (fun _ => 0)
           MoreExamples.json_two_locations 0%nat
           MoreExamples.loaded_two_locations
           (snd (load_json_locations (fun _ => 0)
                   MoreExamples.json_two_locations 0%nat))).
  reflexivity.
Defined.

(** X28.  For every JSON file that exists: when [json.load] gives a value
    that is not an array, [load_json_locations] raises the [ValueError] of
    the invalid-shape failure; when [json.load] raises [JSONDecodeError],
    it raises the [ValueError] of the invalid-JSON failure.  In both cases
    the locals are those of the entry: no record is collected, no error is
    recorded and the clock is not read, so no element has been
    validated. *)
Theorem load_json_locations_file_level (utcnow : nat -> Z) (f : json_file)
    (k : nat) :
  json_exists f = true ->
  (forall data,
     json_content f = JsonValue data ->
     (forall elements, data <> PList elements) ->
     exists e,
       load_json_locations utcnow f k = (Raise e, fresh k) /\
       fails_with e InvalidShape) /\
  (forall detail,
     json_content f = JsonMalformed detail ->
     exists e,
       load_json_locations utcnow f k = (Raise e, fresh k) /\
       fails_with e InvalidJson).
Proof.
  intros Hex. unfold load_json_locations, load_json_locations_body.
  rewrite Hex. cbn [negb]. split.
  - intros data Hc Hshape. rewrite Hc.
    exists (ValueError JsonMustContainArray).
    split; [|eexists; split; reflexivity].
    destruct data; try reflexivity.
    exfalso. eapply Hshape. reflexivity.
  - intros detail Hc. rewrite Hc.
    exists (ValueError (InvalidJsonFormat detail)).
    split; [reflexivity|eexists; split; reflexivity].
Qed.

Lemma load_json_locations_file_level_witness :
  (exists e,
     load_json_locations (fun _ => 0) Examples.json_object 0%nat
     = (Raise e, fresh 0) /\ fails_with e InvalidShape) /\
  (exists e,
     load_json_locations (fun _ => 0) Examples.json_malformed 0%nat
     = (Raise e, fresh 0) /\ fails_with e InvalidJson).
Proof.
  split.
  - apply (proj1 (load_json_locations_file_level (fun _ => 0)
                    Examples.json_object 0%nat eq_refl)
                 Examples.location_sigiriya eq_refl).
    intros elements. discriminate.
  - exact (proj2 (load_json_locations_file_level (fun _ => 0)
                    Examples.json_malformed 0%nat eq_refl)
                 (PyStr.lit "Expecting value") eq_refl).
Defined.

(** X15.  On the UTF-8 reading, a header that lacks one of the four
    columns makes [load_csv_reviews] raise the schema-mismatch
    [ValueError] before any row: nothing is collected, nothing is recorded
    and the clock is not read. *)
Theorem load_csv_reviews_header_checked_first (utcnow : nat -> Z)
    (f : csv_file) (t : csv_text) (tail : bool) (actual : list pystr)
    (k : nat) :
  csv_exists f = true ->
  csv_utf8 f = Utf8Reading t tail ->
  csv_fieldnames t = Some actual ->
  issubset expected_headers actual = false ->
  load_csv_reviews utcnow f k
  = (Raise (ValueError (MissingCsvColumns
                          (difference expected_headers actual))), fresh k) /\
  difference expected_headers actual <> [].
Proof.
  intros Hex Hu Hf Hsub. split.
  - unfold load_csv_reviews, load_csv_reviews_body, utf8_rows, latin1_rows.
    rewrite Hex, Hu, Hf, Hsub. reflexivity.
  - unfold issubset, difference in *.
    induction expected_headers as [|h hs IH]; [discriminate|].
    cbn [forallb filter] in *.
    destruct (header_in actual h); cbn [negb andb] in *;
      [now apply IH|discriminate].
Qed.

Lemma load_csv_reviews_header_checked_first_witness :
  load_csv_reviews (fun _ => 0) Examples.csv_utf8_without_review 0%nat
  = (Raise (ValueError (MissingCsvColumns
        (difference expected_headers Examples.header_without_review))),
     fresh 0) /\
  difference expected_headers Examples.header_without_review <> [].
Proof.
  apply (load_csv_reviews_header_checked_first (fun _ => 0)
           Examples.csv_utf8_without_review
           {| csv_fieldnames := Some Examples.header_without_review;
              csv_records := [Examples.record_beaches] |}
           false Examples.header_without_review 0%nat); reflexivity.
Defined.

(** X29.  An exception of the UTF-8 reading other than
    [UnicodeDecodeError] is not retried as Latin-1 and leaves
    [load_csv_reviews]: the [OSError] of [open] on a path that exists and
    cannot be read, and the [csv.Error] of a field over the reader's
    limit, in the header or after some rows.  The rows read before the
    error have been validated, and their documents, kept in the locals,
    are not returned. *)
Theorem load_csv_reviews_reader_errors_escape (utcnow : nat -> Z)
    (f : csv_file) (k : nat) :
  csv_exists f = true ->
  (csv_utf8 f = Utf8OpenFails ->
   load_csv_reviews utcnow f k = (Raise OSError, fresh k)) /\
  (csv_utf8 f = Utf8FieldnamesCsvError ->
   load_csv_reviews utcnow f k = (Raise CsvError, fresh k)) /\
  (forall t actual,
     csv_utf8 f = Utf8ReadingCsvError t ->
     csv_fieldnames t = Some actual ->
     issubset expected_headers actual = true ->
     exists s',
       load_csv_reviews utcnow f k = (Raise CsvError, s') /\
       kept (validate_review utcnow) k (DictReader_rows t) (results s')
            (tick s')).
Proof.
  intros Hex.
  unfold load_csv_reviews, load_csv_reviews_body, utf8_rows.
  rewrite Hex. cbn [negb].
  split; [intros ->; reflexivity|]. split; [intros ->; reflexivity|].
  intros t actual -> Hf Hsub. rewrite Hf, Hsub. cbn [negb].
  destruct (review_rows_loop_kept utcnow (DictReader_rows t) (fresh k)
              (DictReader_rows_are_csv_rows t))
    as (ds & k' & errs & Hrun & Hk).
  unfold try_except_UnicodeDecodeError, bind at 1 2 3.
  rewrite Hrun. cbn. eexists. split; [reflexivity|]. exact Hk.
Qed.

Lemma load_csv_reviews_reader_errors_escape_witness :
  exists s',
    load_csv_reviews (fun _ => 0) MoreExamples.csv_oversize_field 0%nat
    = (Raise CsvError, s') /\
    kept (validate_review (fun _ => 0)) 0%nat
         (DictReader_rows MoreExamples.text_one_row) (results s') (tick s').
Proof.
  exact (proj2 (proj2 (load_csv_reviews_reader_errors_escape (fun _ => 0)
                         MoreExamples.csv_oversize_field 0%nat eq_refl))
               MoreExamples.text_one_row Examples.full_header
               eq_refl eq_refl eq_refl).
Defined.

(** ** The insert loop and the index requests *)

(** X16.  When every batch write succeeds or reports a partial failure,
    [insert_locations] sends the batches [locations[i:i+100]] to the
    locations collection in order, one unordered [insert_many] each; the
    batches put end to end are the input and hold 100 documents each but
    the last; the counters are the length of the input, the sum of what
    the batches persisted and the sum of their write errors. *)
Theorem insert_locations_batches (Store : Type)
    (driver : collection_name -> list pyval -> Store
              -> outcome (list Z) * Store)
    (locations : list pyval) (w : world Store) :
  write_level driver ->
  let bs := batches locations in
  let rs := replies driver LOCATIONS_COLLECTION bs (store w) in
  List.concat bs = locations /\
  (forall i b,
     nth_error bs i = Some b ->
     (1 <= List.length b <= 100)%nat /\
     (S i < List.length bs -> List.length b = 100)%nat) /\
  exists st',
    insert_locations Store driver locations w
    = (Return {| total := Z.of_nat (List.length locations);
                 inserted := sumZ (map persisted rs);
                 errors_count := sumZ (map write_errors rs) |},
       {| store := st';
          calls := calls w ++
                   map (fun b => InsertMany LOCATIONS_COLLECTION b false)
                       bs |}).
Proof.
  intros Hwl bs rs. split; [apply concat_batches|].
  split; [intros i b; apply length_batches|].
  destruct (insert_loop_counts Store driver LOCATIONS_COLLECTION locations
              (range0 (Z.of_nat (List.length locations)) BATCH_SIZE) 0 0 w Hwl)
    as [st' H].
  exists st'. unfold insert_locations, bind. rewrite H. reflexivity.
Qed.

Lemma insert_locations_batches_witness :
  exists st',
    insert_locations nat Examples.driver_two_rejected Examples.reviews_250
      {| store := 0%nat; calls := [] |}
    = (Return {| total := 250; inserted := 248; errors_count := 2 |},
       {| store := st';
          calls := map (fun b => InsertMany LOCATIONS_COLLECTION b false)
                       (batches Examples.reviews_250) |}).
Proof.
  exact (proj2 (proj2
           (insert_locations_batches nat Examples.driver_two_rejected
              Examples.reviews_250 {| store := 0%nat; calls := [] |}
              driver_two_rejected_write_level))).
Defined.

Lemma replies_account {Store : Type}
    (driver : collection_name -> list pyval -> Store
              -> outcome (list Z) * Store)
    (c : collection_name) (bs : list (list pyval)) (st : Store) :
  accounts_for_batches driver ->
  sumZ (map persisted (replies driver c bs st))
  + sumZ (map write_errors (replies driver c bs st))
  = Z.of_nat (List.length (List.concat bs)).
Proof.
  intros Hacc. revert st. induction bs as [|b bs IH]; intros st.
  - reflexivity.
  - cbn [replies map List.concat]. unfold sumZ in *. cbn [fold_right].
    rewrite length_app, Nat2Z.inj_add.
    specialize (IH (snd (driver c b st))). specialize (Hacc c b st). lia.
Qed.

(** X17.  When every batch write succeeds or reports a partial failure
    and every answer accounts for each document of its batch, as
    persisted or as a write error, the counters of [insert_reviews] and of
    [insert_locations] add up: [inserted + errors = total]. *)
Theorem insert_counters_add_up (Store : Type)
    (driver : collection_name -> list pyval -> Store
              -> outcome (list Z) * Store)
    (docs : list pyval) (w : world Store) :
  write_level driver ->
  accounts_for_batches driver ->
  (exists r w',
     insert_reviews Store driver docs w = (Return r, w') /\
     inserted r + errors_count r = total r) /\
  (exists r w',
     insert_locations Store driver docs w = (Return r, w') /\
     inserted r + errors_count r = total r).
Proof.
  intros Hwl Hacc. split.
  - destruct (insert_loop_counts Store driver REVIEWS_COLLECTION docs
                (range0 (Z.of_nat (List.length docs)) BATCH_SIZE) 0 0 w Hwl)
      as [st' H].
    eexists _, _. unfold insert_reviews, bind. rewrite H.
    split; [reflexivity|]. cbn [inserted errors_count total fst snd].
    pose proof (replies_account driver REVIEWS_COLLECTION (batches docs)
                  (store w) Hacc) as Hsum.
    rewrite concat_batches in Hsum. unfold batches in Hsum. lia.
  - destruct (insert_loop_counts Store driver LOCATIONS_COLLECTION docs
                (range0 (Z.of_nat (List.length docs)) BATCH_SIZE) 0 0 w Hwl)
      as [st' H].
    eexists _, _. unfold insert_locations, bind. rewrite H.
    split; [reflexivity|]. cbn [inserted errors_count total fst snd].
    pose proof (replies_account driver LOCATIONS_COLLECTION (batches docs)
                  (store w) Hacc) as Hsum.
    rewrite concat_batches in Hsum. unfold batches in Hsum. lia.
Qed.

Lemma driver_two_rejected_accounts :
  accounts_for_batches Examples.driver_two_rejected.
Proof.
  intros c batch [|[|received]]; cbn;
    rewrite ?length_map, ?length_seq; lia.
Qed.

Lemma insert_counters_add_up_witness :
  (exists r w',
     insert_reviews nat Examples.driver_two_rejected Examples.reviews_250
       {| store := 0%nat; calls := [] |} = (Return r, w') /\
     inserted r + errors_count r = total r) /\
  (exists r w',
     insert_locations nat Examples.driver_two_rejected Examples.reviews_250
       {| store := 0%nat; calls := [] |} = (Return r, w') /\
     inserted r + errors_count r = total r).
Proof.
  exact (insert_counters_add_up nat Examples.driver_two_rejected
           Examples.reviews_250 {| store := 0%nat; calls := [] |}
           driver_two_rejected_write_level driver_two_rejected_accounts).
Defined.

Lemma insert_loop_stops {Store : Type}
    (driver : collection_name -> list pyval -> Store
              -> outcome (list Z) * Store)
    (c : collection_name) (docs : list pyval) (ss1 : list Z) (i : Z)
    (ss2 : list Z) (e : exn) (ins errs : Z) (w : world Store) :
  let f := fun i => slice docs i (i + BATCH_SIZE) in
  Forall handled (replies driver c (map f ss1) (store w)) ->
  fst (driver c (f i) (store_after driver c (map f ss1) (store w)))
  = Raise e ->
  ~ handled (Raise e) ->
  insert_loop Store driver c docs (ss1 ++ i :: ss2) ins errs w
  = (Raise e,
     {| store := snd (driver c (f i)
                        (store_after driver c (map f ss1) (store w)));
        calls := calls w ++
                 map (fun b => InsertMany c b false) (map f ss1 ++ [f i]) |}).
Proof.
  intros f. revert ins errs w.
  induction ss1 as [|j ss1 IH]; intros ins errs w Hrs He Hne.
  - cbn [app map replies store_after insert_loop] in *.
    unfold bind at 1, try_except_BulkWriteError, bind at 1, insert_many.
    fold (f i).
    destruct (driver c (f i) (store w)) as [r st]. cbn [fst snd] in *.
    subst r. destruct e; try reflexivity. exfalso. apply Hne. exact I.
  - cbn [app map replies store_after insert_loop] in *.
    inversion Hrs as [|r rs Hr Hrs']; subst.
    unfold bind at 1, try_except_BulkWriteError, bind at 1, insert_many.
    fold (f j).
    destruct (driver c (f j) (store w)) as [r st]. cbn [fst snd] in *.
    destruct r as [ids|e0].
    + cbn [ret fst snd].
      rewrite (IH _ _ {| store := st;
                         calls := calls w ++ [InsertMany c (f j) false] |}
                  Hrs' He Hne).
      cbn [store calls]. rewrite <- app_assoc. reflexivity.
    + destruct e0; try contradiction.
      cbn [ret fst snd].
      rewrite (IH _ _ {| store := st;
                         calls := calls w ++ [InsertMany c (f j) false] |}
                  Hrs' He Hne).
      cbn [store calls]. rewrite <- app_assoc. reflexivity.
Qed.

(** X18.  When the database answers a batch with an exception other than
    [BulkWriteError], the batches before it having succeeded or reported
    partial failures, [insert_reviews] and [insert_locations] raise that
    exception and return no counters: the batches up to that one have been
    sent, the later ones never are. *)
Theorem insert_stops_at_driver_error (Store : Type)
    (driver : collection_name -> list pyval -> Store
              -> outcome (list Z) * Store)
    (docs : list pyval) (bs1 : list (list pyval)) (b : list pyval)
    (bs2 : list (list pyval)) (e : exn) (w : world Store) :
  batches docs = bs1 ++ b :: bs2 ->
  ~ handled (Raise e) ->
  (Forall handled (replies driver REVIEWS_COLLECTION bs1 (store w)) ->
   fst (driver REVIEWS_COLLECTION b
          (store_after driver REVIEWS_COLLECTION bs1 (store w))) = Raise e ->
   exists st',
     insert_reviews Store driver docs w
     = (Raise e,
        {| store := st';
           calls := calls w ++
                    map (fun b => InsertMany REVIEWS_COLLECTION b false)
                        (bs1 ++ [b]) |})) /\
  (Forall handled (replies driver LOCATIONS_COLLECTION bs1 (store w)) ->
   fst (driver LOCATIONS_COLLECTION b
          (store_after driver LOCATIONS_COLLECTION bs1 (store w))) = Raise e ->
   exists st',
     insert_locations Store driver docs w
     = (Raise e,
        {| store := st';
           calls := calls w ++
                    map (fun b => InsertMany LOCATIONS_COLLECTION b false)
                        (bs1 ++ [b]) |})).
Proof.
  intros Hbs Hne. unfold batches in Hbs.
  apply map_eq_app in Hbs. destruct Hbs as (ss1 & ss' & Hss & <- & Hbs).
  apply map_eq_cons in Hbs. destruct Hbs as (i & ss2 & -> & <- & <-).
  split; intros Hrs He; eexists.
  - unfold insert_reviews, bind. rewrite Hss.
    rewrite (insert_loop_stops driver REVIEWS_COLLECTION docs ss1 i ss2 e
               0 0 w Hrs He Hne).
    reflexivity.
  - unfold insert_locations, bind. rewrite Hss.
    rewrite (insert_loop_stops driver LOCATIONS_COLLECTION docs ss1 i ss2 e
               0 0 w Hrs He Hne).
    reflexivity.
Qed.

Lemma insert_stops_at_driver_error_witness :
  (exists st',
     insert_reviews nat MoreExamples.driver_loses_connection
       Examples.reviews_250 {| store := 0%nat; calls := [] |}
     = (Raise PyMongoError,
        {| store := st';
           calls := map (fun b => InsertMany REVIEWS_COLLECTION b false)
                        [chunk Examples.reviews_250 0;
                         chunk Examples.reviews_250 1] |})) /\
  (exists st',
     insert_locations nat MoreExamples.driver_loses_connection
       Examples.reviews_250 {| store := 0%nat; calls := [] |}
     = (Raise PyMongoError,
        {| store := st';
           calls := map (fun b => InsertMany LOCATIONS_COLLECTION b false)
                        [chunk Examples.reviews_250 0;
                         chunk Examples.reviews_250 1] |})).
Proof.
  pose proof (insert_stops_at_driver_error nat
                MoreExamples.driver_loses_connection Examples.reviews_250
                [chunk Examples.reviews_250 0] (chunk Examples.reviews_250 1)
                [chunk Examples.reviews_250 2] PyMongoError
                {| store := 0%nat; calls := [] |}
                eq_refl (fun H => H)) as [H1 H2].
  split.
  - apply H1; [repeat constructor|reflexivity].
  - apply H2; [repeat constructor|reflexivity].
Defined.

Lemma index_answers_prefix {Store : Type}
    (driver : collection_name -> index_model -> Store
              -> outcome string * Store)
    (plan : list (collection_name * index_model)) (st : Store) :
  let '(sent, failure, _) := index_answers driver plan st in
  (exists n, sent = firstn n plan) /\
  (failure = None -> sent = plan) /\
  (forall e, failure = Some e -> sent <> []).
Proof.
  revert st. induction plan as [|[c ix] plan IH]; intros st.
  - cbn. split; [now exists 0%nat|]. split; [reflexivity|discriminate].
  - cbn [index_answers]. destruct (driver c ix st) as [[name|e] st'].
    + specialize (IH st').
      destruct (index_answers driver plan st') as [[sent failure] st''].
      destruct IH as ([n Hn] & Hall & Hsome).
      split; [exists (S n); cbn; now rewrite <- Hn|].
      split; [intros H; now rewrite (Hall H)|discriminate].
    + split; [now exists 1%nat|]. split; discriminate.
Qed.

(** [create_indexes] is the run of the index plan. *)
Lemma create_indexes_runs_plan (Store : Type)
    (driver : collection_name -> index_model -> Store
              -> outcome string * Store)
    (w : world Store) :
  create_indexes Store driver w
  = (match snd (fst (index_answers driver index_plan (store w))) with
     | None => Return tt
     | Some e => Raise e
     end,
     {| store := snd (index_answers driver index_plan (store w));
        calls := calls w ++
                 map (fun p => CreateIndex (fst p) (snd p))
                     (fst (fst (index_answers driver index_plan (store w))))
     |}).
Proof.
  destruct (index_answers driver index_plan (store w))
    as [[sent failure] st'] eqn:E.
  unfold index_plan in E. cbn [index_answers] in E.
  unfold create_indexes, bind, create_index, ret.
  repeat match type of E with
         | context [driver ?c ?ix ?s] =>
             destruct (driver c ix s) as [[?name|?e] ?st]; cbn [store calls]
         end;
    inversion E; subst; cbn [map fst snd];
    rewrite <- ?app_assoc; reflexivity.
Qed.


(** X19.  [create_indexes] sends the eleven index requests in order and
    stops at the first one the database refuses: it then raises the
    exception of that request, the requests before it have been sent and
    nothing is sent after it, no index being dropped; it returns exactly
    when the database has accepted all eleven. *)
Theorem create_indexes_stops_at_first_refusal (Store : Type)
    (driver : collection_name -> index_model -> Store
              -> outcome string * Store)
    (w : world Store) :
  let '(sent, failure, st') := index_answers driver index_plan (store w) in
  create_indexes Store driver w
  = (match failure with None => Return tt | Some e => Raise e end,
     {| store := st';
        calls := calls w ++ map (fun p => CreateIndex (fst p) (snd p)) sent |})
  /\ (exists n, sent = firstn n index_plan)
  /\ (failure = None -> sent = index_plan)
  /\ (forall e, failure = Some e -> sent <> []).
Proof.
  pose proof (index_answers_prefix driver index_plan (store w)) as Hp.
  pose proof (create_indexes_runs_plan Store driver w) as Hr.
  destruct (index_answers driver index_plan (store w))
    as [[sent failure] st'].
  split; [exact Hr|exact Hp].
Qed.

(** ** The run of [main] *)

Section RunFacts.

Variable utcnow : nat -> Z.
Variable Store : Type.
Variable drv : driver Store.
Variable cfg : config.

Section Quiet.

Variable P : request -> Prop.

Lemma quiet_ret {A} (a : A) : quiet P (ret (S := process Store) a).
Proof.
  intros p r p' H. inversion H; subst.
  split; [reflexivity|]. split; [tauto|].
  exists []. now rewrite app_nil_r.
Qed.

Lemma quiet_raise {A} (e : exn) :
  quiet P (raise (S := process Store) (A := A) e).
Proof.
  intros p r p' H. inversion H; subst.
  split; [reflexivity|]. split; [tauto|].
  exists []. now rewrite app_nil_r.
Qed.

Lemma quiet_bind {A B} (m : M (process Store) A)
    (k : A -> M (process Store) B) :
  quiet P m -> (forall a, quiet P (k a)) -> quiet P (bind m k).
Proof.
  intros Hm Hk p r p' H. unfold bind in H.
  destruct (m p) as [[a|e] p1] eqn:E.
  - destruct (Hm _ _ _ E) as (M1 & C1 & rs1 & R1 & F1).
    destruct (Hk a _ _ _ H) as (M2 & C2 & rs2 & R2 & F2).
    split; [congruence|]. split; [tauto|].
    exists (rs1 ++ rs2). rewrite R2, R1, app_assoc.
    split; [reflexivity|]. now apply Forall_app.
  - inversion H; subst. exact (Hm _ _ _ E).
Qed.

Lemma quiet_send {A} (rq : request) (answer : Store -> outcome A * Store) :
  P rq -> quiet P (send Store rq answer).
Proof.
  intros Hrq p r p' H. unfold send in H.
  destruct (answer (p_store p)) as [r0 st]. inversion H; subst.
  cbn. split; [reflexivity|]. split; [tauto|].
  exists [rq]. split; [reflexivity|]. now constructor.
Qed.

Lemma quiet_get_state : quiet P (get_state (S := process Store)).
Proof.
  intros p r p' H. inversion H; subst.
  split; [reflexivity|]. split; [tauto|].
  exists []. now rewrite app_nil_r.
Qed.

Lemma quiet_set_client : quiet P (set_client Store).
Proof.
  intros p r p' H. inversion H; subst. cbn.
  split; [reflexivity|]. split; [tauto|].
  exists []. now rewrite app_nil_r.
Qed.

Lemma quiet_set_db : quiet P (set_db Store cfg).
Proof.
  intros p r p' H. inversion H; subst. cbn.
  split; [reflexivity|]. split; [tauto|].
  exists []. now rewrite app_nil_r.
Qed.

Lemma quiet_loading (load : nat -> outcome (list pyval) * locals) :
  quiet P (loading Store load).
Proof.
  intros p r p' H. unfold loading in H.
  destruct (load (p_clock p)) as [r0 l]. inversion H; subst. cbn.
  split; [reflexivity|]. split; [tauto|].
  exists []. now rewrite app_nil_r.
Qed.

Lemma quiet_on_collections {A} (m : M (world Store) A) :
  (forall c, P (Call c)) -> quiet P (on_collections Store m).
Proof.
  intros Hc p r p' H. unfold on_collections in H.
  destruct (m _) as [r0 w]. inversion H; subst. cbn.
  split; [reflexivity|]. split; [tauto|].
  eexists. split; [reflexivity|].
  apply Forall_map. apply Forall_forall. intros c _. apply Hc.
Qed.

Lemma quiet_with_db {A} (m : M (process Store) A) :
  quiet P m -> quiet P (with_db Store m).
Proof.
  intros Hm. unfold with_db. apply quiet_bind; [apply quiet_get_state|].
  intros p. destruct (p_db p); [exact Hm|apply quiet_raise].
Qed.

Lemma quiet_connect :
  (forall uri t rw w, P (MongoClient uri t rw w)) -> P Ping ->
  quiet P (connect Store drv cfg).
Proof.
  intros Hc Hp. unfold connect.
  repeat (apply quiet_bind; [|intros ?]);
    auto using quiet_send, quiet_set_client, quiet_set_db.
Qed.

Lemma quiet_create_collections :
  P ListCollectionNames -> (forall c, P (Drop c)) ->
  (forall c v, P (CreateCollection c v)) ->
  quiet P (create_collections Store drv).
Proof.
  intros Hl Hd Hc. unfold create_collections.
  apply quiet_bind; [apply quiet_get_state|]. intros p.
  destruct (p_db p); [|apply quiet_raise].
  unfold drop_if_exists, create.
  repeat (apply quiet_bind; [|intros ?]);
    repeat match goal with
           | |- quiet _ (if ?b then _ else _) => destruct b
           end;
    auto using quiet_send, quiet_ret.
Qed.

Lemma quiet_generate_summary (review_stats location_stats : stats) :
  (forall c pipeline, P (Aggregate c pipeline)) ->
  (forall c, P (ListIndexes c)) ->
  quiet P (generate_summary Store drv review_stats location_stats).
Proof.
  intros Ha Hl. unfold generate_summary, aggregate, list_indexes.
  apply quiet_with_db.
  repeat (apply quiet_bind; [|intros ?]); auto using quiet_send, quiet_ret.
Qed.

End Quiet.

(** What follows the creation of the manager in the [try] block. *)
Lemma quiet_after_manager (reviews locations : list pyval) :
  quiet not_close
    (bind (connect Store drv cfg) (fun _ =>
     bind (create_collections Store drv) (fun _ =>
     bind (manager_insert_reviews Store drv reviews) (fun review_stats =>
     bind (manager_insert_locations Store drv locations)
          (fun location_stats =>
     bind (manager_create_indexes Store drv) (fun _ =>
     generate_summary Store drv review_stats location_stats)))))).
Proof.
  assert (N : forall rq, rq <> Close -> not_close rq) by (intros rq H; exact H).
  unfold manager_insert_reviews, manager_insert_locations,
    manager_create_indexes.
  apply quiet_bind;
    [apply quiet_connect; intros; apply N; discriminate|intros _].
  apply quiet_bind;
    [apply quiet_create_collections; intros; apply N; discriminate|intros _].
  apply quiet_bind;
    [apply quiet_with_db, quiet_on_collections; intros; apply N; discriminate
    |intros review_stats].
  apply quiet_bind;
    [apply quiet_with_db, quiet_on_collections; intros; apply N; discriminate
    |intros location_stats].
  apply quiet_bind;
    [apply quiet_with_db, quiet_on_collections; intros; apply N; discriminate
    |intros _].
  apply quiet_generate_summary; intros; apply N; discriminate.
Qed.

(** The state in which the [try] block of [main] ends: no [Close] has
    been sent, and a client is only ever set on a manager. *)
Lemma main_try_end (csv : csv_file) (json : json_file) (k : nat) (st : Store)
    (tried : outcome unit) (p1 : process Store) :
  main_try utcnow Store drv cfg csv json (start Store k st) = (tried, p1) ->
  Forall not_close (p_requests p1) /\
  (p_client p1 = true -> p_manager p1 = true).
Proof.
  unfold main_try. unfold bind at 1, loading at 1. cbn [p_clock start].
  destruct (load_csv_reviews utcnow csv k) as [[reviews|e] l1].
  2: { intros H. inversion H; subst. cbn. split; [constructor|discriminate]. }
  unfold bind at 1, loading at 1. cbn [p_clock].
  destruct (load_json_locations utcnow json (tick l1)) as [[locations|e] l2].
  2: { intros H. inversion H; subst. cbn. split; [constructor|discriminate]. }
  unfold bind at 1, new_manager at 1, modify.
  cbn [p_clock p_store p_requests].
  intros H. apply quiet_after_manager in H. cbn in H.
  destruct H as (Hm & _ & rs & -> & Hrs). split; [exact Hrs|].
  intros _. exact Hm.
Qed.

(** X20.  Whatever the files hold and whatever the database answers,
    [main] sends [Close] at most once and only as its last request, and
    it does so exactly when the client of the manager has been created:
    the connection is released on the success path and on every failure
    path, and no [Close] is sent when no client exists. *)
Theorem main_closes_last (csv : csv_file) (json : json_file) (k : nat)
    (st : Store) :
  let (code, p') := main utcnow Store drv cfg csv json (start Store k st) in
  exists rs,
    Forall not_close rs /\
    p_requests p' = rs ++ (if p_client p' then [Close] else []).
Proof.
  unfold main.
  destruct (main_try utcnow Store drv cfg csv json (start Store k st))
    as [tried p1] eqn:E.
  apply main_try_end in E. destruct E as [Hrs Hcm].
  unfold main_finally, disconnect, send.
  destruct (p_client p1) eqn:Hc.
  - rewrite (Hcm eq_refl).
    destruct (drv_close drv (p_store p1)) as [closed st'].
    cbn. rewrite ?Hc. exists (p_requests p1).
    split; [exact Hrs|reflexivity].
  - destruct (p_manager p1); cbn; rewrite ?Hc; exists (p_requests p1);
      (split; [exact Hrs|now rewrite app_nil_r]).
Qed.

(** The requests of [connect] when it returns. *)
Lemma connect_returns (p p' : process Store) (a : unit) :
  connect Store drv cfg p = (Return a, p') ->
  p_requests p'
  = p_requests p ++
    [MongoClient (MONGO_URI cfg) CONNECTION_TIMEOUT true "majority"; Ping] /\
  p_db p' = Some (DATABASE_NAME cfg) /\
  p_manager p' = p_manager p /\ p_client p' = true /\
  p_clock p' = p_clock p.
Proof.
  unfold connect, bind, send, set_client, set_db, modify.
  destruct (drv_client drv (MONGO_URI cfg) (p_store p)) as [[[]|e] st1];
    [|discriminate].
  cbn [p_store p_clock p_requests p_manager p_client p_db].
  destruct (drv_ping drv st1) as [[[]|e] st2]; [|discriminate].
  intros H. inversion H; subst. cbn. rewrite <- app_assoc. repeat split.
Qed.

(** The requests of [create_collections] when it returns. *)
Lemma create_collections_returns (p p' : process Store) (a : unit) :
  create_collections Store drv p = (Return a, p') ->
  exists existing st1,
    drv_list_collection_names drv (p_store p) = (Return existing, st1) /\
    p_requests p'
    = p_requests p ++ [ListCollectionNames] ++ drops existing ++ creates /\
    p_db p' = p_db p /\ p_manager p' = p_manager p /\
    p_client p' = p_client p /\ p_clock p' = p_clock p.
Proof.
  unfold create_collections, bind at 1, get_state.
  destruct (p_db p) eqn:Hdb; [|discriminate].
  unfold bind at 1, send at 1.
  destruct (drv_list_collection_names drv (p_store p))
    as [[existing|e] st1]; [|discriminate].
  intros H. exists existing, st1. split; [reflexivity|].
  revert H. unfold drop_if_exists, create, drops, creates, collection_string.
  unfold bind, send, ret.
  cbn [p_store p_clock p_requests p_manager p_client p_db].
  destruct (existsb (String.eqb "reviews") existing);
    destruct (existsb (String.eqb "locations") existing);
    cbn [p_store p_clock p_requests p_manager p_client p_db];
    repeat match goal with
           | |- context [drv_drop drv ?c ?s] =>
               destruct (drv_drop drv c s) as [[[]|?e] ?st];
               cbn [p_store p_clock p_requests p_manager p_client p_db];
               [|discriminate]
           | |- context [drv_create_collection drv ?c ?v ?s] =>
               destruct (drv_create_collection drv c v s) as [[[]|?e] ?st];
               cbn [p_store p_clock p_requests p_manager p_client p_db];
               [|discriminate]
           end;
    intros H; inversion H; subst; cbn;
    rewrite <- ?app_assoc; cbn [app]; repeat split; assumption.
Qed.

(** What follows the setup in the [try] block. *)
Lemma quiet_work (reviews locations : list pyval) :
  quiet (fun _ => True)
    (bind (manager_insert_reviews Store drv reviews) (fun review_stats =>
     bind (manager_insert_locations Store drv locations)
          (fun location_stats =>
     bind (manager_create_indexes Store drv) (fun _ =>
     generate_summary Store drv review_stats location_stats)))).
Proof.
  unfold manager_insert_reviews, manager_insert_locations,
    manager_create_indexes.
  apply quiet_bind;
    [apply quiet_with_db, quiet_on_collections; intros; exact I
    |intros review_stats].
  apply quiet_bind;
    [apply quiet_with_db, quiet_on_collections; intros; exact I
    |intros location_stats].
  apply quiet_bind;
    [apply quiet_with_db, quiet_on_collections; intros; exact I|intros _].
  apply quiet_generate_summary; intros; exact I.
Qed.

Lemma no_call_split (a b l1 l2 : list request) (c : driver_call) :
  Forall (fun rq => ~ is_call rq) a ->
  a ++ b = l1 ++ Call c :: l2 ->
  exists b1, l1 = a ++ b1.
Proof.
  intros Ha. revert l1. induction Ha as [|y a Hy Ha IH]; intros l1 H.
  - now exists l1.
  - destruct l1 as [|z l1]; cbn in H; inversion H; subst.
    + exfalso. apply Hy. exact I.
    + destruct (IH l1 H2) as [b1 ->]. now exists b1.
Qed.

Lemma no_call_absurd (l l1 l2 : list request) (c : driver_call) :
  Forall (fun rq => ~ is_call rq) l -> l <> l1 ++ Call c :: l2.
Proof.
  intros Hl ->. apply Forall_app in Hl. destruct Hl as [_ Hl].
  inversion Hl as [|x xs Hx _]; subst. apply Hx. exact I.
Qed.

(** The [finally] block sends [Close] or nothing. *)
Lemma main_finally_requests (p1 p2 : process Store) (closed : outcome unit) :
  main_finally Store drv p1 = (closed, p2) ->
  exists tail,
    p_requests p2 = p_requests p1 ++ tail /\
    Forall (fun rq => ~ is_call rq) tail.
Proof.
  unfold main_finally, disconnect, send, ret.
  destruct (p_manager p1); [destruct (p_client p1)|];
    try destruct (drv_close drv (p_store p1)) as [r st'];
    intros H; inversion H; subst; cbn.
  - exists [Close]. split; [reflexivity|]. constructor; [|constructor].
    intros [].
  - exists []. now rewrite app_nil_r.
  - exists []. now rewrite app_nil_r.
Qed.

Lemma setup_requests_no_call (existing : list string) :
  Forall (fun rq => ~ is_call rq) (setup_requests cfg existing).
Proof.
  unfold setup_requests, drops, creates.
  destruct (existsb (String.eqb "reviews") existing);
    destruct (existsb (String.eqb "locations") existing);
    repeat constructor; intros [].
Qed.

(** X21.  Whatever the files hold and whatever the database answers, a
    run of [main] writes nothing before the setup is complete: every
    [insert_many] and every [create_index] it sends comes after the
    client has been created, the ping answered, the collections listed,
    the existing ones dropped and both collections created with their
    validators. *)
Theorem main_writes_after_setup (csv : csv_file) (json : json_file)
    (k : nat) (st : Store) (rs1 rs2 : list request) (call : driver_call) :
  p_requests (snd (main utcnow Store drv cfg csv json (start Store k st)))
  = rs1 ++ Call call :: rs2 ->
  exists existing rest, rs1 = setup_requests cfg existing ++ rest.
Proof.
  assert (NC : forall rq, ~ is_call rq -> (fun rq => ~ is_call rq) rq)
    by (intros rq H; exact H).
  unfold main.
  destruct (main_try utcnow Store drv cfg csv json (start Store k st))
    as [tried p1] eqn:E.
  destruct (main_finally Store drv p1) as [closed p2] eqn:F.
  cbn [snd].
  apply main_finally_requests in F. destruct F as (tail & Hp2 & Htail).
  intros Hsplit. rewrite Hp2 in Hsplit. clear Hp2.
  revert E. unfold main_try. unfold bind at 1, loading at 1.
  cbn [p_clock start].
  destruct (load_csv_reviews utcnow csv k) as [[reviews|e] l1].
  2: { intros H. inversion H; subst. cbn in Hsplit.
       exfalso. exact (no_call_absurd _ _ _ _ Htail Hsplit). }
  unfold bind at 1, loading at 1. cbn [p_clock].
  destruct (load_json_locations utcnow json (tick l1)) as [[locations|e] l2].
  2: { intros H. inversion H; subst. cbn in Hsplit.
       exfalso. exact (no_call_absurd _ _ _ _ Htail Hsplit). }
  unfold bind at 1, new_manager at 1, modify.
  cbn [p_clock p_store p_requests].
  unfold bind at 1.
  match goal with
  | |- context [connect Store drv cfg ?p] =>
      destruct (connect Store drv cfg p) as [[[]|e] p4] eqn:Ec
  end.
  2: { intros H. inversion H; subst.
       apply (quiet_connect (fun rq => ~ is_call rq)) in Ec;
         [|intros; apply NC; intros []..].
       destruct Ec as (_ & _ & rs & Hrs & Hnc). cbn in Hrs.
       exfalso. eapply no_call_absurd; [|exact Hsplit].
       rewrite Hrs. apply Forall_app. split; [exact Hnc|exact Htail]. }
  apply connect_returns in Ec.
  destruct Ec as (Rc & Dc & _ & _ & _). cbn in Rc.
  unfold bind at 1.
  destruct (create_collections Store drv p4) as [[[]|e] p5] eqn:Ecc.
  2: { intros H. inversion H; subst.
       apply (quiet_create_collections (fun rq => ~ is_call rq)) in Ecc;
         [|intros; apply NC; intros []..].
       destruct Ecc as (_ & _ & rs & Hrs & Hnc).
       exfalso. eapply no_call_absurd; [|exact Hsplit].
       rewrite Hrs, Rc. apply Forall_app. split; [|exact Htail].
       apply Forall_app. split; [|exact Hnc].
       repeat constructor; intros []. }
  apply create_collections_returns in Ecc.
  destruct Ecc as (existing & st1 & _ & Rcc & _). rewrite Rc in Rcc.
  intros H.
  assert (Hw : exists rs, p_requests p1 = p_requests p5 ++ rs).
  { destruct (quiet_work reviews locations _ _ _ H) as (_ & _ & rs & Hrs & _).
    now exists rs. }
  destruct Hw as [rs Hrs]. rewrite Hrs, Rcc in Hsplit.
  change ([MongoClient (MONGO_URI cfg) CONNECTION_TIMEOUT true "majority";
           Ping] ++ [ListCollectionNames] ++ drops existing ++ creates)
    with (setup_requests cfg existing) in Hsplit.
  rewrite <- app_assoc in Hsplit.
  destruct (no_call_split _ _ _ _ _ (setup_requests_no_call existing) Hsplit)
    as [rest ->].
  now exists existing, rest.
Qed.





End RunFacts.

Section RunFacts2.

Variable utcnow : nat -> Z.
Variable Store : Type.
Variable drv : driver Store.
Variable cfg : config.

(** X23.  When a loader raises, be it for a missing file, a header
    without a required column, a file that is not JSON or not an array,
    [main] exits with code 1 without a manager and without a single
    request: the database is left as it was. *)
Theorem main_load_failure (csv : csv_file) (json : json_file) (k : nat)
    (st : Store) (e : exn) :
  (exists l, load_csv_reviews utcnow csv k = (Raise e, l)) \/
  (exists reviews l1 l2,
     load_csv_reviews utcnow csv k = (Return reviews, l1) /\
     load_json_locations utcnow json (tick l1) = (Raise e, l2)) ->
  exists k',
    main utcnow Store drv cfg csv json (start Store k st)
    = (1, start Store k' st).
Proof.
  intros [[l H]|(reviews & l1 & l2 & H1 & H2)];
    unfold main, main_try, start.
  - unfold bind at 1, loading at 1. cbn [p_clock]. rewrite H.
    exists (tick l). reflexivity.
  - unfold bind at 1, loading at 1. cbn [p_clock]. rewrite H1.
    unfold bind at 1, loading at 1. cbn [p_clock]. rewrite H2.
    exists (tick l2). reflexivity.
Qed.

(** X24.  On a connected manager and a database that answers,
    [create_collections] returns after having listed the collections,
    dropped each of [reviews] and [locations] that the listing names and
    no other collection, and created [reviews] and then [locations], each
    with the validator of its schema. *)
Theorem create_collections_drops_then_creates (p : process Store)
    (name : string) :
  cooperative drv ->
  p_db p = Some name ->
  exists existing st1 st',
    drv_list_collection_names drv (p_store p) = (Return existing, st1) /\
    create_collections Store drv p
    = (Return tt,
       {| p_clock := p_clock p; p_store := st';
          p_requests :=
            p_requests p ++ [ListCollectionNames] ++ drops existing ++ creates;
          p_manager := p_manager p; p_client := p_client p;
          p_db := p_db p |}).
Proof.
  intros Hc Hdb. destruct p as [pc ps prs pm pcl pdb].
  cbn [p_db] in Hdb. subst pdb.
  unfold create_collections, drop_if_exists, create, get_state,
    collection_string.
  unfold bind, send, ret, raise. cbn [p_db p_store].
  destruct (coop_list drv Hc ps) as (existing & s1 & E).
  rewrite E. exists existing, s1.
  cbn [p_clock p_store p_requests p_manager p_client p_db].
  unfold drops, creates.
  destruct (existsb (String.eqb "reviews") existing);
    destruct (existsb (String.eqb "locations") existing);
    cbn [p_clock p_store p_requests p_manager p_client p_db];
    repeat match goal with
           | |- context [drv_drop drv ?c ?s] =>
               let E := fresh "E" in
               destruct (coop_drop drv Hc c s) as [? E]; rewrite E; clear E;
               cbn [p_clock p_store p_requests p_manager p_client p_db]
           | |- context [drv_create_collection drv ?c ?v ?s] =>
               let E := fresh "E" in
               destruct (coop_create drv Hc c v s) as [? E]; rewrite E;
               clear E;
               cbn [p_clock p_store p_requests p_manager p_client p_db]
           end;
    eexists; (split; [reflexivity|]); f_equal; f_equal;
    cbn [app schema_of]; rewrite <- ?app_assoc; reflexivity.
Qed.

Lemma insert_loop_returned
    (driver : collection_name -> list pyval -> Store
              -> outcome (list Z) * Store)
    (c : collection_name) (docs : list pyval) (starts : list Z)
    (ins errs : Z) (w w' : world Store) (r : Z * Z) :
  insert_loop Store driver c docs starts ins errs w = (Return r, w') ->
  calls w'
  = calls w ++
    map (fun b => InsertMany c b false)
        (map (fun i => slice docs i (i + BATCH_SIZE)) starts).
Proof.
  revert ins errs w. induction starts as [|i starts IH]; intros ins errs w H.
  - cbn in H. inversion H; subst. cbn. now rewrite app_nil_r.
  - cbn [insert_loop] in H.
    unfold bind at 1, try_except_BulkWriteError, bind at 1, insert_many in H.
    destruct (driver c (slice docs i (i + BATCH_SIZE)) (store w))
      as [[ids|e] st'] eqn:E.
    + cbn [ret fst snd] in H. apply IH in H. cbn [calls] in H.
      rewrite H, <- app_assoc. reflexivity.
    + destruct e; try discriminate H.
      cbn [ret fst snd] in H. apply IH in H. cbn [calls] in H.
      rewrite H, <- app_assoc. reflexivity.
Qed.

Lemma manager_insert_reviews_returned (reviews : list pyval)
    (p p' : process Store) (r : stats) :
  manager_insert_reviews Store drv reviews p = (Return r, p') ->
  p_requests p'
  = p_requests p ++
    map (fun b => Call (InsertMany REVIEWS_COLLECTION b false))
        (batches reviews) /\
  same_manager Store p p'.
Proof.
  unfold manager_insert_reviews, with_db, bind, get_state, on_collections,
    same_manager.
  destruct (p_db p) eqn:Hdb; [|discriminate].
  destruct (insert_reviews _ _ _ _) as [[r0|e] w'] eqn:E;
    intros H; inversion H; subst; cbn.
  unfold insert_reviews, bind in E.
  destruct (insert_loop _ _ _ _ _ _ _ _) as [[cs|e] w1] eqn:L;
    inversion E; subst.
  apply insert_loop_returned in L. cbn [calls] in L. rewrite L.
  cbn [app]. unfold batches. rewrite !map_map. auto.
Qed.

Lemma manager_insert_locations_returned (locations : list pyval)
    (p p' : process Store) (r : stats) :
  manager_insert_locations Store drv locations p = (Return r, p') ->
  p_requests p'
  = p_requests p ++
    map (fun b => Call (InsertMany LOCATIONS_COLLECTION b false))
        (batches locations) /\
  same_manager Store p p'.
Proof.
  unfold manager_insert_locations, with_db, bind, get_state, on_collections,
    same_manager.
  destruct (p_db p) eqn:Hdb; [|discriminate].
  destruct (insert_locations _ _ _ _) as [[r0|e] w'] eqn:E;
    intros H; inversion H; subst; cbn.
  unfold insert_locations, bind in E.
  destruct (insert_loop _ _ _ _ _ _ _ _) as [[cs|e] w1] eqn:L;
    inversion E; subst.
  apply insert_loop_returned in L. cbn [calls] in L. rewrite L.
  cbn [app]. unfold batches. rewrite !map_map. auto.
Qed.

Lemma manager_create_indexes_returned (p p' : process Store) (a : unit) :
  manager_create_indexes Store drv p = (Return a, p') ->
  p_requests p'
  = p_requests p ++
    map (fun p => Call (CreateIndex (fst p) (snd p))) index_plan /\
  same_manager Store p p'.
Proof.
  unfold manager_create_indexes, with_db, bind, get_state, on_collections,
    same_manager.
  destruct (p_db p) eqn:Hdb; [|discriminate].
  rewrite create_indexes_runs_plan. cbn [store calls app].
  pose proof (index_answers_prefix (drv_create_index drv) index_plan
                (p_store p)) as Hp.
  destruct (index_answers (drv_create_index drv) index_plan (p_store p))
    as [[sent failure] st'].
  cbn [fst snd]. destruct Hp as (_ & Hall & _).
  destruct failure as [e|]; intros H; inversion H; subst; cbn.
  rewrite (Hall eq_refl), map_map. auto.
Qed.

Lemma generate_summary_returned (rs ls : stats) (p p' : process Store)
    (a : unit) :
  generate_summary Store drv rs ls p = (Return a, p') ->
  p_requests p' = p_requests p ++ summary_requests /\ same_manager Store p p'.
Proof.
  unfold generate_summary, with_db, aggregate, list_indexes, same_manager,
    summary_requests.
  unfold bind, get_state, send, ret.
  destruct (p_db p) eqn:Hdb; [|discriminate].
  cbn [p_clock p_store p_requests p_manager p_client p_db].
  repeat match goal with
         | |- context [drv_aggregate drv ?c ?pl ?s] =>
             destruct (drv_aggregate drv c pl s) as [[?|?] ?];
             [|discriminate];
             cbn [p_clock p_store p_requests p_manager p_client p_db]
         | |- context [drv_list_indexes drv ?c ?s] =>
             destruct (drv_list_indexes drv c s) as [[?|?] ?];
             [|discriminate];
             cbn [p_clock p_store p_requests p_manager p_client p_db]
         end.
  intros H. inversion H; subst; cbn. rewrite <- !app_assoc. auto.
Qed.

(** X25.  An exit code of 0 means that the whole load has been carried
    out, whatever the database is: both files were loaded, and the
    requests sent are, in this order, those of the connection and of the
    collections, every batch of reviews, every batch of locations, the
    eleven indexes, the reads of the report, and [Close].  Had a loader, a
    write other than a partial failure, an index or a read failed, the
    code would be 1. *)
Theorem main_exit_zero (csv : csv_file) (json : json_file) (k : nat)
    (st : Store) (p' : process Store) :
  main utcnow Store drv cfg csv json (start Store k st) = (0, p') ->
  exists reviews l1 locations l2 existing,
    load_csv_reviews utcnow csv k = (Return reviews, l1) /\
    load_json_locations utcnow json (tick l1) = (Return locations, l2) /\
    p_requests p'
    = setup_requests cfg existing ++
      map (fun b => Call (InsertMany REVIEWS_COLLECTION b false))
          (batches reviews) ++
      map (fun b => Call (InsertMany LOCATIONS_COLLECTION b false))
          (batches locations) ++
      map (fun p => Call (CreateIndex (fst p) (snd p))) index_plan ++
      summary_requests ++ [Close].
Proof.
  unfold main.
  destruct (main_try utcnow Store drv cfg csv json (start Store k st))
    as [tried p1] eqn:E.
  destruct (main_finally Store drv p1) as [closed p2] eqn:F.
  destruct tried as [[]|e]; [|discriminate].
  destruct closed as [[]|e]; [|discriminate].
  intros H. inversion H; subst p2. clear H.
  revert E. unfold main_try. unfold bind at 1, loading at 1.
  cbn [p_clock start].
  destruct (load_csv_reviews utcnow csv k) as [[reviews|e] l1] eqn:Hcsv;
    [|discriminate].
  unfold bind at 1, loading at 1. cbn [p_clock].
  destruct (load_json_locations utcnow json (tick l1))
    as [[locations|e] l2] eqn:Hjson; [|discriminate].
  unfold bind at 1, new_manager at 1, modify.
  cbn [p_clock p_store p_requests].
  unfold bind at 1.
  match goal with
  | |- context [connect Store drv cfg ?p] =>
      destruct (connect Store drv cfg p) as [[[]|e] p4] eqn:Ec
  end; [|discriminate].
  apply connect_returns in Ec.
  destruct Ec as (Rc & Dc & Mc & Cc & _). cbn in Rc, Mc.
  unfold bind at 1.
  destruct (create_collections Store drv p4) as [[[]|e] p5] eqn:Ecc;
    [|discriminate].
  apply create_collections_returns in Ecc.
  destruct Ecc as (existing & st1 & _ & Rcc & _ & Mcc & Ccc & _).
  unfold bind at 1.
  destruct (manager_insert_reviews Store drv reviews p5)
    as [[rstats|e] p6] eqn:Er; [|discriminate].
  apply manager_insert_reviews_returned in Er.
  destruct Er as (Rr & _ & Mr & Cr & _).
  unfold bind at 1.
  destruct (manager_insert_locations Store drv locations p6)
    as [[lstats|e] p7] eqn:El; [|discriminate].
  apply manager_insert_locations_returned in El.
  destruct El as (Rl & _ & Ml & Cl & _).
  unfold bind at 1.
  destruct (manager_create_indexes Store drv p7) as [[[]|e] p8] eqn:Ei;
    [|discriminate].
  apply manager_create_indexes_returned in Ei.
  destruct Ei as (Ri & _ & Mi & Ci & _).
  intros Es. apply generate_summary_returned in Es.
  destruct Es as (Rs & _ & Ms & Cs & _).
  assert (M1 : p_manager p1 = true) by congruence.
  assert (C1 : p_client p1 = true) by congruence.
  revert F. unfold main_finally, disconnect, send. rewrite M1, C1.
  destruct (drv_close drv (p_store p1)) as [r st'].
  intros F. inversion F; subst. cbn [p_requests].
  exists reviews, l1, locations, l2, existing.
  split; [reflexivity|]. split; [exact Hjson|].
  rewrite Rs, Ri, Rl, Rr, Rcc, Rc. unfold setup_requests.
  cbn [app]. rewrite <- !app_assoc. cbn [app]. reflexivity.
Qed.

End RunFacts2.

Lemma driver_ok_cooperative : cooperative RunExamples.driver_ok.
Proof.
  constructor; try exact driver_accepts_write_level;
    cbn; intros; repeat eexists.
Qed.

Lemma main_load_failure_witness :
  exists k',
    main (fun _ => 0) unit RunExamples.driver_ok RunExamples.cfg
      RunExamples.csv_missing MoreExamples.json_two_locations
      (start unit 0 tt)
    = (1, start unit k' tt).
Proof.
  apply (main_load_failure (fun _ => 0) unit RunExamples.driver_ok
           RunExamples.cfg RunExamples.csv_missing
           MoreExamples.json_two_locations 0%nat tt FileNotFoundError).
  left. eexists. reflexivity.
Defined.

Lemma create_collections_drops_then_creates_witness :
  exists existing st1 st',
    drv_list_collection_names RunExamples.driver_ok
      (p_store RunExamples.connected) = (Return existing, st1) /\
    create_collections unit RunExamples.driver_ok RunExamples.connected
    = (Return tt,
       {| p_clock := 0; p_store := st';
          p_requests :=
            p_requests RunExamples.connected ++
            [ListCollectionNames] ++ drops existing ++ creates;
          p_manager := true; p_client := true;
          p_db := Some (DATABASE_NAME RunExamples.cfg) |}).
Proof.
  exact (create_collections_drops_then_creates unit RunExamples.driver_ok
           RunExamples.connected (DATABASE_NAME RunExamples.cfg)
           driver_ok_cooperative eq_refl).
Defined.


Lemma main_writes_after_setup_witness :
  exists existing rest,
    firstn 6 RunExamples.requests_of_run
    = setup_requests RunExamples.cfg existing ++ rest.
Proof.
  apply (main_writes_after_setup (fun _ => 0) unit RunExamples.driver_ok
           RunExamples.cfg MoreExamples.csv_three_rows
           MoreExamples.json_two_locations 0%nat tt
           (firstn 6 RunExamples.requests_of_run)
           (skipn 7 RunExamples.requests_of_run)
           (InsertMany REVIEWS_COLLECTION RunExamples.loaded_reviews false)).
  vm_compute. reflexivity.
Defined.

Lemma main_exit_zero_witness :
  exists reviews l1 locations l2 existing,
    load_csv_reviews (fun _ => 0) MoreExamples.csv_three_rows 0
    = (Return reviews, l1) /\
    load_json_locations (fun _ => 0) MoreExamples.json_two_locations (tick l1)
    = (Return locations, l2) /\
    RunExamples.requests_of_run
    = setup_requests RunExamples.cfg existing ++
      map (fun b => Call (InsertMany REVIEWS_COLLECTION b false))
          (batches reviews) ++
      map (fun b => Call (InsertMany LOCATIONS_COLLECTION b false))
          (batches locations) ++
      map (fun p => Call (CreateIndex (fst p) (snd p))) index_plan ++
      summary_requests ++ [Close].
Proof.
  apply (main_exit_zero (fun _ => 0) unit RunExamples.driver_ok
           RunExamples.cfg MoreExamples.csv_three_rows
           MoreExamples.json_two_locations 0%nat tt
           (snd (main (fun _ => 0) unit RunExamples.driver_ok
                   RunExamples.cfg MoreExamples.csv_three_rows
                   MoreExamples.json_two_locations (start unit 0 tt)))).
  vm_compute. reflexivity.
Defined.

(** ** The schemas and the validators *)

(** X26.  Every document [validate_review] returns meets what the
    schema of the reviews collection asks of its required fields: each of
    the fields the schema requires is in the document, is a string as the
    schema declares, and is as long as the least length the schema sets,
    the ten characters of [review_text]. *)
Theorem validated_reviews_meet_schema (utcnow : nat -> Z) (row doc : pyval)
    (k : nat) (f : pystr) :
  accepts (validate_review utcnow row) k doc ->
  In f (schema_required reviews_schema) ->
  exists d s property,
    doc = PDict d /\
    Dict.get d f = Some (PStr s) /\
    schema_property reviews_schema f = Some property /\
    declared_type property = Some (PyStr.lit "string") /\
    forall n, declared_min_length property = Some n -> n <= PyStr.len s.
Proof.
  intros [k' H] Hf. apply validate_review_inv in H.
  destruct H as (d & s1 & s2 & s3 & s4 & _ & _ & _ & _ & _ & _ & _ & _ & _
                 & Hlen & _ & ->).
  cbn in Hf. destruct Hf as [<-|[<-|[<-|[<-|[]]]]];
    eexists _, _, _;
    (split; [reflexivity|]); (split; [reflexivity|]);
    (split; [reflexivity|]); (split; [reflexivity|]);
    intros n Hn; vm_compute in Hn; inversion Hn; subst; exact Hlen.
Qed.

Lemma validated_reviews_meet_schema_witness :
  exists d s property,
    Examples.review_document (fun _ => 0) 0 Examples.record_sigiriya
    = PDict d /\
    Dict.get d (PyStr.lit "review_text") = Some (PStr s) /\
    schema_property reviews_schema (PyStr.lit "review_text")
    = Some property /\
    declared_type property = Some (PyStr.lit "string") /\
    forall n, declared_min_length property = Some n -> n <= PyStr.len s.
Proof.
  apply (validated_reviews_meet_schema (fun _ => 0)
           (PDict MoreExamples.row_plain)
           (Examples.review_document (fun _ => 0) 0 Examples.record_sigiriya)
           0%nat (PyStr.lit "review_text")).
  - exists 2%nat. reflexivity.
  - cbn. tauto.
Defined.

(** X27.  Every document [validate_location] returns holds the fields
    the schema of the locations collection requires. *)
Theorem validated_locations_have_required_fields (utcnow : nat -> Z)
    (location doc : pyval) (k : nat) (f : pystr) :
  accepts (validate_location utcnow location) k doc ->
  In f (schema_required locations_schema) ->
  exists d v, doc = PDict d /\ Dict.get d f = Some v.
Proof.
  intros [k' H] Hf. apply validate_location_inv in H.
  destruct H as (d & meta & -> & M1 & M2 & M3 & _ & ->).
  apply mem_get in M1, M2, M3.
  destruct M1 as [v1 G1], M2 as [v2 G2], M3 as [v3 G3].
  cbn in Hf. destruct Hf as [<-|[<-|[<-|[]]]]; eexists _, _;
    (split; [reflexivity|]);
    (rewrite get_set_other; [eassumption|vm_compute; discriminate]).
Qed.

Lemma validated_locations_have_required_fields_witness :
  exists d v,
    Examples.validated_empty_name = PDict d /\
    Dict.get d (PyStr.lit "coordinates") = Some v.
Proof.
  apply (validated_locations_have_required_fields (fun _ => 0)
           Examples.location_empty_name Examples.validated_empty_name
           0%nat (PyStr.lit "coordinates")).
  - exists 2%nat. reflexivity.
  - cbn. tauto.
Defined.
